(** * C-Q-T steel heat treatment simulator: the web client, verified

    A shallow embedding of the TypeScript client under
    [web_application/frontend/src]:

    - [types/simulation.ts]: the request and result interfaces;
    - [services/api.ts]: [createDefaultSimulationRequest] and
      [validateSimulationRequest];
    - [components/InputForm.tsx]: [validationSchema] and
      [handleQuenchMediumChange];
    - [App.tsx]: [handleSimulationSubmit];
    - [components/QualityReport.tsx]: [qualityMetrics] and [overallScore];
    - [components/MaterialComparison.tsx]: [handleRunComparison].

    and, for the further properties at the end: the error interceptor and
    the request builders of [services/api.ts], the comparison and
    optimization handlers of [App.tsx], the [useNotification] hook, the
    steel-grade and section handlers of the form, the selection and
    condition handlers of the comparison tab, the optimization tab, the
    radar chart of the quality report and the cooling-rate and thermal-cycle
    charts of the thermal analysis.

    Numbers that the client only stores and compares with literals are
    exact rationals: a field of a form value that may hold no number at all
    (JavaScript's [undefined] or [NaN]) is a [jsnum], and numbers decoded
    from the server's JSON are plain [Q].  Where the client computes with
    numbers (the midpoint of a coefficient range, the cooling rates, the
    axes of the thermal cycle, the accuracy of an optimization) they are
    IEEE 754 doubles, [Double.t], with the Standard Library's
    specification of binary64 arithmetic. *)

From Stdlib Require Import QArith Lqa Lia List Ascii SpecFloat.
From stdpp Require Import base option gmap strings pretty.
Import ListNotations.

Local Open Scope string_scope.

(** ** JavaScript values *)

(** A [number] that may be missing: [None] stands for [undefined] and for
    [NaN], which behave alike in every test the client performs (both are
    falsy, and every ordering comparison with them is false). *)
Definition jsnum : Type := option Q.

Module JS.

Definition Qlt_bool (x y : Q) : bool := negb (Qle_bool y x).

(** [a < b] and [a > b] against a numeric literal [b]. *)
Definition lt (a : jsnum) (b : Q) : bool :=
  match a with Some x => Qlt_bool x b | None => false end.

Definition gt (a : jsnum) (b : Q) : bool :=
  match a with Some x => Qlt_bool b x | None => false end.

(** [!a] on a number: true for [undefined], [NaN] and zero. *)
Definition not_num (a : jsnum) : bool :=
  match a with Some x => Qeq_bool x 0 | None => true end.

(** [!s] on a string that may be [undefined]. *)
Definition not_str (s : option string) : bool :=
  match s with
  | Some s => if decide (s = "") then true else false
  | None => true
  end.

(** [a || b] where [a] is a string or [undefined] and [b] a string. *)
Definition or_str (a : option string) (b : string) : string :=
  match a with
  | Some s => if decide (s = "") then b else s
  | None => b
  end.

(** [a || b] where both sides may be [undefined]. *)
Definition or_opt (a b : option string) : option string :=
  match a with
  | Some s => if decide (s = "") then b else Some s
  | None => b
  end.

(** A value of a field declared [any]: its JSON text.  No modelled function
    looks inside one. *)
Definition any : Type := string.

(** What a rejected promise or a [throw] carries: the fields of the error
    object that the handlers read. *)
Record error : Type := Error {
  response_detail : option string;   (* err.response?.data?.detail *)
  message : option string            (* err.message *)
}.

(** [new Error(msg)] *)
Definition new_Error (msg : string) : error :=
  {| response_detail := None; message := Some msg |}.

(** The names of the properties that every plain object inherits from
    [Object.prototype]: those of the language standard and the legacy
    accessors that every browser provides. *)
Definition Object_prototype : list string :=
  [ "constructor"; "hasOwnProperty"; "isPrototypeOf"; "propertyIsEnumerable";
    "toLocaleString"; "toString"; "valueOf"; "__proto__";
    "__defineGetter__"; "__defineSetter__"; "__lookupGetter__";
    "__lookupSetter__" ].

(** What [o[key]] finds on a plain object, a literal or one decoded from
    JSON, whose own properties are the map [o]: an own property; or a
    property inherited from [Object.prototype], which is a function (for
    ['__proto__'], the prototype itself), hence truthy, and has none of the
    properties the client goes on to read from it; or [undefined]. *)
Inductive property (A : Type) : Type :=
| Own (a : A)
| Inherited
| Undefined.

Arguments Own {A} a.
Arguments Inherited {A}.
Arguments Undefined {A}.

Definition get {A : Type} (o : gmap string A) (key : string) : property A :=
  match o !! key with
  | Some a => Own a
  | None => if decide (key ∈ Object_prototype) then Inherited else Undefined
  end.

End JS.

(** ** Doubles

    A JavaScript number where the client computes with it: a binary64 value
    of the Standard Library's specification of IEEE 754 arithmetic, with its
    signed zeros, infinities and [NaN], and every operation rounded to the
    nearest double, ties to even. *)

Module Double.

Definition t : Type := spec_float.

Definition prec : Z := 53.
Definition emax : Z := 1024.

Definition NaN : t := S754_nan.
Definition Infinity : t := S754_infinity false.

Definition add : t -> t -> t := SFadd prec emax.
Definition sub : t -> t -> t := SFsub prec emax.
Definition mul : t -> t -> t := SFmul prec emax.
Definition div : t -> t -> t := SFdiv prec emax.

(** [Math.abs] *)
Definition abs : t -> t := SFabs.

(** [x < y], [x > y] and [x == y]: false when either side is [NaN]. *)
Definition lt : t -> t -> bool := SFltb.
Definition gt (x y : t) : bool := SFltb y x.
Definition eqb : t -> t -> bool := SFeqb.

(** The double that a numeric literal or a number of a JSON text denotes:
    the one nearest to its value, an infinity when the value is beyond the
    largest double.  It is the correctly rounded quotient of the numerator
    by the denominator, and the value itself when that is a double. *)
Definition of_Q (q : Q) : t :=
  match Qnum q with
  | Z0 => S754_zero false
  | Zpos n => div (S754_finite false n 0) (S754_finite false (Qden q) 0)
  | Zneg n => div (S754_finite true n 0) (S754_finite false (Qden q) 0)
  end.


(** An element read from an array and used in arithmetic: past the end it is
    [undefined], which becomes [NaN]. *)
Definition number (a : option t) : t :=
  match a with Some x => x | None => NaN end.

(** The exact value of a finite double. *)
Definition to_Q (x : t) : option Q :=
  match x with
  | S754_zero _ => Some 0%Q
  | S754_finite s m e => Some (inject_Z (cond_Zopp s (Zpos m)) * Qpower 2 e)%Q
  | _ => None
  end.

(** [!x]: true for both zeros and for [NaN]. *)
Definition falsy (x : t) : bool :=
  match x with
  | S754_zero _ | S754_nan => true
  | _ => false
  end.

(** [x || y] *)
Definition or (x y : t) : t := if falsy x then y else x.

End Double.

(** ** types/simulation.ts *)

Module SteelCompositionInput.
Record t : Type := mk {
  grade : option string;
  C : jsnum; Si : jsnum; Mn : jsnum; Ni : jsnum; Cr : jsnum; Mo : jsnum;
  V : jsnum; W : jsnum; Cu : jsnum; P : jsnum; Al : jsnum; As : jsnum;
  Ti : jsnum
}.
End SteelCompositionInput.

Module CarburizingConditions.
Record t : Type := mk {
  temperature : jsnum;
  time_hours : jsnum;
  carbon_potential : jsnum;
  heating_rate : jsnum;
  atmosphere_type : string;
  gas_flow_rate : jsnum;
  mass_transfer_coefficient : jsnum;
  diffusion_temperature : jsnum;
  diffusion_time : jsnum
}.

Definition set_temperature (v : jsnum) (c : t) : t :=
  mk v (time_hours c) (carbon_potential c) (heating_rate c)
     (atmosphere_type c) (gas_flow_rate c) (mass_transfer_coefficient c)
     (diffusion_temperature c) (diffusion_time c).

Definition set_time_hours (v : jsnum) (c : t) : t :=
  mk (temperature c) v (carbon_potential c) (heating_rate c)
     (atmosphere_type c) (gas_flow_rate c) (mass_transfer_coefficient c)
     (diffusion_temperature c) (diffusion_time c).
End CarburizingConditions.

Module QuenchingConditions.
Record t : Type := mk {
  quench_medium : string;
  quench_temperature : jsnum;
  (* the one field the form computes: [undefined] or a double *)
  heat_transfer_coefficient : option Double.t;
  agitation_rate : jsnum;
  quench_time : jsnum;
  delay_time : jsnum
}.

Definition set_quench_medium (v : string) (q : t) : t :=
  mk v (quench_temperature q) (heat_transfer_coefficient q)
     (agitation_rate q) (quench_time q) (delay_time q).

Definition set_quench_temperature (v : jsnum) (q : t) : t :=
  mk (quench_medium q) v (heat_transfer_coefficient q)
     (agitation_rate q) (quench_time q) (delay_time q).

Definition set_heat_transfer_coefficient (v : option Double.t) (q : t) : t :=
  mk (quench_medium q) (quench_temperature q) v
     (agitation_rate q) (quench_time q) (delay_time q).
End QuenchingConditions.

Module TemperingConditions.
Record t : Type := mk {
  temperature : jsnum;
  time_hours : jsnum;
  heating_rate : jsnum;
  cooling_method : string;
  multiple_tempers : bool;
  temper_cycles : jsnum
}.

Definition set_temperature (v : jsnum) (c : t) : t :=
  mk v (time_hours c) (heating_rate c) (cooling_method c)
     (multiple_tempers c) (temper_cycles c).
End TemperingConditions.

Module PartGeometry.
Record t : Type := mk {
  geometry_type : string;
  diameter : jsnum;
  length : jsnum;
  thickness : jsnum;
  characteristic_dimension : jsnum;
  surface_area : jsnum;
  volume : jsnum
}.
End PartGeometry.

Module InitialConditions.
Record t : Type := mk {
  initial_grain_size : jsnum;
  initial_hardness : jsnum;
  surface_condition : string;
  prior_heat_treatment : string
}.
End InitialConditions.

Module SimulationParameters.
Record t : Type := mk {
  spatial_points : jsnum;
  time_step_carburizing : jsnum;
  time_step_quenching : jsnum;
  max_analysis_depth : jsnum;
  convergence_tolerance : jsnum;
  output_resolution : string
}.
End SimulationParameters.

Module SimulationRequest.
Record t : Type := mk {
  steel_composition : SteelCompositionInput.t;
  carburizing : CarburizingConditions.t;
  quenching : QuenchingConditions.t;
  tempering : TemperingConditions.t;
  geometry : PartGeometry.t;
  initial_conditions : InitialConditions.t;
  simulation_params : SimulationParameters.t;
  calculation_id : option string
}.

Definition set_carburizing (v : CarburizingConditions.t) (r : t) : t :=
  mk (steel_composition r) v (quenching r) (tempering r) (geometry r)
     (initial_conditions r) (simulation_params r) (calculation_id r).

Definition set_quenching (v : QuenchingConditions.t) (r : t) : t :=
  mk (steel_composition r) (carburizing r) v (tempering r) (geometry r)
     (initial_conditions r) (simulation_params r) (calculation_id r).

Definition set_tempering (v : TemperingConditions.t) (r : t) : t :=
  mk (steel_composition r) (carburizing r) (quenching r) v (geometry r)
     (initial_conditions r) (simulation_params r) (calculation_id r).
End SimulationRequest.

(** [Partial<SimulationRequest>]: every top-level property may be absent. *)
Module PartialSimulationRequest.
Record t : Type := mk {
  steel_composition : option SteelCompositionInput.t;
  carburizing : option CarburizingConditions.t;
  quenching : option QuenchingConditions.t;
  tempering : option TemperingConditions.t;
  geometry : option PartGeometry.t;
  initial_conditions : option InitialConditions.t;
  simulation_params : option SimulationParameters.t;
  calculation_id : option string
}.

(** A full request used where a partial one is expected. *)
Definition of_request (r : SimulationRequest.t) : t :=
  mk (Some (SimulationRequest.steel_composition r))
     (Some (SimulationRequest.carburizing r))
     (Some (SimulationRequest.quenching r))
     (Some (SimulationRequest.tempering r))
     (Some (SimulationRequest.geometry r))
     (Some (SimulationRequest.initial_conditions r))
     (Some (SimulationRequest.simulation_params r))
     (SimulationRequest.calculation_id r).
End PartialSimulationRequest.

Module PropertyProfile.
Record t : Type := mk {
  distance_mm : list Q;
  carbon_profile : list Q;
  hardness_hv : list Q;
  hardness_hrc : list Q;
  grain_size : list Q;
  phase_fractions : gmap string (list Q)
}.
End PropertyProfile.

Module ThermalProfile.
Record t : Type := mk {
  time_carburizing : list Q;
  temperature_carburizing : list Q;
  time_quenching : list Q;
  temperature_quenching : list Q;
  cooling_rate : Q;
  surface_heat_flux : list Q
}.
End ThermalProfile.

Module CaseDepthResults.
Record t : Type := mk {
  case_depth_04_carbon : Q;
  case_depth_03_carbon : Q;
  case_depth_50_hrc : Q;
  case_depth_55_hrc : Q;
  effective_case_depth : Q;
  total_case_depth : Q
}.
End CaseDepthResults.

Module ProcessMetrics.
Record t : Type := mk {
  surface_carbon : Q;
  surface_hardness_hv : Q;
  surface_hardness_hrc : Q;
  core_hardness_hv : Q;
  core_hardness_hrc : Q;
  hardness_gradient : Q;
  carbon_gradient : Q;
  distortion_risk : string;
  grain_size_surface : Q;
  grain_size_core : Q
}.
End ProcessMetrics.

Module CriticalTemperatures.
Record t : Type := mk {
  ae3_temperature : Q;
  ae1_temperature : Q;
  ms_temperature_core : Q;
  ms_temperature_surface : Q;
  bs_temperature : Q
}.
End CriticalTemperatures.

Module QualityAssessment.
Record t : Type := mk {
  gear_requirements_met : bool;
  surface_hardness_ok : bool;
  case_depth_ok : bool;
  core_hardness_ok : bool;
  grain_size_ok : bool;
  overall_grade : string;
  recommendations : list string
}.
End QualityAssessment.

Module SimulationResults.
Record t : Type := mk {
  calculation_id : string;
  timestamp : string;
  computation_time : Q;
  property_profiles : PropertyProfile.t;
  thermal_profiles : ThermalProfile.t;
  case_depth_results : CaseDepthResults.t;
  process_metrics : ProcessMetrics.t;
  critical_temperatures : CriticalTemperatures.t;
  quality_assessment : QualityAssessment.t;
  input_summary : list (string * JS.any);
  warnings : list string;
  errors : list string;
  validation_status : string
}.
End SimulationResults.

Module ApiResponse.
Record t (T : Type) : Type := mk {
  data : T;
  status : Q;
  message : option string
}.
Arguments mk {T} _ _ _.
Arguments data {T} _.
Arguments status {T} _.
Arguments message {T} _.
End ApiResponse.

Module ValidationResponse.
Record t : Type := mk {
  valid : bool;
  error : option string;
  warnings : list string
}.
End ValidationResponse.

Module QuenchMedium.
Record t : Type := mk {
  name : string;
  typical_temperature : Q;
  (* declared [[number, number]]; the form tests it for presence *)
  heat_transfer_coefficient_range : option (Q * Q);
  description : string;
  applications : list string
}.
End QuenchMedium.

Module QuenchMediaResponse.
Record t : Type := mk {
  (* [Record<string, QuenchMedium>]; the form reads it as [quenchMedia?.media] *)
  media : option (gmap string QuenchMedium.t)
}.
End QuenchMediaResponse.

Module MaterialComparisonResult.
Record t : Type := mk {
  steel_grade : string;
  results : SimulationResults.t;
  relative_performance : gmap string Q
}.
End MaterialComparisonResult.

Module MaterialComparisonResponse.
Record t : Type := mk {
  comparison_results : list MaterialComparisonResult.t;
  ranking : list string;
  summary : list (string * JS.any)
}.
End MaterialComparisonResponse.

(** ** The result interfaces as declarations

    The interfaces of [types/simulation.ts] that describe what the server
    delivers, as data: each property with its optional mark and its type. *)

Module Schema.

Inductive ty : Type :=
| TNumber
| TString
| TBoolean
| TAny
| TArray (elt : ty)
| TRecord (key val : ty)
| TRef (interface_name : string).

Fixpoint ty_eqb (a b : ty) : bool :=
  match a, b with
  | TNumber, TNumber | TString, TString | TBoolean, TBoolean | TAny, TAny => true
  | TArray x, TArray y => ty_eqb x y
  | TRecord k v, TRecord k' v' => ty_eqb k k' && ty_eqb v v'
  | TRef n, TRef m => String.eqb n m
  | _, _ => false
  end.

Record property : Type := Prop_ {
  pname : string;
  optional : bool;
  ptype : ty
}.

Definition required (n : string) (t : ty) : property := Prop_ n false t.

Definition interface : Type := list property.

Definition PropertyProfile : interface :=
  [ required "distance_mm" (TArray TNumber);
    required "carbon_profile" (TArray TNumber);
    required "hardness_hv" (TArray TNumber);
    required "hardness_hrc" (TArray TNumber);
    required "grain_size" (TArray TNumber);
    required "phase_fractions" (TRecord TString (TArray TNumber)) ].

Definition ThermalProfile : interface :=
  [ required "time_carburizing" (TArray TNumber);
    required "temperature_carburizing" (TArray TNumber);
    required "time_quenching" (TArray TNumber);
    required "temperature_quenching" (TArray TNumber);
    required "cooling_rate" TNumber;
    required "surface_heat_flux" (TArray TNumber) ].

Definition CaseDepthResults : interface :=
  [ required "case_depth_04_carbon" TNumber;
    required "case_depth_03_carbon" TNumber;
    required "case_depth_50_hrc" TNumber;
    required "case_depth_55_hrc" TNumber;
    required "effective_case_depth" TNumber;
    required "total_case_depth" TNumber ].

Definition ProcessMetrics : interface :=
  [ required "surface_carbon" TNumber;
    required "surface_hardness_hv" TNumber;
    required "surface_hardness_hrc" TNumber;
    required "core_hardness_hv" TNumber;
    required "core_hardness_hrc" TNumber;
    required "hardness_gradient" TNumber;
    required "carbon_gradient" TNumber;
    required "distortion_risk" TString;
    required "grain_size_surface" TNumber;
    required "grain_size_core" TNumber ].

Definition CriticalTemperatures : interface :=
  [ required "ae3_temperature" TNumber;
    required "ae1_temperature" TNumber;
    required "ms_temperature_core" TNumber;
    required "ms_temperature_surface" TNumber;
    required "bs_temperature" TNumber ].

Definition QualityAssessment : interface :=
  [ required "gear_requirements_met" TBoolean;
    required "surface_hardness_ok" TBoolean;
    required "case_depth_ok" TBoolean;
    required "core_hardness_ok" TBoolean;
    required "grain_size_ok" TBoolean;
    required "overall_grade" TString;
    required "recommendations" (TArray TString) ].

Definition SimulationResults : interface :=
  [ required "calculation_id" TString;
    required "timestamp" TString;
    required "computation_time" TNumber;
    required "property_profiles" (TRef "PropertyProfile");
    required "thermal_profiles" (TRef "ThermalProfile");
    required "case_depth_results" (TRef "CaseDepthResults");
    required "process_metrics" (TRef "ProcessMetrics");
    required "critical_temperatures" (TRef "CriticalTemperatures");
    required "quality_assessment" (TRef "QualityAssessment");
    required "input_summary" (TRecord TString TAny);
    required "warnings" (TArray TString);
    required "errors" (TArray TString);
    required "validation_status" TString ].

(** The exported interfaces, by name. *)
Definition declarations : list (string * interface) :=
  [ ("PropertyProfile", PropertyProfile);
    ("ThermalProfile", ThermalProfile);
    ("CaseDepthResults", CaseDepthResults);
    ("ProcessMetrics", ProcessMetrics);
    ("CriticalTemperatures", CriticalTemperatures);
    ("QualityAssessment", QualityAssessment);
    ("SimulationResults", SimulationResults) ].

Fixpoint find_interface (ds : list (string * interface)) (n : string)
  : option interface :=
  match ds with
  | [] => None
  | (m, i) :: ds' => if String.eqb m n then Some i else find_interface ds' n
  end.

Fixpoint find_property (i : interface) (n : string) : option property :=
  match i with
  | [] => None
  | p :: i' => if String.eqb (pname p) n then Some p else find_property i' n
  end.

(** Interface [i] declares a non-optional property [n] of type [t]. *)
Definition declares (i n : string) (t : ty) : bool :=
  match find_interface declarations i with
  | None => false
  | Some props =>
      match find_property props n with
      | None => false
      | Some p => negb (optional p) && ty_eqb (ptype p) t
      end
  end.

(** Following a path of property names from an interface, through
    references to named interfaces, to the type at its end. *)
Fixpoint resolve (fuel : nat) (t : ty) (path : list string) : option ty :=
  match path with
  | [] => Some t
  | n :: path' =>
      match fuel, t with
      | S fuel', TRef i =>
          match find_interface declarations i with
          | None => None
          | Some props =>
              match find_property props n with
              | Some p => if optional p then None else resolve fuel' (ptype p) path'
              | None => None
              end
          end
      | _, _ => None
      end
  end.

(** The type reached from [SimulationResults] along [path]. *)
Definition delivered (path : list string) : option ty :=
  resolve (List.length path) (TRef "SimulationResults") path.

End Schema.

(** ** services/api.ts *)

Module Api.
Local Open Scope Q_scope.

Definition createDefaultSimulationRequest : SimulationRequest.t :=
  {| SimulationRequest.steel_composition :=
       {| SteelCompositionInput.grade := Some "";
          SteelCompositionInput.C := Some 0.20;
          SteelCompositionInput.Si := Some 0.25;
          SteelCompositionInput.Mn := Some 0.80;
          SteelCompositionInput.Ni := Some 0.55;
          SteelCompositionInput.Cr := Some 0.50;
          SteelCompositionInput.Mo := Some 0.20;
          SteelCompositionInput.V := Some 0.0;
          SteelCompositionInput.W := Some 0.0;
          SteelCompositionInput.Cu := Some 0.0;
          SteelCompositionInput.P := Some 0.0;
          SteelCompositionInput.Al := Some 0.0;
          SteelCompositionInput.As := Some 0.0;
          SteelCompositionInput.Ti := Some 0.0 |};
     SimulationRequest.carburizing :=
       {| CarburizingConditions.temperature := Some 920;
          CarburizingConditions.time_hours := Some 6.0;
          CarburizingConditions.carbon_potential := Some 1.0;
          CarburizingConditions.heating_rate := Some 5.0;
          CarburizingConditions.atmosphere_type := "endothermic";
          CarburizingConditions.gas_flow_rate := Some 1.0;
          CarburizingConditions.mass_transfer_coefficient := Some 1e-4;
          CarburizingConditions.diffusion_temperature := None;
          CarburizingConditions.diffusion_time := None |};
     SimulationRequest.quenching :=
       {| QuenchingConditions.quench_medium := "oil";
          QuenchingConditions.quench_temperature := Some 60;
          QuenchingConditions.heat_transfer_coefficient := None;
          QuenchingConditions.agitation_rate := Some 1.0;
          QuenchingConditions.quench_time := Some 300;
          QuenchingConditions.delay_time := Some 0 |};
     SimulationRequest.tempering :=
       {| TemperingConditions.temperature := Some 170;
          TemperingConditions.time_hours := Some 2.0;
          TemperingConditions.heating_rate := Some 2.0;
          TemperingConditions.cooling_method := "air";
          TemperingConditions.multiple_tempers := false;
          TemperingConditions.temper_cycles := Some 1 |};
     SimulationRequest.geometry :=
       {| PartGeometry.geometry_type := "cylinder";
          PartGeometry.diameter := Some 25.0;
          PartGeometry.length := None;
          PartGeometry.thickness := None;
          PartGeometry.characteristic_dimension := Some 25.0;
          PartGeometry.surface_area := None;
          PartGeometry.volume := None |};
     SimulationRequest.initial_conditions :=
       {| InitialConditions.initial_grain_size := Some 20.0;
          InitialConditions.initial_hardness := None;
          InitialConditions.surface_condition := "machined";
          InitialConditions.prior_heat_treatment := "annealed" |};
     SimulationRequest.simulation_params :=
       {| SimulationParameters.spatial_points := Some 51;
          SimulationParameters.time_step_carburizing := Some 60;
          SimulationParameters.time_step_quenching := Some 1;
          SimulationParameters.max_analysis_depth := Some 5.0;
          SimulationParameters.convergence_tolerance := Some 1e-6;
          SimulationParameters.output_resolution := "standard" |};
     SimulationRequest.calculation_id := None |}.

Definition carbon_error : string :=
  "Carbon content must be between 0.01% and 2.0%".
Definition carburizing_temperature_error : string :=
  "Carburizing temperature must be between 850°C and 1050°C".
Definition carburizing_time_error : string :=
  "Carburizing time must be between 0.5 and 24 hours".
Definition characteristic_dimension_error : string :=
  "Characteristic dimension must be at least 1 mm".

(** [errors.push(e)] *)
Definition push (errors : list string) (e : string) : list string :=
  errors ++ [e].

Definition validateSimulationRequest (request : PartialSimulationRequest.t)
  : list string :=
  let errors : list string := [] in
  (* Required fields validation *)
  let errors :=
    match PartialSimulationRequest.steel_composition request with
    | None => push errors "Steel composition is required"
    | Some steel_composition =>
        if JS.not_num (SteelCompositionInput.C steel_composition)
           || JS.lt (SteelCompositionInput.C steel_composition) 0.01
           || JS.gt (SteelCompositionInput.C steel_composition) 2.0
        then push errors carbon_error
        else errors
    end in
  let errors :=
    match PartialSimulationRequest.carburizing request with
    | None => push errors "Carburizing conditions are required"
    | Some carburizing =>
        let errors :=
          if JS.lt (CarburizingConditions.temperature carburizing) 850
             || JS.gt (CarburizingConditions.temperature carburizing) 1050
          then push errors carburizing_temperature_error
          else errors in
        if JS.lt (CarburizingConditions.time_hours carburizing) 0.5
           || JS.gt (CarburizingConditions.time_hours carburizing) 24
        then push errors carburizing_time_error
        else errors
    end in
  let errors :=
    match PartialSimulationRequest.quenching request with
    | None => push errors "Quenching conditions are required"
    | Some _ => errors
    end in
  let errors :=
    match PartialSimulationRequest.tempering request with
    | None => push errors "Tempering conditions are required"
    | Some _ => errors
    end in
  let errors :=
    match PartialSimulationRequest.geometry request with
    | None => push errors "Part geometry is required"
    | Some geometry =>
        if JS.not_num (PartGeometry.characteristic_dimension geometry)
           || JS.lt (PartGeometry.characteristic_dimension geometry) 1
        then push errors characteristic_dimension_error
        else errors
    end in
  errors.

End Api.

(** ** components/InputForm.tsx *)

Module InputForm.
Local Open Scope Q_scope.

(** The two kinds of Yup field schema the form uses.  [YupNumber get lo hi]
    is [Yup.number().min(lo).max(hi).required()] on the value read by [get]:
    the value must be a number (not [undefined], not [NaN]) within
    [lo, hi].  [YupString get req] is [Yup.string()], with [.required()]
    when [req]: a required string must be present and non-empty. *)
Inductive field_schema : Type :=
| YupNumber (get : SimulationRequest.t -> jsnum) (lo hi : Q)
| YupString (get : SimulationRequest.t -> option string) (req : bool).

Definition object_schema : Type := list (string * field_schema).

Definition steel (f : SteelCompositionInput.t -> jsnum) (v : SimulationRequest.t) : jsnum :=
  f (SimulationRequest.steel_composition v).
Definition carb (f : CarburizingConditions.t -> jsnum) (v : SimulationRequest.t) : jsnum :=
  f (SimulationRequest.carburizing v).
Definition quench (f : QuenchingConditions.t -> jsnum) (v : SimulationRequest.t) : jsnum :=
  f (SimulationRequest.quenching v).
Definition temper (f : TemperingConditions.t -> jsnum) (v : SimulationRequest.t) : jsnum :=
  f (SimulationRequest.tempering v).
Definition geom (f : PartGeometry.t -> jsnum) (v : SimulationRequest.t) : jsnum :=
  f (SimulationRequest.geometry v).
Definition init (f : InitialConditions.t -> jsnum) (v : SimulationRequest.t) : jsnum :=
  f (SimulationRequest.initial_conditions v).
Definition param (f : SimulationParameters.t -> jsnum) (v : SimulationRequest.t) : jsnum :=
  f (SimulationRequest.simulation_params v).

Definition validationSchema : list (string * object_schema) :=
  [ ("steel_composition",
      [ ("grade", YupString (fun v => SteelCompositionInput.grade (SimulationRequest.steel_composition v)) false);
        ("C", YupNumber (steel SteelCompositionInput.C) 0.01 2.0);
        ("Si", YupNumber (steel SteelCompositionInput.Si) 0.0 2.0);
        ("Mn", YupNumber (steel SteelCompositionInput.Mn) 0.0 3.0);
        ("Ni", YupNumber (steel SteelCompositionInput.Ni) 0.0 5.0);
        ("Cr", YupNumber (steel SteelCompositionInput.Cr) 0.0 3.0);
        ("Mo", YupNumber (steel SteelCompositionInput.Mo) 0.0 1.0);
        ("V", YupNumber (steel SteelCompositionInput.V) 0.0 0.5);
        ("W", YupNumber (steel SteelCompositionInput.W) 0.0 1.0);
        ("Cu", YupNumber (steel SteelCompositionInput.Cu) 0.0 1.0);
        ("P", YupNumber (steel SteelCompositionInput.P) 0.0 0.1);
        ("Al", YupNumber (steel SteelCompositionInput.Al) 0.0 0.1);
        ("As", YupNumber (steel SteelCompositionInput.As) 0.0 0.1);
        ("Ti", YupNumber (steel SteelCompositionInput.Ti) 0.0 0.1) ]);
    ("carburizing",
      [ ("temperature", YupNumber (carb CarburizingConditions.temperature) 850 1050);
        ("time_hours", YupNumber (carb CarburizingConditions.time_hours) 0.5 24);
        ("carbon_potential", YupNumber (carb CarburizingConditions.carbon_potential) 0.6 1.5);
        ("heating_rate", YupNumber (carb CarburizingConditions.heating_rate) 1.0 20.0);
        ("gas_flow_rate", YupNumber (carb CarburizingConditions.gas_flow_rate) 0.1 5.0);
        ("mass_transfer_coefficient",
          YupNumber (carb CarburizingConditions.mass_transfer_coefficient) 1e-5 5e-4) ]);
    ("quenching",
      [ ("quench_medium",
          YupString (fun v => Some (QuenchingConditions.quench_medium (SimulationRequest.quenching v))) true);
        ("quench_temperature", YupNumber (quench QuenchingConditions.quench_temperature) 20 150);
        ("agitation_rate", YupNumber (quench QuenchingConditions.agitation_rate) 0.0 3.0);
        ("quench_time", YupNumber (quench QuenchingConditions.quench_time) 60 1800);
        ("delay_time", YupNumber (quench QuenchingConditions.delay_time) 0 600) ]);
    ("tempering",
      [ ("temperature", YupNumber (temper TemperingConditions.temperature) 100 700);
        ("time_hours", YupNumber (temper TemperingConditions.time_hours) 0.5 8.0);
        ("heating_rate", YupNumber (temper TemperingConditions.heating_rate) 0.5 10.0);
        ("temper_cycles", YupNumber (temper TemperingConditions.temper_cycles) 1 3) ]);
    ("geometry",
      [ ("geometry_type",
          YupString (fun v => Some (PartGeometry.geometry_type (SimulationRequest.geometry v))) true);
        ("characteristic_dimension",
          YupNumber (geom PartGeometry.characteristic_dimension) 1 100) ]);
    ("initial_conditions",
      [ ("initial_grain_size", YupNumber (init InitialConditions.initial_grain_size) 5.0 200.0) ]);
    ("simulation_params",
      [ ("spatial_points", YupNumber (param SimulationParameters.spatial_points) 21 201);
        ("max_analysis_depth", YupNumber (param SimulationParameters.max_analysis_depth) 1.0 20.0) ]) ].

(** Whether the value of one field satisfies its schema. *)
Definition field_ok (values : SimulationRequest.t) (s : field_schema) : bool :=
  match s with
  | YupNumber get lo hi =>
      match get values with
      | Some x => Qle_bool lo x && Qle_bool x hi
      | None => false
      end
  | YupString get req =>
      if req then negb (JS.not_str (get values)) else true
  end.

Definition object_errors (values : SimulationRequest.t) (section : string)
    (fields : object_schema) : list string :=
  flat_map (fun '(name, s) =>
              if field_ok values s then [] else [section ++ "." ++ name])
           fields.

(** The paths of the fields that fail [validationSchema]: the keys of the
    error object Formik builds from the schema.  Formik calls the form's
    [onSubmit] only when there is none. *)
Definition validationSchema_errors (values : SimulationRequest.t) : list string :=
  flat_map (fun '(section, fields) => object_errors values section fields)
           validationSchema.

(** The process schedule: the carburizing, quenching and tempering
    sub-records. *)
Definition process_schedule_section (section : string) : bool :=
  String.eqb section "carburizing" || String.eqb section "quenching"
  || String.eqb section "tempering".

(** [formik.setFieldValue('quenching.<field>', v)] *)
Definition setQuenching (f : QuenchingConditions.t -> QuenchingConditions.t)
    (values : SimulationRequest.t) : SimulationRequest.t :=
  SimulationRequest.set_quenching (f (SimulationRequest.quenching values)) values.

(** [handleQuenchMediumChange(medium)], as a function of the [quenchMedia]
    prop and of the form values; each [formik.setFieldValue] replaces the
    named field.  The average is computed in doubles, from the two numbers
    of the range as JSON delivers them. *)
Definition handleQuenchMediumChange (quenchMedia : option QuenchMediaResponse.t)
    (medium : string) (values : SimulationRequest.t) : SimulationRequest.t :=
  if decide (medium = "") then values else
  match quenchMedia ≫= QuenchMediaResponse.media with
  | None => values
  | Some media =>
      match JS.get media medium with
      | JS.Undefined => values
      | JS.Inherited =>
          (* [mediaData] is a property of [Object.prototype]: its
             [typical_temperature] and its range are [undefined] *)
          let values :=
            setQuenching (QuenchingConditions.set_quench_medium medium) values in
          setQuenching (QuenchingConditions.set_quench_temperature None) values
      | JS.Own mediaData =>
          let values :=
            setQuenching (QuenchingConditions.set_quench_medium medium) values in
          let values :=
            setQuenching (QuenchingConditions.set_quench_temperature
                            (Some (QuenchMedium.typical_temperature mediaData))) values in
          match QuenchMedium.heat_transfer_coefficient_range mediaData with
          | Some (lo, hi) =>
              let avgHTC :=
                Double.div (Double.add (Double.of_Q lo) (Double.of_Q hi))
                  (Double.of_Q 2) in
              setQuenching (QuenchingConditions.set_heat_transfer_coefficient (Some avgHTC)) values
          | None => values
          end
      end
  end.

End InputForm.

(** ** Event handlers as effectful programs

    An [async] handler runs against the component's state, performs
    observable actions (notifications, requests to the server) and may end
    with an exception.  A computation takes the state and the log of the
    actions so far, and returns an outcome, the new state and the extended
    log (oldest action first). *)

Module Eff.

Inductive outcome (A : Type) : Type :=
| Return (a : A)
| Throw (e : JS.error).
Arguments Return {A} _.
Arguments Throw {A} _.

Section Monad.
Context {S Ev : Type}.

Definition M (A : Type) : Type := S -> list Ev -> outcome A * S * list Ev.

Definition ret {A} (a : A) : M A := fun s tr => (Return a, s, tr).

Definition bind {A B} (c : M A) (k : A -> M B) : M B :=
  fun s tr =>
    match c s tr with
    | (Return a, s', tr') => k a s' tr'
    | (Throw e, s', tr') => (Throw e, s', tr')
    end.

Definition get : M S := fun s tr => (Return s, s, tr).

(** A state setter of the component. *)
Definition modify (f : S -> S) : M unit := fun s tr => (Return tt, f s, tr).

(** An observable action. *)
Definition emit (e : Ev) : M unit := fun s tr => (Return tt, s, (tr ++ [e])%list).

Definition throw {A} (e : JS.error) : M A := fun s tr => (Throw e, s, tr).

(** [await] of a call that is logged as [e] and whose promise settles as
    [r]: rejected with an error, or fulfilled with a value. *)
Definition await {A} (e : Ev) (r : JS.error + A) : M A :=
  fun s tr =>
    match r with
    | inl err => (Throw err, s, (tr ++ [e])%list)
    | inr a => (Return a, s, (tr ++ [e])%list)
    end.

(** [try { body } catch (err) { handler } ] *)
Definition try_catch {A} (body : M A) (handler : JS.error -> M A) : M A :=
  fun s tr =>
    match body s tr with
    | (Return a, s', tr') => (Return a, s', tr')
    | (Throw e, s', tr') => handler e s' tr'
    end.

(** [try { body } finally { fin }]: [fin] runs either way, and an exception
    of the body is thrown again after it. *)
Definition try_finally {A} (body : M A) (fin : M unit) : M A :=
  fun s tr =>
    match body s tr with
    | (r, s', tr') =>
        match fin s' tr' with
        | (Return _, s'', tr'') => (r, s'', tr'')
        | (Throw e, s'', tr'') => (Throw e, s'', tr'')
        end
    end.

(** [l.forEach(f)] *)
Fixpoint for_each {A} (l : list A) (f : A -> M unit) : M unit :=
  match l with
  | [] => ret tt
  | x :: l' => bind (f x) (fun _ => for_each l' f)
  end.

End Monad.

Arguments M : clear implicits.

Declare Scope eff_scope.
Delimit Scope eff_scope with eff.
Notation "x <- c ;; k" := (bind c (fun x => k))
  (at level 100, c at next level, k at level 200, right associativity) : eff_scope.
Notation "c ;; k" := (bind c (fun _ => k))
  (at level 100, k at level 200, right associativity) : eff_scope.

End Eff.

(** ** App.tsx *)

Module App.
Import Eff.
Local Open Scope eff_scope.

(** The state hooks of [App] that the submit handler touches. *)
Record state : Type := mkState {
  currentTab : nat;
  simulationData : option SimulationRequest.t;
  results : option SimulationResults.t;
  loading : bool;
  error : option string
}.

Inductive event : Type :=
| ShowNotification (message severity : string)
| ValidateInputs (request : SimulationRequest.t)      (* POST /api/validate-inputs *)
| RunSimulation (request : SimulationRequest.t).      (* POST /api/simulate *)

Definition setCurrentTab (v : nat) : M state event unit :=
  modify (fun s => mkState v (simulationData s) (results s) (loading s) (error s)).
Definition setSimulationData (v : option SimulationRequest.t) : M state event unit :=
  modify (fun s => mkState (currentTab s) v (results s) (loading s) (error s)).
Definition setResults (v : option SimulationResults.t) : M state event unit :=
  modify (fun s => mkState (currentTab s) (simulationData s) v (loading s) (error s)).
Definition setLoading (v : bool) : M state event unit :=
  modify (fun s => mkState (currentTab s) (simulationData s) (results s) v (error s)).
Definition setError (v : option string) : M state event unit :=
  modify (fun s => mkState (currentTab s) (simulationData s) (results s) (loading s) v).

Definition showNotification (message severity : string) : M state event unit :=
  emit (ShowNotification message severity).

Section Handlers.
(** The server, as seen through [simulationService]: how the promise of each
    call settles. *)
Variable validateInputs :
  SimulationRequest.t -> JS.error + ApiResponse.t ValidationResponse.t.
Variable runSimulation :
  SimulationRequest.t -> JS.error + ApiResponse.t SimulationResults.t.

Definition handleSimulationSubmit (data : SimulationRequest.t) : M state event unit :=
  setLoading true ;;
  setError None ;;
  try_finally
    (try_catch
     (showNotification "Starting simulation..." "info" ;;
        (* Validate inputs first *)
        validationResponse <- await (ValidateInputs data) (validateInputs data) ;;
        (if negb (ValidationResponse.valid (ApiResponse.data validationResponse))
         then throw (JS.new_Error
                       (JS.or_str (ValidationResponse.error (ApiResponse.data validationResponse))
                                  "Invalid input parameters"))
         else ret tt) ;;
        (if (0 <? List.length (ValidationResponse.warnings (ApiResponse.data validationResponse)))%nat
         then for_each (ValidationResponse.warnings (ApiResponse.data validationResponse))
                       (fun warning => showNotification warning "warning")
         else ret tt) ;;
        (* Run simulation *)
        response <- await (RunSimulation data) (runSimulation data) ;;
        setResults (Some (ApiResponse.data response)) ;;
        setSimulationData (Some data) ;;
        showNotification "Simulation completed successfully!" "success" ;;
        setCurrentTab 1)
     (fun err =>
          let errorMessage :=
            JS.or_str (JS.or_opt (JS.response_detail err) (JS.message err))
                      "Simulation failed" in
          setError (Some errorMessage) ;;
          showNotification errorMessage "error"))
    (setLoading false).

End Handlers.

(** The requests to the simulation endpoint in a log. *)
Definition simulation_calls (tr : list event) : list SimulationRequest.t :=
  flat_map (fun e => match e with RunSimulation d => [d] | _ => [] end) tr.

End App.

(** ** components/MaterialComparison.tsx *)

Module MaterialComparison.
Import Eff.
Local Open Scope eff_scope.

Record ProcessConditions : Type := mkConditions {
  carburizing : CarburizingConditions.t;
  quenching : QuenchingConditions.t;
  tempering : TemperingConditions.t;
  geometry : PartGeometry.t
}.

(** The state hooks of the component that the handler reads or writes. *)
Record state : Type := mkState {
  selectedGrades : list string;
  comparisonResults : option MaterialComparisonResponse.t;
  error : option string;
  processConditions : ProcessConditions
}.

Inductive event : Type :=
| OnCompare (steelGrades : list string) (conditions : ProcessConditions).

Definition setComparisonResults (v : option MaterialComparisonResponse.t)
  : M state event unit :=
  modify (fun s => mkState (selectedGrades s) v (error s) (processConditions s)).
Definition setError (v : option string) : M state event unit :=
  modify (fun s => mkState (selectedGrades s) (comparisonResults s) v (processConditions s)).

Definition no_selection_error : string :=
  "Please select at least 2 steel grades for comparison".

Section Handlers.
(** The [onCompare] prop: how the promise it returns settles. *)
Variable onCompare :
  list string -> ProcessConditions -> JS.error + MaterialComparisonResponse.t.

Definition handleRunComparison : M state event unit :=
  s <- get ;;
  if (List.length (selectedGrades s) <? 2)%nat then
    setError (Some no_selection_error)
  else
    try_catch
      (setError None ;;
       results <- await (OnCompare (selectedGrades s) (processConditions s))
                        (onCompare (selectedGrades s) (processConditions s)) ;;
       setComparisonResults (Some results))
      (fun err => setError (Some (JS.or_str (JS.message err) "Comparison failed"))).

End Handlers.
End MaterialComparison.

(** ** components/QualityReport.tsx *)

Module QualityReport.
Local Open Scope Q_scope.

Record metric : Type := mkMetric {
  category : string;
  value : Q;
  target : string;
  status : bool;
  score : Q;
  unit_ : string
}.

Definition qualityMetrics (results : option SimulationResults.t) : option (list metric) :=
  match results with
  | None => None
  | Some results =>
      let quality_assessment := SimulationResults.quality_assessment results in
      let process_metrics := SimulationResults.process_metrics results in
      let case_depth_results := SimulationResults.case_depth_results results in
      Some
        [ {| category := "Surface Hardness";
             value := ProcessMetrics.surface_hardness_hrc process_metrics;
             target := "58-65 HRC";
             status := QualityAssessment.surface_hardness_ok quality_assessment;
             score := if QualityAssessment.surface_hardness_ok quality_assessment then 100 else 70;
             unit_ := "HRC" |};
          {| category := "Case Depth";
             value := CaseDepthResults.case_depth_04_carbon case_depth_results;
             target := "0.8-1.5 mm";
             status := QualityAssessment.case_depth_ok quality_assessment;
             score := if QualityAssessment.case_depth_ok quality_assessment then 100 else 75;
             unit_ := "mm" |};
          {| category := "Core Hardness";
             value := ProcessMetrics.core_hardness_hrc process_metrics;
             target := "25-35 HRC";
             status := QualityAssessment.core_hardness_ok quality_assessment;
             score := if QualityAssessment.core_hardness_ok quality_assessment then 100 else 65;
             unit_ := "HRC" |};
          {| category := "Grain Size";
             value := ProcessMetrics.grain_size_surface process_metrics;
             target := "< 50 μm";
             status := QualityAssessment.grain_size_ok quality_assessment;
             score := if QualityAssessment.grain_size_ok quality_assessment then 100 else 80;
             unit_ := "μm" |} ]
  end.

(** [qualityMetrics.reduce((sum, metric) => sum + metric.score, 0) / qualityMetrics.length] *)
Definition overallScore (qualityMetrics : option (list metric)) : Q :=
  match qualityMetrics with
  | None => 0
  | Some qualityMetrics =>
      fold_left (fun sum metric => sum + score metric) qualityMetrics 0
      / inject_Z (Z.of_nat (List.length qualityMetrics))
  end.

(** The score the report shows for a result. *)
Definition report_score (results : SimulationResults.t) : Q :=
  overallScore (qualityMetrics (Some results)).

(** The four pass flags of an assessment, in the order of the metrics. *)
Definition flags (qa : QualityAssessment.t) : list bool :=
  [ QualityAssessment.surface_hardness_ok qa;
    QualityAssessment.case_depth_ok qa;
    QualityAssessment.core_hardness_ok qa;
    QualityAssessment.grain_size_ok qa ].

End QualityReport.

(** ** The composition model of the simulation core

    The numerical core (the Python package behind [/api/simulate]) is not
    part of the client sources.  Its composition model is stated here from
    the design document alone, with every calibrated constant left as a
    parameter. *)

Module CompositionModel.
Local Open Scope Q_scope.

(** Modelled from the spec: the element symbols of a SteelComposition
    (section 3). *)
Inductive element : Type :=
| C | Si | Mn | Ni | Cr | Mo | V | W | Cu | P | Al | As | Ti.

(** Modelled from the spec: every element of a composition. *)
Definition elements : list element :=
  [C; Si; Mn; Ni; Cr; Mo; V; W; Cu; P; Al; As; Ti].

(** Modelled from the spec: a SteelComposition maps each element symbol to
    its weight-percent. *)
Definition SteelComposition : Type := element -> Q.

(** Modelled from the spec: the fatal errors of the taxonomy (section 7). *)
Inductive failure : Type :=
| InvalidComposition
| InvalidProcessParameters
| NumericalInstability
| PhysicalInvariantViolation.

(** Modelled from the spec: AE3, AE1, Ms(core), Ms(surface) and Bs
    (section 3). *)
Record CriticalTemperatures : Type := mkCT {
  AE3 : Q; AE1 : Q; Ms_core : Q; Ms_surface : Q; Bs : Q
}.

Section Regression.
(** Modelled from the spec: the calibrated constants, which the design
    document leaves to an external dataset: the valid range of each
    element, the base value and the per-element coefficients of the two
    linear regressions, and the remaining regressions whole. *)
Variable valid_range : element -> Q * Q.
Variable ae3_base : Q.
Variable ae3_coefficient : element -> Q.
Variable ae1_base : Q.
Variable ae1_coefficient : element -> Q.
Variable ms_core ms_surface bs : SteelComposition -> Q.

(** Modelled from the spec: an element is within its valid range. *)
Definition in_range (composition : SteelComposition) (e : element) : bool :=
  Qle_bool (fst (valid_range e)) (composition e)
  && Qle_bool (composition e) (snd (valid_range e)).

(** Modelled from the spec: a linear combination of the element
    weight-percents with fixed per-element coefficients. *)
Definition linear (base : Q) (coefficient : element -> Q)
    (composition : SteelComposition) : Q :=
  fold_left (fun acc e => acc + coefficient e * composition e) elements base.

(** Modelled from the spec: the AE3 and AE1 regressions. *)
Definition ae3 : SteelComposition -> Q := linear ae3_base ae3_coefficient.
Definition ae1 : SteelComposition -> Q := linear ae1_base ae1_coefficient.

(** Modelled from the spec: [criticalTemperatures(composition)] of the
    CompositionModel (section 4.1), which is not among the sources.  It
    fails with [InvalidComposition] when an element is outside its valid
    range or when the regressions give AE3 <= AE1, and otherwise returns the
    derived temperatures. *)
Definition criticalTemperatures (composition : SteelComposition)
  : failure + CriticalTemperatures :=
  if negb (forallb (in_range composition) elements) then inl InvalidComposition
  else if Qle_bool (ae3 composition) (ae1 composition) then inl InvalidComposition
  else inr {| AE3 := ae3 composition; AE1 := ae1 composition;
              Ms_core := ms_core composition;
              Ms_surface := ms_surface composition;
              Bs := bs composition |}.

End Regression.
End CompositionModel.

(** ** Concrete inputs used by the examples *)

Module Samples.
Local Open Scope Q_scope.

Definition assessment (a b c d : bool) : QualityAssessment.t :=
  {| QualityAssessment.gear_requirements_met := a && b && c && d;
     QualityAssessment.surface_hardness_ok := a;
     QualityAssessment.case_depth_ok := b;
     QualityAssessment.core_hardness_ok := c;
     QualityAssessment.grain_size_ok := d;
     QualityAssessment.overall_grade := if a && b && c && d then "A" else "B";
     QualityAssessment.recommendations := [] |}.

(** A small result: three nodes, with the given pass flags. *)
Definition results_with (a b c d : bool) : SimulationResults.t :=
  {| SimulationResults.calculation_id := "calc-1";
     SimulationResults.timestamp := "2024-01-01T00:00:00Z";
     SimulationResults.computation_time := 1.5;
     SimulationResults.property_profiles :=
       {| PropertyProfile.distance_mm := [0; 0.5; 1.0];
          PropertyProfile.carbon_profile := [0.8; 0.5; 0.2];
          PropertyProfile.hardness_hv := [700; 550; 350];
          PropertyProfile.hardness_hrc := [60; 52; 35];
          PropertyProfile.grain_size := [25; 22; 20];
          PropertyProfile.phase_fractions := {[ "martensite" := [0.9; 0.7; 0.3] ]} |};
     SimulationResults.thermal_profiles :=
       {| ThermalProfile.time_carburizing := [0; 3600];
          ThermalProfile.temperature_carburizing := [920; 920];
          ThermalProfile.time_quenching := [0; 60];
          ThermalProfile.temperature_quenching := [920; 60];
          ThermalProfile.cooling_rate := 14;
          ThermalProfile.surface_heat_flux := [1000; 0] |};
     SimulationResults.case_depth_results :=
       {| CaseDepthResults.case_depth_04_carbon := 0.7;
          CaseDepthResults.case_depth_03_carbon := 0.85;
          CaseDepthResults.case_depth_50_hrc := 0.6;
          CaseDepthResults.case_depth_55_hrc := 0.4;
          CaseDepthResults.effective_case_depth := 0.6;
          CaseDepthResults.total_case_depth := 0.85 |};
     SimulationResults.process_metrics :=
       {| ProcessMetrics.surface_carbon := 0.8;
          ProcessMetrics.surface_hardness_hv := 700;
          ProcessMetrics.surface_hardness_hrc := 60;
          ProcessMetrics.core_hardness_hv := 350;
          ProcessMetrics.core_hardness_hrc := 35;
          ProcessMetrics.hardness_gradient := 25;
          ProcessMetrics.carbon_gradient := 0.6;
          ProcessMetrics.distortion_risk := "low";
          ProcessMetrics.grain_size_surface := 25;
          ProcessMetrics.grain_size_core := 20 |};
     SimulationResults.critical_temperatures :=
       {| CriticalTemperatures.ae3_temperature := 830;
          CriticalTemperatures.ae1_temperature := 720;
          CriticalTemperatures.ms_temperature_core := 400;
          CriticalTemperatures.ms_temperature_surface := 180;
          CriticalTemperatures.bs_temperature := 550 |};
     SimulationResults.quality_assessment := assessment a b c d;
     SimulationResults.input_summary := [];
     SimulationResults.warnings := [];
     SimulationResults.errors := [];
     SimulationResults.validation_status := "passed" |}.

(** The default request with one field replaced. *)
Definition with_tempering_temperature (v : Q) : SimulationRequest.t :=
  let r := Api.createDefaultSimulationRequest in
  SimulationRequest.set_tempering
    (TemperingConditions.set_temperature (Some v) (SimulationRequest.tempering r)) r.

Definition with_carburizing_temperature (v : Q) : SimulationRequest.t :=
  let r := Api.createDefaultSimulationRequest in
  SimulationRequest.set_carburizing
    (CarburizingConditions.set_temperature (Some v) (SimulationRequest.carburizing r)) r.

Definition with_carburizing_time (v : Q) : SimulationRequest.t :=
  let r := Api.createDefaultSimulationRequest in
  SimulationRequest.set_carburizing
    (CarburizingConditions.set_time_hours (Some v) (SimulationRequest.carburizing r)) r.

Definition water : QuenchMedium.t :=
  {| QuenchMedium.name := "Water";
     QuenchMedium.typical_temperature := 25;
     QuenchMedium.heat_transfer_coefficient_range := Some (3000, 5000);
     QuenchMedium.description := "Agitated water";
     QuenchMedium.applications := ["plain carbon steels"] |}.

Definition quench_media : QuenchMediaResponse.t :=
  {| QuenchMediaResponse.media := Some {[ "water" := water ]} |}.

(** A medium whose range is [0.1, 0.2]. *)
Definition slow_media : QuenchMediaResponse.t :=
  {| QuenchMediaResponse.media :=
       Some {[ "gas" := {| QuenchMedium.name := "Gas";
                           QuenchMedium.typical_temperature := 25;
                           QuenchMedium.heat_transfer_coefficient_range := Some (0.1, 0.2);
                           QuenchMedium.description := "Still gas";
                           QuenchMedium.applications := [] |} ]} |}.

(** A table whose only entry has the empty string as its key. *)
Definition unnamed_quench_media : QuenchMediaResponse.t :=
  {| QuenchMediaResponse.media := Some {[ "" := water ]} |}.

(** A server that finds every request invalid, and one that accepts
    everything. *)
Definition response {T} (d : T) : ApiResponse.t T :=
  {| ApiResponse.data := d; ApiResponse.status := 200; ApiResponse.message := None |}.

Definition rejecting_validateInputs (_ : SimulationRequest.t)
  : JS.error + ApiResponse.t ValidationResponse.t :=
  inr (response {| ValidationResponse.valid := false;
                   ValidationResponse.error := Some "Carbon potential too high";
                   ValidationResponse.warnings := [] |}).

Definition accepting_runSimulation (_ : SimulationRequest.t)
  : JS.error + ApiResponse.t SimulationResults.t :=
  inr (response (results_with true true true true)).

Definition app_state : App.state :=
  {| App.currentTab := 0;
     App.simulationData := None;
     App.results := Some (results_with true false true true);
     App.loading := false;
     App.error := None |}.

Definition conditions : MaterialComparison.ProcessConditions :=
  let r := Api.createDefaultSimulationRequest in
  {| MaterialComparison.carburizing := SimulationRequest.carburizing r;
     MaterialComparison.quenching := SimulationRequest.quenching r;
     MaterialComparison.tempering := SimulationRequest.tempering r;
     MaterialComparison.geometry := SimulationRequest.geometry r |}.

Definition comparison_state (selected : list string) : MaterialComparison.state :=
  {| MaterialComparison.selectedGrades := selected;
     MaterialComparison.comparisonResults := None;
     MaterialComparison.error := None;
     MaterialComparison.processConditions := conditions |}.

Definition failing_onCompare (_ : list string) (_ : MaterialComparison.ProcessConditions)
  : JS.error + MaterialComparisonResponse.t :=
  inl (JS.new_Error "Network connection error").

(** Constants for the composition model: every element within [0, 5], and
    two regressions that differ only in their base value. *)
Definition wide_range (_ : CompositionModel.element) : Q * Q := (0, 5).
Definition carbon_only (w : Q) : CompositionModel.element -> Q :=
  fun e => match e with CompositionModel.C => w | _ => 0 end.
Definition mild_steel : CompositionModel.SteelComposition :=
  fun e => match e with CompositionModel.C => 0.2 | CompositionModel.Mn => 0.8 | _ => 0 end.

End Samples.

(** ** services/api.ts: the error interceptor and the request builders *)

Module AxiosError.
(** The response of a failed request: its status and the [detail] of its
    body ([data?.detail], read as text). *)
Record response_t : Type := mkResponse {
  status : N;
  detail : option string
}.

(** An [AxiosError]: the response when the server answered, whether the
    request was sent ([error.request]), and the error's own message. *)
Record t : Type := mk {
  response : option response_t;
  request : bool;
  message : string
}.
End AxiosError.

Module ApiService.

(** The error the interceptor rejects with: [new Error(errorMessage)] with
    [originalError] and [status] attached.  ([details] is attached too; no
    handler reads it and it is left out.) *)
Record enhancedError : Type := mkEnhanced {
  errorMessage : string;
  originalError : AxiosError.t;
  status : option N
}.

Definition handleApiError (error : AxiosError.t) : enhancedError :=
  let errorMessage :=
    match AxiosError.response error with
    | Some response =>
        (* Server responded with error status *)
        let status := AxiosError.status response in
        if decide (status = 400%N) then
          JS.or_str (AxiosError.detail response) "Invalid request parameters"
        else if decide (status = 401%N) then "Authentication required"
        else if decide (status = 403%N) then "Access forbidden"
        else if decide (status = 404%N) then "Resource not found"
        else if decide (status = 422%N) then "Validation error"
        else if decide (status = 500%N) then "Internal server error"
        else if decide (status = 503%N) then "Service temporarily unavailable"
        else "Server error (" ++ pretty status ++ ")"
    | None =>
        if AxiosError.request error then
          (* Network error *)
          "Network connection error. Please check your internet connection."
        else
          (* Request setup error *)
          AxiosError.message error
    end in
  {| errorMessage := errorMessage;
     originalError := error;
     status := AxiosError.status <$> AxiosError.response error |}.

(** The rejected error as a handler's [catch] sees it: an [Error] with the
    message, and no [response] property. *)
Definition as_error (e : enhancedError) : JS.error :=
  JS.new_Error (errorMessage e).

(** How a request settles behind the interceptor: a failure of the
    transport is turned into the enhanced error. *)
Definition intercepted {A} (r : AxiosError.t + A) : JS.error + A :=
  match r with
  | inl error => inl (as_error (handleApiError error))
  | inr a => inr a
  end.

Record MaterialComparisonRequest : Type := mkComparisonRequest {
  steel_grades : list string;
  process_conditions : MaterialComparison.ProcessConditions
}.

Record Constraints : Type := mkConstraints {
  temperature_range : jsnum * jsnum;
  time_range : jsnum * jsnum;
  carbon_potential_range : jsnum * jsnum
}.

Record ProcessOptimizationRequest : Type := mkOptimizationRequest {
  target_case_depth : jsnum;
  steel_grade : string;
  constraints : Constraints;
  optimization_objective : string
}.

Record OptimizedConditions : Type := mkOptimized {
  carburizing : CarburizingConditions.t;
  quenching : QuenchingConditions.t;
  tempering : TemperingConditions.t
}.

Record ProcessOptimizationResult : Type := mkOptimizationResult {
  optimized_conditions : OptimizedConditions;
  predicted_results : SimulationResults.t;
  optimization_score : Q;
  convergence_info : list (string * JS.any)
}.

(** The request [compareMaterials] posts to [/api/compare-materials]. *)
Definition compareMaterials_request (steelGrades : list string)
    (processConditions : MaterialComparison.ProcessConditions)
  : MaterialComparisonRequest :=
  {| steel_grades := steelGrades; process_conditions := processConditions |}.

(** The request [optimizeProcess] posts to [/api/optimize-process]; the
    objective defaults to ['minimize_time'] when the caller passes none. *)
Definition optimizeProcess_request (targetCaseDepth : jsnum) (steelGrade : string)
    (constraints : Constraints) (objective : option string)
  : ProcessOptimizationRequest :=
  {| target_case_depth := targetCaseDepth;
     steel_grade := steelGrade;
     constraints := constraints;
     optimization_objective := default "minimize_time" objective |}.

End ApiService.

(** ** hooks/useNotification *)

Module Notification.

Record NotificationState : Type := mkNotification {
  open : bool;
  message : string;
  severity : string;
  autoHideDuration : Q
}.

Definition initial : NotificationState :=
  {| open := false; message := ""; severity := "info"; autoHideDuration := 6000 |}.

(** [showNotification(message, severity = 'info', duration = 6000)] *)
Definition showNotification (message : string) (severity : option string)
    (duration : option Q) (_ : NotificationState) : NotificationState :=
  {| open := true;
     message := message;
     severity := default "info" severity;
     autoHideDuration := default 6000%Q duration |}.

Definition hideNotification (prev : NotificationState) : NotificationState :=
  {| open := false;
     message := message prev;
     severity := severity prev;
     autoHideDuration := autoHideDuration prev |}.

(** The snackbar after the notifications of a log of [App], each shown with
    its message and severity as [App] calls [showNotification]. *)
Definition after (tr : list App.event) (n : NotificationState) : NotificationState :=
  fold_left (fun n e =>
               match e with
               | App.ShowNotification message severity =>
                   showNotification message (Some severity) None n
               | _ => n
               end) tr n.

End Notification.

(** ** App.tsx: the comparison and optimization handlers *)

Module AppOps.
Import Eff.
Local Open Scope eff_scope.

Inductive event : Type :=
| ShowNotification (message severity : string)
| CompareMaterials (request : ApiService.MaterialComparisonRequest)
    (* POST /api/compare-materials *)
| OptimizeProcess (request : ApiService.ProcessOptimizationRequest).
    (* POST /api/optimize-process *)

Definition setLoading (v : bool) : M App.state event unit :=
  modify (fun s => App.mkState (App.currentTab s) (App.simulationData s)
                     (App.results s) v (App.error s)).

Definition showNotification (message severity : string) : M App.state event unit :=
  emit (ShowNotification message severity).

Section Handlers.
(** The server behind [simulationService]: how each request settles. *)
Variable compareMaterials :
  ApiService.MaterialComparisonRequest
  -> JS.error + ApiResponse.t MaterialComparisonResponse.t.
Variable optimizeProcess :
  ApiService.ProcessOptimizationRequest
  -> JS.error + ApiResponse.t ApiService.ProcessOptimizationResult.

Definition handleMaterialComparison (steelGrades : list string)
    (processConditions : MaterialComparison.ProcessConditions)
  : M App.state event MaterialComparisonResponse.t :=
  setLoading true ;;
  try_finally
    (try_catch
       (let request := ApiService.compareMaterials_request steelGrades processConditions in
        response <- await (CompareMaterials request) (compareMaterials request) ;;
        showNotification "Material comparison completed" "success" ;;
        ret (ApiResponse.data response))
       (fun err =>
          let errorMessage :=
            JS.or_str (JS.response_detail err) "Material comparison failed" in
          showNotification errorMessage "error" ;;
          throw err))
    (setLoading false).

Definition handleProcessOptimization (targetCaseDepth : jsnum) (steelGrade : string)
    (constraints : ApiService.Constraints)
  : M App.state event ApiService.ProcessOptimizationResult :=
  setLoading true ;;
  try_finally
    (try_catch
       (let request :=
          ApiService.optimizeProcess_request targetCaseDepth steelGrade constraints None in
        response <- await (OptimizeProcess request) (optimizeProcess request) ;;
        showNotification "Process optimization completed" "success" ;;
        ret (ApiResponse.data response))
       (fun err =>
          let errorMessage :=
            JS.or_str (JS.response_detail err) "Process optimization failed" in
          showNotification errorMessage "error" ;;
          throw err))
    (setLoading false).

(** The [onOptimize] prop of the optimization tab is
    [handleProcessOptimization] itself: the tab calls it with the chosen
    objective as a fourth argument, which the handler does not take. *)
Definition onOptimize (targetCaseDepth : jsnum) (steelGrade : string)
    (constraints : ApiService.Constraints) (objective : string)
  : M App.state event ApiService.ProcessOptimizationResult :=
  handleProcessOptimization targetCaseDepth steelGrade constraints.

End Handlers.

(** The requests a log sent to the optimization endpoint. *)
Definition optimization_requests (tr : list event)
  : list ApiService.ProcessOptimizationRequest :=
  flat_map (fun e => match e with OptimizeProcess r => [r] | _ => [] end) tr.

Definition comparison_requests (tr : list event)
  : list ApiService.MaterialComparisonRequest :=
  flat_map (fun e => match e with CompareMaterials r => [r] | _ => [] end) tr.

(** How the promise of a handler settles for its caller. *)
Definition settled {A} (r : outcome A * App.state * list event) : JS.error + A :=
  match fst (fst r) with
  | Return a => inr a
  | Throw err => inl err
  end.

(** The [onCompare] prop of the comparison tab: [handleMaterialComparison]
    run in the application's current state. *)
Definition onCompare
    (compareMaterials : ApiService.MaterialComparisonRequest
                        -> JS.error + ApiResponse.t MaterialComparisonResponse.t)
    (s : App.state) (steelGrades : list string)
    (processConditions : MaterialComparison.ProcessConditions)
  : JS.error + MaterialComparisonResponse.t :=
  settled (handleMaterialComparison compareMaterials steelGrades processConditions s []).

(** The notifications of a log, in order. *)
Definition notifications (tr : list event) : list (string * string) :=
  flat_map (fun e => match e with
                     | ShowNotification message severity => [(message, severity)]
                     | _ => []
                     end) tr.

End AppOps.

(** ** Reading a submission off its log *)

Module Submission.

(** The message [handleSimulationSubmit] shows for a caught error:
    [err.response?.data?.detail || err.message || 'Simulation failed']. *)
Definition error_message (err : JS.error) : string :=
  JS.or_str (JS.or_opt (JS.response_detail err) (JS.message err)) "Simulation failed".

(** The requests to the server in a log, in order. *)
Definition api_calls (tr : list App.event) : list App.event :=
  List.filter (fun e => match e with
                   | App.ShowNotification _ _ => false
                   | _ => true
                   end) tr.

Definition warning_notifications (warnings : list string) : list App.event :=
  map (fun warning => App.ShowNotification warning "warning") warnings.

End Submission.

(** ** components/ProcessOptimization *)

Module ProcessOptimization.
Import Eff.
Local Open Scope eff_scope.
Local Open Scope Q_scope.

Record state : Type := mkState {
  targetCaseDepth : jsnum;
  selectedGrade : string;
  optimizationObjective : string;
  optimizationResults : option ApiService.ProcessOptimizationResult;
  error : option string;
  constraints : ApiService.Constraints
}.

Inductive event : Type :=
| OnOptimize (targetCaseDepth : jsnum) (steelGrade : string)
    (constraints : ApiService.Constraints) (objective : string).

Definition setOptimizationResults (v : option ApiService.ProcessOptimizationResult)
  : M state event unit :=
  modify (fun s => mkState (targetCaseDepth s) (selectedGrade s) (optimizationObjective s)
                     v (error s) (constraints s)).
Definition setError (v : option string) : M state event unit :=
  modify (fun s => mkState (targetCaseDepth s) (selectedGrade s) (optimizationObjective s)
                     (optimizationResults s) v (constraints s)).

(** The names of the three constraints, which is what the component passes
    for [constraint] (the handler reads it [as keyof typeof prev]). *)
Inductive constraint_name : Type :=
| temperature_range
| time_range
| carbon_potential_range.

Definition get_range (constraint : constraint_name) (c : ApiService.Constraints)
  : jsnum * jsnum :=
  match constraint with
  | temperature_range => ApiService.temperature_range c
  | time_range => ApiService.time_range c
  | carbon_potential_range => ApiService.carbon_potential_range c
  end.

Definition set_range (constraint : constraint_name) (v : jsnum * jsnum)
    (c : ApiService.Constraints) : ApiService.Constraints :=
  match constraint with
  | temperature_range =>
      ApiService.mkConstraints v (ApiService.time_range c)
        (ApiService.carbon_potential_range c)
  | time_range =>
      ApiService.mkConstraints (ApiService.temperature_range c) v
        (ApiService.carbon_potential_range c)
  | carbon_potential_range =>
      ApiService.mkConstraints (ApiService.temperature_range c)
        (ApiService.time_range c) v
  end.

(** [handleConstraintChange(constraint, index, value)], as the update of the
    constraints. *)
Definition handleConstraintChange (constraint : constraint_name) (index : nat)
    (value : jsnum) (prev : ApiService.Constraints) : ApiService.Constraints :=
  set_range constraint
    (if (index =? 0)%nat then value else fst (get_range constraint prev),
     if (index =? 1)%nat then value else snd (get_range constraint prev))
    prev.

(** [a <= b] against a numeric literal. *)
Definition le (a : jsnum) (b : Q) : bool :=
  match a with Some x => Qle_bool x b | None => false end.

Definition invalid_target_error : string :=
  "Please specify a valid target case depth and steel grade".

Section Handlers.
(** The [onOptimize] prop: how the promise it returns settles. *)
Variable onOptimize :
  jsnum -> string -> ApiService.Constraints -> string
  -> JS.error + ApiService.ProcessOptimizationResult.

Definition handleRunOptimization : M state event unit :=
  s <- get ;;
  if JS.not_str (Some (selectedGrade s)) || le (targetCaseDepth s) 0 then
    setError (Some invalid_target_error)
  else
    try_catch
      (setError None ;;
       results <- await (OnOptimize (targetCaseDepth s) (selectedGrade s)
                           (constraints s) (optimizationObjective s))
                        (onOptimize (targetCaseDepth s) (selectedGrade s)
                           (constraints s) (optimizationObjective s)) ;;
       setOptimizationResults (Some results))
      (fun err => setError (Some (JS.or_str (JS.message err) "Optimization failed"))).

End Handlers.

(** [optimizationResults?.predicted_results.case_depth_results.case_depth_04_carbon || 0],
    the depth as JSON delivers it. *)
Definition achievedCaseDepth (optimizationResults : option ApiService.ProcessOptimizationResult)
  : Double.t :=
  match optimizationResults with
  | Some r =>
      Double.or
        (Double.of_Q
           (CaseDepthResults.case_depth_04_carbon
              (SimulationResults.case_depth_results (ApiService.predicted_results r))))
        (Double.of_Q 0)
  | None => Double.of_Q 0
  end.

(** [(1 - Math.abs(achievedCaseDepth - targetCaseDepth) / targetCaseDepth) * 100]
    when there are results, 0 otherwise; here the target is the double the
    state holds, [Number(e.target.value)]. *)
Definition accuracy (optimizationResults : option ApiService.ProcessOptimizationResult)
    (targetCaseDepth : Double.t) : Double.t :=
  match optimizationResults with
  | None => Double.of_Q 0
  | Some _ =>
      Double.mul
        (Double.sub (Double.of_Q 1)
           (Double.div
              (Double.abs (Double.sub (achievedCaseDepth optimizationResults)
                             targetCaseDepth))
              targetCaseDepth))
        (Double.of_Q 100)
  end.

(** [accuracy > 95]: the achieved depth gets the check mark. *)
Definition accurate (optimizationResults : option ApiService.ProcessOptimizationResult)
    (targetCaseDepth : Double.t) : bool :=
  Double.gt (accuracy optimizationResults targetCaseDepth) (Double.of_Q 95).

End ProcessOptimization.

(** ** The accordion sections

    [handleSectionToggle] is written out four times with the same body: in
    the input form, the quality report, the comparison tab and the
    optimization tab. *)

Module Sections.

(** [prev.includes(section)] *)
Definition includes (section : string) (prev : list string) : bool :=
  existsb (String.eqb section) prev.

Definition handleSectionToggle (section : string) (prev : list string) : list string :=
  if includes section prev
  then List.filter (fun s => negb (String.eqb s section)) prev
  else (prev ++ [section])%list.

End Sections.

(** ** components/InputForm.tsx: the steel grade and the form's state *)

Module SteelGrade.
Record t : Type := mk {
  name : string;
  composition : SteelCompositionInput.t;
  description : string;
  applications : list string;
  typical_properties : gmap string Q
}.
End SteelGrade.

Module SteelGradesResponse.
Record t : Type := mk {
  (* [Record<string, SteelGrade>]; the form reads it as [steelGrades?.grades] *)
  grades : option (gmap string SteelGrade.t)
}.
End SteelGradesResponse.

Module FormState.
Local Open Scope Q_scope.

(** The Formik values together with the component's own flag. *)
Record t : Type := mk {
  values : SimulationRequest.t;
  useCustomComposition : bool
}.

Definition set_steel_composition (v : SteelCompositionInput.t)
    (r : SimulationRequest.t) : SimulationRequest.t :=
  SimulationRequest.mk v (SimulationRequest.carburizing r) (SimulationRequest.quenching r)
    (SimulationRequest.tempering r) (SimulationRequest.geometry r)
    (SimulationRequest.initial_conditions r) (SimulationRequest.simulation_params r)
    (SimulationRequest.calculation_id r).

Definition set_grade (grade : option string) (c : SteelCompositionInput.t)
  : SteelCompositionInput.t :=
  SteelCompositionInput.mk grade
    (SteelCompositionInput.C c) (SteelCompositionInput.Si c) (SteelCompositionInput.Mn c)
    (SteelCompositionInput.Ni c) (SteelCompositionInput.Cr c) (SteelCompositionInput.Mo c)
    (SteelCompositionInput.V c) (SteelCompositionInput.W c) (SteelCompositionInput.Cu c)
    (SteelCompositionInput.P c) (SteelCompositionInput.Al c) (SteelCompositionInput.As c)
    (SteelCompositionInput.Ti c).

(** [{ ...undefined, grade }]: an object with the grade and nothing else. *)
Definition only_grade (grade : string) : SteelCompositionInput.t :=
  SteelCompositionInput.mk (Some grade) None None None None None None None
    None None None None None None.

(** [handleSteelGradeChange(grade)]: the table's composition with the grade
    name written over its [grade], and the custom flag cleared.  For a key
    that the table only inherits from [Object.prototype], [composition] is
    [undefined] and the spread contributes nothing. *)
Definition handleSteelGradeChange (steelGrades : option SteelGradesResponse.t)
    (grade : string) (form : t) : t :=
  if decide (grade = "") then form else
  match steelGrades ≫= SteelGradesResponse.grades with
  | None => form
  | Some grades =>
      match JS.get grades grade with
      | JS.Undefined => form
      | JS.Inherited =>
          {| values := set_steel_composition (only_grade grade) (values form);
             useCustomComposition := false |}
      | JS.Own entry =>
          let composition := SteelGrade.composition entry in
          {| values := set_steel_composition (set_grade (Some grade) composition)
                         (values form);
             useCustomComposition := false |}
      end
  end.

(** The [onChange] of the custom-composition switch. *)
Definition handleCustomCompositionSwitch (isCustom : bool) (form : t) : t :=
  {| values :=
       if isCustom
       then (* Clear the grade field when using custom composition *)
         set_steel_composition
           (set_grade (Some "") (SimulationRequest.steel_composition (values form)))
           (values form)
       else values form;
     useCustomComposition := isCustom |}.

(** [handleQuenchMediumChange] on the whole form: the flag is not touched. *)
Definition handleQuenchMediumChange (quenchMedia : option QuenchMediaResponse.t)
    (medium : string) (form : t) : t :=
  {| values := InputForm.handleQuenchMediumChange quenchMedia medium (values form);
     useCustomComposition := useCustomComposition form |}.

(** The thirteen composition fields as the form lays them out, each with the
    maximum its tooltip announces ("content (0 - max wt%)"). *)
Definition composition_fields : list (string * (SteelCompositionInput.t -> jsnum) * Q) :=
  [ ("C", SteelCompositionInput.C, 2.0);
    ("Si", SteelCompositionInput.Si, 2.0);
    ("Mn", SteelCompositionInput.Mn, 3.0);
    ("Ni", SteelCompositionInput.Ni, 5.0);
    ("Cr", SteelCompositionInput.Cr, 3.0);
    ("Mo", SteelCompositionInput.Mo, 1.0);
    ("V", SteelCompositionInput.V, 0.5);
    ("W", SteelCompositionInput.W, 1.0);
    ("Cu", SteelCompositionInput.Cu, 1.0);
    ("P", SteelCompositionInput.P, 0.1);
    ("Al", SteelCompositionInput.Al, 0.1);
    ("As", SteelCompositionInput.As, 0.1);
    ("Ti", SteelCompositionInput.Ti, 0.1) ].

End FormState.

(** ** components/MaterialComparison.tsx: the selection and the conditions *)

Module GradeSelection.

(** [s.split(',')] *)
Fixpoint split_commas (s : string) : list string :=
  match s with
  | EmptyString => [""]
  | String c rest =>
      if Ascii.eqb c ","%char then "" :: split_commas rest
      else match split_commas rest with
           | piece :: pieces => String c piece :: pieces
           | [] => [String c ""]
           end
  end.

(** The value of the multiple select: an array, or a string when the
    browser autofills it. *)
Inductive select_value : Type :=
| AsString (value : string)
| AsArray (value : list string).

(** [handleGradeSelection(event)], as the new selection. *)
Definition handleGradeSelection (value : select_value) : list string :=
  match value with
  | AsString value => split_commas value
  | AsArray value => value
  end.

(** [handleRemoveGrade(gradeToRemove)], as the update of the selection. *)
Definition handleRemoveGrade (gradeToRemove : string) (prev : list string) : list string :=
  List.filter (fun grade => negb (String.eqb grade gradeToRemove)) prev.

(** The Run button: [disabled={loading || selectedGrades.length < 2}]. *)
Definition run_disabled (loading : bool) (selectedGrades : list string) : bool :=
  loading || (List.length selectedGrades <? 2)%nat.

(** [handleProcessConditionChange(section, field, value)], as the update of
    the conditions object: an object is the map of its own properties, and
    spreading a section that is not there gives the empty object. *)
Definition handleProcessConditionChange {V : Type} (section field : string) (value : V)
    (prev : gmap string (gmap string V)) : gmap string (gmap string V) :=
  <[section := <[field := value]> (default ∅ (prev !! section))]> prev.

End GradeSelection.

(** ** components/QualityReport.tsx: the radar chart *)

Module SpiderChart.
Local Open Scope Q_scope.

Record trace : Type := mkTrace {
  r : list Q;
  theta : list string;
  name : string
}.

(** The two [scatterpolar] traces of [qualitySpiderChart]. *)
Definition qualitySpiderChart (qualityMetrics : option (list QualityReport.metric))
  : option (trace * trace) :=
  match qualityMetrics with
  | None => None
  | Some qualityMetrics =>
      Some ({| r := map QualityReport.score qualityMetrics;
               theta := map QualityReport.category qualityMetrics;
               name := "Current Quality" |},
            {| r := [100; 100; 100; 100];
               theta := map QualityReport.category qualityMetrics;
               name := "Target Quality" |})
  end.

(** [radialaxis.range] *)
Definition radial_range : Q * Q := (0, 100).

End SpiderChart.

(** ** components/ThermalAnalysis *)

Module ThermalAnalysis.

(** The arrays of the thermal profile are arrays of doubles: what JSON
    delivers for the numbers of the server's text. *)
Definition doubles (a : list Q) : list Double.t := map Double.of_Q a.

(** [a[i]]: [undefined] past the end. *)
Definition at_index (a : list Double.t) (i : nat) : option Double.t := nth_error a i.

(** The indices of [for (let i = 1; i < quenchingTemp.length; i++)]. *)
Definition steps (quenchingTemp : list Double.t) : list nat :=
  seq 1 (List.length quenchingTemp - 1).

(** One step of the loop of [coolingRateChart]. *)
Definition rate (quenchingTime quenchingTemp : list Double.t) (i : nat) : Double.t :=
  let deltaT :=
    Double.sub (Double.number (at_index quenchingTemp i))
      (Double.number (at_index quenchingTemp (i - 1))) in
  let deltaTime :=
    Double.div
      (Double.sub (Double.number (at_index quenchingTime i))
         (Double.number (at_index quenchingTime (i - 1))))
      (Double.of_Q 3600) in
  Double.abs (Double.div deltaT deltaTime).

Definition coolingRates (quenchingTime quenchingTemp : list Double.t) : list Double.t :=
  map (rate quenchingTime quenchingTemp) (steps quenchingTemp).



(** [carburizingTime[carburizingTime.length - 1]] *)
Definition carburizing_end (carburizingTime : list Double.t) : option Double.t :=
  match carburizingTime with
  | [] => None
  | _ => at_index carburizingTime (List.length carburizingTime - 1)
  end.

(** The time axes of the quenching and tempering traces of
    [thermalCycleChart], in hours. *)
Definition quenching_axis (carburizingTime time_quenching : list Double.t)
  : list Double.t :=
  map (fun t => Double.add (Double.number (carburizing_end carburizingTime))
                  (Double.div t (Double.of_Q 3600)))
      time_quenching.



End ThermalAnalysis.

(** ** More concrete inputs *)

Module Cases.
Local Open Scope Q_scope.

Definition accepting_validateInputs (_ : SimulationRequest.t)
  : JS.error + ApiResponse.t ValidationResponse.t :=
  inr (Samples.response {| ValidationResponse.valid := true;
                           ValidationResponse.error := None;
                           ValidationResponse.warnings := ["Long cycle"; "Coarse mesh"] |}).

Definition unprocessable : AxiosError.t :=
  {| AxiosError.response :=
       Some {| AxiosError.status := 422%N;
               AxiosError.detail := Some "carbon_potential: value too large" |};
     AxiosError.request := true;
     AxiosError.message := "Request failed with status code 422" |}.

(** A rejected request whose body says why, and a request that got no
    answer. *)
Definition bad_request : AxiosError.t :=
  {| AxiosError.response :=
       Some {| AxiosError.status := 400%N;
               AxiosError.detail := Some "carbon_potential: value too large" |};
     AxiosError.request := true;
     AxiosError.message := "Request failed with status code 400" |}.

Definition offline : AxiosError.t :=
  {| AxiosError.response := None;
     AxiosError.request := true;
     AxiosError.message := "Network Error" |}.

Definition failing_validateInputs (_ : SimulationRequest.t)
  : JS.error + ApiResponse.t ValidationResponse.t :=
  ApiService.intercepted (inl unprocessable).

Definition failing_runSimulation (_ : SimulationRequest.t)
  : JS.error + ApiResponse.t SimulationResults.t :=
  inl (JS.new_Error "Internal server error").

End Cases.

Module Cases2.
Local Open Scope Q_scope.

Definition constraints : ApiService.Constraints :=
  {| ApiService.temperature_range := (Some 900, Some 1000);
     ApiService.time_range := (Some 2.0, Some 12.0);
     ApiService.carbon_potential_range := (Some 0.8, Some 1.2) |}.

Definition optimization_result : ApiService.ProcessOptimizationResult :=
  {| ApiService.optimized_conditions :=
       {| ApiService.carburizing :=
            SimulationRequest.carburizing Api.createDefaultSimulationRequest;
          ApiService.quenching :=
            SimulationRequest.quenching Api.createDefaultSimulationRequest;
          ApiService.tempering :=
            SimulationRequest.tempering Api.createDefaultSimulationRequest |};
     ApiService.predicted_results := Samples.results_with true true true true;
     ApiService.optimization_score := 0.9;
     ApiService.convergence_info := [] |}.

Definition accepting_optimizeProcess (_ : ApiService.ProcessOptimizationRequest)
  : JS.error + ApiResponse.t ApiService.ProcessOptimizationResult :=
  inr (Samples.response optimization_result).

Definition failing_compareMaterials (_ : ApiService.MaterialComparisonRequest)
  : JS.error + ApiResponse.t MaterialComparisonResponse.t :=
  ApiService.intercepted (inl Cases.unprocessable).

End Cases2.

Module Cases3.
Local Open Scope Q_scope.

(** An optimization result whose 0.4 % carbon case depth is [depth]. *)
Definition result_with_depth (depth : Q) : ApiService.ProcessOptimizationResult :=
  let r := Samples.results_with true true true true in
  {| ApiService.optimized_conditions :=
       ApiService.optimized_conditions Cases2.optimization_result;
     ApiService.predicted_results :=
       SimulationResults.mk (SimulationResults.calculation_id r)
         (SimulationResults.timestamp r) (SimulationResults.computation_time r)
         (SimulationResults.property_profiles r) (SimulationResults.thermal_profiles r)
         (CaseDepthResults.mk depth 0.85 0.6 0.4 0.6 0.85)
         (SimulationResults.process_metrics r) (SimulationResults.critical_temperatures r)
         (SimulationResults.quality_assessment r) (SimulationResults.input_summary r)
         (SimulationResults.warnings r) (SimulationResults.errors r)
         (SimulationResults.validation_status r);
     ApiService.optimization_score := 0.9;
     ApiService.convergence_info := [] |}.

Definition optimization_state (target : jsnum) (grade : string)
  : ProcessOptimization.state :=
  {| ProcessOptimization.targetCaseDepth := target;
     ProcessOptimization.selectedGrade := grade;
     ProcessOptimization.optimizationObjective := "minimize_time";
     ProcessOptimization.optimizationResults := None;
     ProcessOptimization.error := None;
     ProcessOptimization.constraints := Cases2.constraints |}.

Definition failing_onOptimize (_ : jsnum) (_ : string) (_ : ApiService.Constraints)
    (_ : string) : JS.error + ApiService.ProcessOptimizationResult :=
  inl (JS.new_Error "Internal server error").

End Cases3.

Module Cases4.
Local Open Scope Q_scope.

Definition steel_8620 : SteelGrade.t :=
  {| SteelGrade.name := "AISI 8620";
     SteelGrade.composition :=
       SteelCompositionInput.mk None (Some 0.20) (Some 0.25) (Some 0.80) (Some 0.55)
         (Some 0.50) (Some 0.20) (Some 0) (Some 0) (Some 0) (Some 0) (Some 0)
         (Some 0) (Some 0);
     SteelGrade.description := "Ni-Cr-Mo carburizing steel";
     SteelGrade.applications := ["gears"];
     SteelGrade.typical_properties := ∅ |}.

Definition steel_grades : SteelGradesResponse.t :=
  {| SteelGradesResponse.grades := Some {[ "8620" := steel_8620 ]} |}.

Definition form : FormState.t :=
  {| FormState.values := Api.createDefaultSimulationRequest;
     FormState.useCustomComposition := true |}.

(** A medium whose entry has no heat-transfer-coefficient range. *)
Definition still_air : QuenchMedium.t :=
  {| QuenchMedium.name := "Air";
     QuenchMedium.typical_temperature := 25;
     QuenchMedium.heat_transfer_coefficient_range := None;
     QuenchMedium.description := "Still air";
     QuenchMedium.applications := [] |}.

Definition two_media : QuenchMediaResponse.t :=
  {| QuenchMediaResponse.media :=
       Some (<[ "air" := still_air ]> {[ "water" := Samples.water ]}) |}.

End Cases4.

Module Cases5.
Local Open Scope Q_scope.

(** A quench sampled every 10 s, with one time stamp repeated and one
    missing at the end. *)
Definition quench_time : list Double.t := ThermalAnalysis.doubles [0; 10; 20; 20].
Definition quench_temperature : list Double.t :=
  ThermalAnalysis.doubles [920; 700; 500; 400; 350].

(** Six hours of carburizing sampled every hour, in hours. *)
Definition carburizing_time : list Double.t :=
  ThermalAnalysis.doubles [0; 1; 2; 3; 4; 5; 6].

End Cases5.

(** The value of a form field is the number [q]. *)
Definition same_number (a : jsnum) (q : Q) : Prop :=
  match a with Some x => (x == q)%Q | None => False end.

(** What a check of the validator finds out about a number of the form. *)
Definition absent (a : jsnum) : Prop := a = None.
Definition zero (a : jsnum) : Prop := exists x, a = Some x /\ (x == 0)%Q.
Definition below (a : jsnum) (b : Q) : Prop := exists x, a = Some x /\ (x < b)%Q.
Definition above (a : jsnum) (b : Q) : Prop := exists x, a = Some x /\ (b < x)%Q.
Definition within (a : jsnum) (lo hi : Q) : Prop :=
  exists x, a = Some x /\ (lo <= x <= hi)%Q.

(** Each of them can be decided. *)
#[global] Instance absent_dec (a : jsnum) : Decision (absent a).
Proof.
  destruct a as [x|]; [right; discriminate | left; reflexivity].
Defined.

#[global] Instance zero_dec (a : jsnum) : Decision (zero a).
Proof.
  destruct a as [x|].
  - destruct (Qeq_dec x 0) as [H|H].
    + left. exists x. split; [reflexivity | exact H].
    + right. intros (y & E & Hy). injection E as <-. exact (H Hy).
  - right. intros (y & E & _). discriminate E.
Defined.

#[global] Instance below_dec (a : jsnum) (b : Q) : Decision (below a b).
Proof.
  destruct a as [x|].
  - destruct (Qlt_le_dec x b) as [H|H].
    + left. exists x. split; [reflexivity | exact H].
    + right. intros (y & E & Hy). injection E as <-. exact (Qlt_not_le _ _ Hy H).
  - right. intros (y & E & _). discriminate E.
Defined.

#[global] Instance above_dec (a : jsnum) (b : Q) : Decision (above a b).
Proof.
  destruct a as [x|].
  - destruct (Qlt_le_dec b x) as [H|H].
    + left. exists x. split; [reflexivity | exact H].
    + right. intros (y & E & Hy). injection E as <-. exact (Qlt_not_le _ _ Hy H).
  - right. intros (y & E & _). discriminate E.
Defined.

(** What a check reports: the message when the condition holds, and nothing
    otherwise. *)
Definition error_if (P : Prop) `{Decision P} (msg : string) : list string :=
  if decide P then [msg] else [].

(** * Properties *)

Local Open Scope Q_scope.

(** ** The reference scenario *)

(** C6.  [createDefaultSimulationRequest] returns the end-to-end reference
    scenario: composition C 0.20, Si 0.25, Mn 0.80, Ni 0.55, Cr 0.50,
    Mo 0.20 and V, W, Cu, P, Al, As, Ti all 0; carburizing at 920 for 6.0
    hours at carbon potential 1.0; quench medium ['oil'] at 60; tempering at
    170 for 2.0 hours. *)
Theorem createDefaultSimulationRequest_reference_scenario :
  let request := Api.createDefaultSimulationRequest in
  let composition := SimulationRequest.steel_composition request in
  let carburizing := SimulationRequest.carburizing request in
  let quenching := SimulationRequest.quenching request in
  let tempering := SimulationRequest.tempering request in
  (same_number (SteelCompositionInput.C composition) 0.2
   /\ same_number (SteelCompositionInput.Si composition) 0.25
   /\ same_number (SteelCompositionInput.Mn composition) 0.8
   /\ same_number (SteelCompositionInput.Ni composition) 0.55
   /\ same_number (SteelCompositionInput.Cr composition) 0.5
   /\ same_number (SteelCompositionInput.Mo composition) 0.2)
  /\ Forall (fun f => same_number (f composition) 0)
       [ SteelCompositionInput.V; SteelCompositionInput.W;
         SteelCompositionInput.Cu; SteelCompositionInput.P;
         SteelCompositionInput.Al; SteelCompositionInput.As;
         SteelCompositionInput.Ti ]
  /\ (same_number (CarburizingConditions.temperature carburizing) 920
      /\ same_number (CarburizingConditions.time_hours carburizing) 6
      /\ same_number (CarburizingConditions.carbon_potential carburizing) 1)
  /\ (QuenchingConditions.quench_medium quenching = "oil"
      /\ same_number (QuenchingConditions.quench_temperature quenching) 60)
  /\ (same_number (TemperingConditions.temperature tempering) 170
      /\ same_number (TemperingConditions.time_hours tempering) 2).
Proof.
  cbn -[Qeq]. unfold same_number.
  repeat split; try reflexivity.
  repeat constructor.
Qed.

(** ** The output contract *)

(** C7.  The result structure declares every field the output contract
    names: the per-node arrays of [PropertyProfile] (distance, carbon,
    Vickers and Rockwell-C hardness, grain size, phase fractions), the
    carburizing and quenching time and temperature histories of
    [ThermalProfile], the critical temperatures, the case-depth metrics with
    the effective and total case depth, the quality assessment with its
    letter grade and boolean pass flags, the warnings list, and the errors
    list with the validation status. *)
Theorem SimulationResults_covers_output_contract :
  let numbers := Some (Schema.TArray Schema.TNumber) in
  let number := Some Schema.TNumber in
  let boolean := Some Schema.TBoolean in
  let strings := Some (Schema.TArray Schema.TString) in
  (* PropertyProfile *)
  (Schema.delivered ["property_profiles"; "distance_mm"] = numbers
   /\ Schema.delivered ["property_profiles"; "carbon_profile"] = numbers
   /\ Schema.delivered ["property_profiles"; "hardness_hv"] = numbers
   /\ Schema.delivered ["property_profiles"; "hardness_hrc"] = numbers
   /\ Schema.delivered ["property_profiles"; "grain_size"] = numbers
   /\ Schema.delivered ["property_profiles"; "phase_fractions"]
      = Some (Schema.TRecord Schema.TString (Schema.TArray Schema.TNumber)))
  (* ThermalProfile *)
  /\ (Schema.delivered ["thermal_profiles"; "time_carburizing"] = numbers
      /\ Schema.delivered ["thermal_profiles"; "temperature_carburizing"] = numbers
      /\ Schema.delivered ["thermal_profiles"; "time_quenching"] = numbers
      /\ Schema.delivered ["thermal_profiles"; "temperature_quenching"] = numbers)
  (* CriticalTemperatures *)
  /\ (Schema.delivered ["critical_temperatures"] = Some (Schema.TRef "CriticalTemperatures")
      /\ Forall (fun n => Schema.declares "CriticalTemperatures" n Schema.TNumber = true)
           [ "ae3_temperature"; "ae1_temperature"; "ms_temperature_core";
             "ms_temperature_surface"; "bs_temperature" ])
  (* case-depth metrics *)
  /\ (Schema.delivered ["case_depth_results"] = Some (Schema.TRef "CaseDepthResults")
      /\ Schema.delivered ["case_depth_results"; "effective_case_depth"] = number
      /\ Schema.delivered ["case_depth_results"; "total_case_depth"] = number
      /\ Forall (fun n => Schema.declares "CaseDepthResults" n Schema.TNumber = true)
           [ "case_depth_04_carbon"; "case_depth_03_carbon";
             "case_depth_50_hrc"; "case_depth_55_hrc" ])
  (* quality assessment *)
  /\ (Schema.delivered ["quality_assessment"; "overall_grade"] = Some Schema.TString
      /\ Schema.delivered ["quality_assessment"; "gear_requirements_met"] = boolean
      /\ Schema.delivered ["quality_assessment"; "surface_hardness_ok"] = boolean
      /\ Schema.delivered ["quality_assessment"; "case_depth_ok"] = boolean
      /\ Schema.delivered ["quality_assessment"; "core_hardness_ok"] = boolean
      /\ Schema.delivered ["quality_assessment"; "grain_size_ok"] = boolean)
  (* warnings and the fatal-error indicator *)
  /\ Schema.delivered ["warnings"] = strings
  /\ Schema.delivered ["errors"] = strings
  /\ Schema.delivered ["validation_status"] = Some Schema.TString.
Proof.
  cbv zeta.
  repeat match goal with
         | |- _ /\ _ => split
         | |- Forall _ _ => constructor
         end; vm_compute; reflexivity.
Qed.

(** ** The quality score *)

(** The score of a metric: 100 when it passes, its penalty value otherwise. *)
Lemma qualityMetrics_scores (r : SimulationResults.t) :
  option_map (map QualityReport.score) (QualityReport.qualityMetrics (Some r))
  = let qa := SimulationResults.quality_assessment r in
    Some [ if QualityAssessment.surface_hardness_ok qa then 100 else 70;
           if QualityAssessment.case_depth_ok qa then 100 else 75;
           if QualityAssessment.core_hardness_ok qa then 100 else 65;
           if QualityAssessment.grain_size_ok qa then 100 else 80 ]%Q.
Proof. reflexivity. Qed.

Lemma report_score_flags (r : SimulationResults.t) :
  (QualityReport.report_score r
   == ((if QualityAssessment.surface_hardness_ok (SimulationResults.quality_assessment r) then 100 else 70)
       + (if QualityAssessment.case_depth_ok (SimulationResults.quality_assessment r) then 100 else 75)
       + (if QualityAssessment.core_hardness_ok (SimulationResults.quality_assessment r) then 100 else 65)
       + (if QualityAssessment.grain_size_ok (SimulationResults.quality_assessment r) then 100 else 80)) / 4)%Q.
Proof.
  unfold QualityReport.report_score, QualityReport.overallScore, QualityReport.qualityMetrics.
  cbn [fold_left List.length QualityReport.score Z.of_nat].
  change (inject_Z (Z.pos (Pos.of_succ_nat 3))) with 4%Q.
  field.
Qed.

Lemma report_score_times4 (r : SimulationResults.t) :
  (QualityReport.report_score r * 4
   == (if QualityAssessment.surface_hardness_ok (SimulationResults.quality_assessment r) then 100 else 70)
      + (if QualityAssessment.case_depth_ok (SimulationResults.quality_assessment r) then 100 else 75)
      + (if QualityAssessment.core_hardness_ok (SimulationResults.quality_assessment r) then 100 else 65)
      + (if QualityAssessment.grain_size_ok (SimulationResults.quality_assessment r) then 100 else 80))%Q.
Proof. rewrite report_score_flags. field. Qed.

(** C8.  The overall quality score is the arithmetic mean of the four
    per-metric scores (100 for a passed check; 70, 75, 65, 80 for a failed
    surface-hardness, case-depth, core-hardness, grain-size check); it lies
    in [72.5, 100], is 100 exactly when the four flags are true, and does
    not decrease when flags go from false to true. *)
Theorem overallScore_mean_of_flag_scores (r r' : SimulationResults.t) :
  let qa := SimulationResults.quality_assessment r in
  let s1 := (if QualityAssessment.surface_hardness_ok qa then 100 else 70)%Q in
  let s2 := (if QualityAssessment.case_depth_ok qa then 100 else 75)%Q in
  let s3 := (if QualityAssessment.core_hardness_ok qa then 100 else 65)%Q in
  let s4 := (if QualityAssessment.grain_size_ok qa then 100 else 80)%Q in
  (QualityReport.overallScore (QualityReport.qualityMetrics (Some r))
   == (s1 + s2 + s3 + s4) / 4)%Q
  /\ (72.5 <= QualityReport.report_score r <= 100)%Q
  /\ ((QualityReport.report_score r == 100)%Q
      <-> QualityReport.flags qa = [true; true; true; true])
  /\ (Forall2 (fun before after => before = true -> after = true)
        (QualityReport.flags qa)
        (QualityReport.flags (SimulationResults.quality_assessment r'))
      -> (QualityReport.report_score r <= QualityReport.report_score r')%Q).
Proof.
  cbv zeta.
  split; [exact (report_score_flags r)|].
  pose proof (report_score_times4 r) as E.
  pose proof (report_score_times4 r') as E'.
  revert E E'. unfold QualityReport.flags.
  generalize (QualityReport.report_score r) (QualityReport.report_score r').
  intros x x'.
  destruct (QualityAssessment.surface_hardness_ok (SimulationResults.quality_assessment r)),
    (QualityAssessment.case_depth_ok (SimulationResults.quality_assessment r)),
    (QualityAssessment.core_hardness_ok (SimulationResults.quality_assessment r)),
    (QualityAssessment.grain_size_ok (SimulationResults.quality_assessment r));
    intros E E';
    (split; [lra|]);
    (split; [split; [intros H; try reflexivity; exfalso; lra
                    | intros H; try discriminate H; lra]|]);
    intros H;
    repeat match goal with
           | H : Forall2 _ (_ :: _) _ |- _ => inversion H; subst; clear H
           | H : true = true -> _ |- _ => specialize (H eq_refl)
           end;
    repeat match goal with
           | H : ?x = true |- _ => rewrite H in E'
           end;
    repeat match goal with
           | _ : context [if ?b then _ else _] |- _ => destruct b
           end; lra.
Qed.

(** ** Comparisons of form numbers *)

Lemma Qlt_bool_iff (x y : Q) : JS.Qlt_bool x y = true <-> (x < y)%Q.
Proof.
  unfold JS.Qlt_bool. rewrite Bool.negb_true_iff.
  split.
  - intros H. apply Qnot_le_lt. intros Hle.
    apply Qle_bool_iff in Hle. congruence.
  - intros H. destruct (Qle_bool y x) eqn:E; [|reflexivity].
    apply Qle_bool_iff in E. exfalso. exact (Qlt_not_le _ _ H E).
Qed.

Lemma lt_iff (a : jsnum) (b : Q) : JS.lt a b = true <-> below a b.
Proof.
  unfold JS.lt, below. destruct a as [x|].
  - rewrite Qlt_bool_iff. split; [eauto|]. intros (y & [= <-] & H). exact H.
  - split; [discriminate|]. intros (y & [=] & _).
Qed.

Lemma gt_iff (a : jsnum) (b : Q) : JS.gt a b = true <-> above a b.
Proof.
  unfold JS.gt, above. destruct a as [x|].
  - rewrite Qlt_bool_iff. split; [eauto|]. intros (y & [= <-] & H). exact H.
  - split; [discriminate|]. intros (y & [=] & _).
Qed.

Lemma not_num_iff (a : jsnum) : JS.not_num a = true <-> absent a \/ zero a.
Proof.
  unfold JS.not_num, absent, zero. destruct a as [x|].
  - rewrite Qeq_bool_iff. split.
    + intros H. right. eauto.
    + intros [[=]|(y & [= <-] & H)]. exact H.
  - split; [now left | reflexivity].
Qed.

Lemma within_not_outside (a : jsnum) (lo hi : Q) :
  within a lo hi -> JS.lt a lo = false /\ JS.gt a hi = false.
Proof.
  intros (x & -> & Hlo & Hhi). cbn. unfold JS.Qlt_bool.
  rewrite (proj2 (Qle_bool_iff _ _) Hlo), (proj2 (Qle_bool_iff _ _) Hhi).
  split; reflexivity.
Qed.

(** ** The request validator *)

(** The validator's result, check by check. *)
Lemma validateSimulationRequest_parts (request : PartialSimulationRequest.t) :
  Api.validateSimulationRequest request
  = ((match PartialSimulationRequest.steel_composition request with
     | None => ["Steel composition is required"]
     | Some sc =>
         if JS.not_num (SteelCompositionInput.C sc)
            || JS.lt (SteelCompositionInput.C sc) 0.01
            || JS.gt (SteelCompositionInput.C sc) 2.0
         then [Api.carbon_error] else []
     end)
    ++ (match PartialSimulationRequest.carburizing request with
        | None => ["Carburizing conditions are required"]
        | Some cb =>
            (if JS.lt (CarburizingConditions.temperature cb) 850
                || JS.gt (CarburizingConditions.temperature cb) 1050
             then [Api.carburizing_temperature_error] else [])
            ++ (if JS.lt (CarburizingConditions.time_hours cb) 0.5
                   || JS.gt (CarburizingConditions.time_hours cb) 24
                then [Api.carburizing_time_error] else [])
        end)
    ++ (match PartialSimulationRequest.quenching request with
        | None => ["Quenching conditions are required"]
        | Some _ => []
        end)
    ++ (match PartialSimulationRequest.tempering request with
        | None => ["Tempering conditions are required"]
        | Some _ => []
        end)
    ++ (match PartialSimulationRequest.geometry request with
        | None => ["Part geometry is required"]
        | Some g =>
            if JS.not_num (PartGeometry.characteristic_dimension g)
               || JS.lt (PartGeometry.characteristic_dimension g) 1
            then [Api.characteristic_dimension_error] else []
        end))%list.
Proof.
  unfold Api.validateSimulationRequest, Api.push.
  destruct (PartialSimulationRequest.steel_composition request) as [sc|];
    [destruct (_ || _ || _)|];
    (destruct (PartialSimulationRequest.carburizing request) as [cb|];
     [destruct (JS.lt (CarburizingConditions.temperature cb) 850
                || JS.gt (CarburizingConditions.temperature cb) 1050),
        (JS.lt (CarburizingConditions.time_hours cb) 0.5
         || JS.gt (CarburizingConditions.time_hours cb) 24)|]);
    destruct (PartialSimulationRequest.quenching request),
      (PartialSimulationRequest.tempering request);
    (destruct (PartialSimulationRequest.geometry request) as [g|];
     [destruct (_ || _)|]);
    reflexivity.
Qed.

Lemma carbon_check_iff (c : jsnum) :
  JS.not_num c || JS.lt c 0.01 || JS.gt c 2.0 = true
  <-> absent c \/ zero c \/ below c 0.01 \/ above c 2.0.
Proof.
  rewrite !Bool.orb_true_iff, not_num_iff, lt_iff, gt_iff. tauto.
Qed.

Lemma range_check_iff (a : jsnum) (lo hi : Q) :
  JS.lt a lo || JS.gt a hi = true <-> below a lo \/ above a hi.
Proof. rewrite Bool.orb_true_iff, lt_iff, gt_iff. tauto. Qed.

Lemma dimension_check_iff (d : jsnum) :
  JS.not_num d || JS.lt d 1 = true <-> absent d \/ zero d \/ below d 1.
Proof. rewrite Bool.orb_true_iff, not_num_iff, lt_iff. tauto. Qed.

(** Membership of a message in the concrete lists the validator builds. *)
Ltac message_membership :=
  unfold Api.carbon_error, Api.carburizing_temperature_error,
    Api.carburizing_time_error, Api.characteristic_dimension_error in *;
  cbn [In app] in *;
  intuition (try discriminate; try congruence).

(** Case analysis on everything the validator inspects, except what the
    caller has already fixed. *)
Ltac validator_cases request :=
  repeat match goal with
         | |- context [match PartialSimulationRequest.steel_composition request with _ => _ end] =>
             destruct (PartialSimulationRequest.steel_composition request)
         | |- context [match PartialSimulationRequest.carburizing request with _ => _ end] =>
             destruct (PartialSimulationRequest.carburizing request)
         | |- context [match PartialSimulationRequest.quenching request with _ => _ end] =>
             destruct (PartialSimulationRequest.quenching request)
         | |- context [match PartialSimulationRequest.tempering request with _ => _ end] =>
             destruct (PartialSimulationRequest.tempering request)
         | |- context [match PartialSimulationRequest.geometry request with _ => _ end] =>
             destruct (PartialSimulationRequest.geometry request)
         | |- context [if ?b then _ else _] => destruct b
         end.

Lemma carbon_error_iff (request : PartialSimulationRequest.t) (sc : SteelCompositionInput.t) :
  PartialSimulationRequest.steel_composition request = Some sc ->
  In Api.carbon_error (Api.validateSimulationRequest request)
  <-> absent (SteelCompositionInput.C sc) \/ zero (SteelCompositionInput.C sc)
      \/ below (SteelCompositionInput.C sc) 0.01
      \/ above (SteelCompositionInput.C sc) 2.0.
Proof.
  intros Hsc. rewrite validateSimulationRequest_parts, Hsc, <- carbon_check_iff.
  validator_cases request; message_membership.
Qed.

Lemma carburizing_temperature_error_iff (request : PartialSimulationRequest.t)
    (cb : CarburizingConditions.t) :
  PartialSimulationRequest.carburizing request = Some cb ->
  In Api.carburizing_temperature_error (Api.validateSimulationRequest request)
  <-> below (CarburizingConditions.temperature cb) 850
      \/ above (CarburizingConditions.temperature cb) 1050.
Proof.
  intros Hcb. rewrite validateSimulationRequest_parts, Hcb, <- range_check_iff.
  validator_cases request; message_membership.
Qed.

Lemma carburizing_time_error_iff (request : PartialSimulationRequest.t)
    (cb : CarburizingConditions.t) :
  PartialSimulationRequest.carburizing request = Some cb ->
  In Api.carburizing_time_error (Api.validateSimulationRequest request)
  <-> below (CarburizingConditions.time_hours cb) 0.5
      \/ above (CarburizingConditions.time_hours cb) 24.
Proof.
  intros Hcb. rewrite validateSimulationRequest_parts, Hcb, <- range_check_iff.
  validator_cases request; message_membership.
Qed.

Lemma characteristic_dimension_error_iff (request : PartialSimulationRequest.t)
    (g : PartGeometry.t) :
  PartialSimulationRequest.geometry request = Some g ->
  In Api.characteristic_dimension_error (Api.validateSimulationRequest request)
  <-> absent (PartGeometry.characteristic_dimension g)
      \/ zero (PartGeometry.characteristic_dimension g)
      \/ below (PartGeometry.characteristic_dimension g) 1.
Proof.
  intros Hg. rewrite validateSimulationRequest_parts, Hg, <- dimension_check_iff.
  validator_cases request; message_membership.
Qed.

Lemma validateSimulationRequest_in_range (request : PartialSimulationRequest.t)
    sc cb q t g :
  PartialSimulationRequest.steel_composition request = Some sc ->
  PartialSimulationRequest.carburizing request = Some cb ->
  PartialSimulationRequest.quenching request = Some q ->
  PartialSimulationRequest.tempering request = Some t ->
  PartialSimulationRequest.geometry request = Some g ->
  within (SteelCompositionInput.C sc) 0.01 2.0 ->
  within (CarburizingConditions.temperature cb) 850 1050 ->
  within (CarburizingConditions.time_hours cb) 0.5 24 ->
  (exists d, PartGeometry.characteristic_dimension g = Some d /\ 1 <= d) ->
  Api.validateSimulationRequest request = [].
Proof.
  rewrite validateSimulationRequest_parts.
  intros -> -> -> -> -> HC HT Ht (d & Hd & Hd1).
  destruct (within_not_outside _ _ _ HT) as [-> ->].
  destruct (within_not_outside _ _ _ Ht) as [-> ->].
  destruct (within_not_outside _ _ _ HC) as [-> ->].
  destruct HC as (c & Hc & Hc1 & Hc2).
  rewrite Hc, Hd. cbn.
  replace (Qeq_bool c 0) with false
    by (symmetry; apply Bool.not_true_is_false; rewrite Qeq_bool_iff; lra).
  replace (Qeq_bool d 0) with false
    by (symmetry; apply Bool.not_true_is_false; rewrite Qeq_bool_iff; lra).
  unfold JS.Qlt_bool. rewrite (proj2 (Qle_bool_iff _ _) Hd1). reflexivity.
Qed.

Lemma error_if_bool (P : Prop) `{Decision P} (b : bool) (msg : string) :
  (b = true <-> P) -> (if b then [msg] else []) = error_if P msg.
Proof.
  intros Hb. unfold error_if.
  destruct b, (decide P) as [HP|HP]; try reflexivity.
  - exfalso. apply HP, Hb. reflexivity.
  - apply Hb in HP. discriminate HP.
Qed.

(** The list the validator returns, with every check put in terms of the
    number it inspects. *)
Lemma validateSimulationRequest_reports (request : PartialSimulationRequest.t) :
  Api.validateSimulationRequest request
  = ((match PartialSimulationRequest.steel_composition request with
      | None => ["Steel composition is required"]
      | Some sc =>
          error_if (absent (SteelCompositionInput.C sc) \/ zero (SteelCompositionInput.C sc)
                    \/ below (SteelCompositionInput.C sc) 0.01
                    \/ above (SteelCompositionInput.C sc) 2.0)
            Api.carbon_error
      end)
     ++ (match PartialSimulationRequest.carburizing request with
         | None => ["Carburizing conditions are required"]
         | Some cb =>
             error_if (below (CarburizingConditions.temperature cb) 850
                       \/ above (CarburizingConditions.temperature cb) 1050)
               Api.carburizing_temperature_error
             ++ error_if (below (CarburizingConditions.time_hours cb) 0.5
                          \/ above (CarburizingConditions.time_hours cb) 24)
                  Api.carburizing_time_error
         end)
     ++ (match PartialSimulationRequest.quenching request with
         | None => ["Quenching conditions are required"]
         | Some _ => []
         end)
     ++ (match PartialSimulationRequest.tempering request with
         | None => ["Tempering conditions are required"]
         | Some _ => []
         end)
     ++ (match PartialSimulationRequest.geometry request with
         | None => ["Part geometry is required"]
         | Some g =>
             error_if (absent (PartGeometry.characteristic_dimension g)
                       \/ zero (PartGeometry.characteristic_dimension g)
                       \/ below (PartGeometry.characteristic_dimension g) 1)
               Api.characteristic_dimension_error
         end))%list.
Proof.
  rewrite validateSimulationRequest_parts.
  destruct (PartialSimulationRequest.steel_composition request) as [sc|],
    (PartialSimulationRequest.carburizing request) as [cb|],
    (PartialSimulationRequest.geometry request) as [g|];
    rewrite ?(error_if_bool _ _ Api.carbon_error
                (carbon_check_iff (SteelCompositionInput.C sc))),
      ?(error_if_bool _ _ Api.carburizing_temperature_error
          (range_check_iff (CarburizingConditions.temperature cb) 850 1050)),
      ?(error_if_bool _ _ Api.carburizing_time_error
          (range_check_iff (CarburizingConditions.time_hours cb) 0.5 24)),
      ?(error_if_bool _ _ Api.characteristic_dimension_error
          (dimension_check_iff (PartGeometry.characteristic_dimension g)));
    reflexivity.
Qed.

(** C3.  [validateSimulationRequest] returns exactly the errors of the
    checks it performs, in the order of the checks, for every request: for
    each of the five sub-records its "required" message when the sub-record
    is missing, and otherwise the carbon error iff [steel_composition.C] is
    absent, zero, below 0.01 or above 2.0; the carburizing temperature error
    iff the temperature is below 850 or above 1050; the carburizing time
    error iff [time_hours] is below 0.5 or above 24; the
    characteristic-dimension error iff the dimension is absent, zero or
    below 1; and nothing else.  With the five sub-records present and those
    fields in range, the list is empty. *)
Theorem validateSimulationRequest_exact_errors (request : PartialSimulationRequest.t) :
  let errors := Api.validateSimulationRequest request in
  errors
  = ((match PartialSimulationRequest.steel_composition request with
      | None => ["Steel composition is required"]
      | Some sc =>
          error_if (absent (SteelCompositionInput.C sc) \/ zero (SteelCompositionInput.C sc)
                    \/ below (SteelCompositionInput.C sc) 0.01
                    \/ above (SteelCompositionInput.C sc) 2.0)
            Api.carbon_error
      end)
     ++ (match PartialSimulationRequest.carburizing request with
         | None => ["Carburizing conditions are required"]
         | Some cb =>
             error_if (below (CarburizingConditions.temperature cb) 850
                       \/ above (CarburizingConditions.temperature cb) 1050)
               Api.carburizing_temperature_error
             ++ error_if (below (CarburizingConditions.time_hours cb) 0.5
                          \/ above (CarburizingConditions.time_hours cb) 24)
                  Api.carburizing_time_error
         end)
     ++ (match PartialSimulationRequest.quenching request with
         | None => ["Quenching conditions are required"]
         | Some _ => []
         end)
     ++ (match PartialSimulationRequest.tempering request with
         | None => ["Tempering conditions are required"]
         | Some _ => []
         end)
     ++ (match PartialSimulationRequest.geometry request with
         | None => ["Part geometry is required"]
         | Some g =>
             error_if (absent (PartGeometry.characteristic_dimension g)
                       \/ zero (PartGeometry.characteristic_dimension g)
                       \/ below (PartGeometry.characteristic_dimension g) 1)
               Api.characteristic_dimension_error
         end))%list
  /\ (forall sc, PartialSimulationRequest.steel_composition request = Some sc ->
     (In Api.carbon_error errors
      <-> absent (SteelCompositionInput.C sc) \/ zero (SteelCompositionInput.C sc)
          \/ below (SteelCompositionInput.C sc) 0.01
          \/ above (SteelCompositionInput.C sc) 2.0))
  /\ (forall cb, PartialSimulationRequest.carburizing request = Some cb ->
        (In Api.carburizing_temperature_error errors
         <-> below (CarburizingConditions.temperature cb) 850
             \/ above (CarburizingConditions.temperature cb) 1050)
        /\ (In Api.carburizing_time_error errors
            <-> below (CarburizingConditions.time_hours cb) 0.5
                \/ above (CarburizingConditions.time_hours cb) 24))
  /\ (forall g, PartialSimulationRequest.geometry request = Some g ->
        (In Api.characteristic_dimension_error errors
         <-> absent (PartGeometry.characteristic_dimension g)
             \/ zero (PartGeometry.characteristic_dimension g)
             \/ below (PartGeometry.characteristic_dimension g) 1))
  /\ (forall sc cb q t g,
        PartialSimulationRequest.steel_composition request = Some sc ->
        PartialSimulationRequest.carburizing request = Some cb ->
        PartialSimulationRequest.quenching request = Some q ->
        PartialSimulationRequest.tempering request = Some t ->
        PartialSimulationRequest.geometry request = Some g ->
        within (SteelCompositionInput.C sc) 0.01 2.0 ->
        within (CarburizingConditions.temperature cb) 850 1050 ->
        within (CarburizingConditions.time_hours cb) 0.5 24 ->
        (exists d, PartGeometry.characteristic_dimension g = Some d /\ 1 <= d) ->
        errors = []).
Proof.
  cbv zeta. split; [|split; [|split; [|split]]].
  - apply validateSimulationRequest_reports.
  - apply carbon_error_iff.
  - intros cb Hcb. split.
    + now apply carburizing_temperature_error_iff.
    + now apply carburizing_time_error_iff.
  - apply characteristic_dimension_error_iff.
  - apply validateSimulationRequest_in_range.
Qed.

Example validateSimulationRequest_default :
  Api.validateSimulationRequest
    (PartialSimulationRequest.of_request Api.createDefaultSimulationRequest) = [].
Proof. reflexivity. Qed.

Example validateSimulationRequest_empty_request :
  Api.validateSimulationRequest
    (PartialSimulationRequest.mk None None None None None None None None)
  = [ "Steel composition is required"; "Carburizing conditions are required";
      "Quenching conditions are required"; "Tempering conditions are required";
      "Part geometry is required" ].
Proof. reflexivity. Qed.

Example validateSimulationRequest_hot_carburizing :
  Api.validateSimulationRequest
    (PartialSimulationRequest.of_request (Samples.with_carburizing_temperature 1100))
  = [ Api.carburizing_temperature_error ].
Proof. reflexivity. Qed.

(** The default request passes every check of the validator. *)
Lemma validateSimulationRequest_exact_errors_witness :
  Api.validateSimulationRequest
    (PartialSimulationRequest.of_request Api.createDefaultSimulationRequest) = [].
Proof.
  set (r := Api.createDefaultSimulationRequest).
  apply (proj2 (proj2 (proj2 (proj2 (validateSimulationRequest_exact_errors
                                       (PartialSimulationRequest.of_request r)))))
           (SimulationRequest.steel_composition r) (SimulationRequest.carburizing r)
           (SimulationRequest.quenching r) (SimulationRequest.tempering r)
           (SimulationRequest.geometry r));
    try reflexivity.
  - exists 0.20. split; [reflexivity | lra].
  - exists 920. split; [reflexivity | lra].
  - exists 6.0. split; [reflexivity | lra].
  - exists 25.0. split; [reflexivity | lra].
Defined.

Example validateSimulationRequest_reports_missing_and_bad :
  Api.validateSimulationRequest
    (PartialSimulationRequest.mk
       (Some (SimulationRequest.steel_composition Api.createDefaultSimulationRequest))
       (Some (SimulationRequest.carburizing (Samples.with_carburizing_time 0.25)))
       None
       (Some (SimulationRequest.tempering Api.createDefaultSimulationRequest))
       None None None None)
  = [ Api.carburizing_time_error; "Quenching conditions are required";
      "Part geometry is required" ].
Proof. reflexivity. Qed.

(** A failed case-depth check costs score; passing it restores the score. *)
Lemma overallScore_mean_of_flag_scores_witness :
  QualityReport.report_score (Samples.results_with true false true true)
  <= QualityReport.report_score (Samples.results_with true true true true).
Proof.
  apply (proj2 (proj2 (proj2 (overallScore_mean_of_flag_scores
                                (Samples.results_with true false true true)
                                (Samples.results_with true true true true))))).
  repeat constructor.
Defined.

Example report_score_one_failure :
  QualityReport.report_score (Samples.results_with true false true true) == 93.75.
Proof. reflexivity. Qed.

Example overallScore_without_results :
  QualityReport.overallScore (QualityReport.qualityMetrics None) = 0.
Proof. reflexivity. Qed.

(** ** The form schema *)

Lemma field_ok_out_of_range (values : SimulationRequest.t)
    (get : SimulationRequest.t -> jsnum) (lo hi x : Q) :
  get values = Some x -> x < lo \/ hi < x ->
  InputForm.field_ok values (InputForm.YupNumber get lo hi) = false.
Proof.
  intros Hx Hout. cbn. rewrite Hx.
  apply Bool.not_true_is_false. rewrite Bool.andb_true_iff, !Qle_bool_iff. lra.
Qed.

(** A field that fails its schema is listed under its path. *)
Lemma validationSchema_errors_intro (values : SimulationRequest.t)
    (section name : string) (fields : InputForm.object_schema)
    (s : InputForm.field_schema) :
  In (section, fields) InputForm.validationSchema ->
  In (name, s) fields ->
  InputForm.field_ok values s = false ->
  In (section ++ "." ++ name)%string (InputForm.validationSchema_errors values).
Proof.
  intros Hsec Hfld Hbad.
  unfold InputForm.validationSchema_errors.
  apply in_flat_map. exists (section, fields). split; [exact Hsec|].
  unfold InputForm.object_errors.
  apply in_flat_map. exists (name, s). split; [exact Hfld|].
  rewrite Hbad. now left.
Qed.

Example validationSchema_default :
  InputForm.validationSchema_errors Api.createDefaultSimulationRequest = [].
Proof. reflexivity. Qed.

Lemma validationSchema_errors_inv (values : SimulationRequest.t) (path : string) :
  In path (InputForm.validationSchema_errors values) ->
  exists section fields name s,
    In (section, fields) InputForm.validationSchema
    /\ In (name, s) fields
    /\ InputForm.field_ok values s = false
    /\ path = (section ++ "." ++ name)%string.
Proof.
  unfold InputForm.validationSchema_errors. rewrite in_flat_map.
  intros ([section fields] & Hsec & Hpath).
  unfold InputForm.object_errors in Hpath. rewrite in_flat_map in Hpath.
  destruct Hpath as ([name s] & Hfld & Hpath).
  destruct (InputForm.field_ok values s) eqn:E; [contradiction|].
  destruct Hpath as [<-|[]]. exists section, fields, name, s. auto.
Qed.

Lemma field_ok_within (values : SimulationRequest.t)
    (get : SimulationRequest.t -> jsnum) (lo hi : Q) :
  InputForm.field_ok values (InputForm.YupNumber get lo hi) = true
  <-> within (get values) lo hi.
Proof.
  cbn. unfold within. destruct (get values) as [x|].
  - rewrite Bool.andb_true_iff, !Qle_bool_iff. split.
    + intros H. exists x. split; [reflexivity | exact H].
    + intros (y & [= <-] & H). exact H.
  - split; [discriminate|]. intros (y & [=] & _).
Qed.

(** The schema names each field once: two entries with the same path are
    the same entry. *)
Lemma validationSchema_path_unique (section section' name name' : string)
    (fields fields' : InputForm.object_schema) (s s' : InputForm.field_schema) :
  In (section, fields) InputForm.validationSchema ->
  In (name, s) fields ->
  In (section', fields') InputForm.validationSchema ->
  In (name', s') fields' ->
  (section ++ "." ++ name)%string = (section' ++ "." ++ name')%string ->
  s = s'.
Proof.
  intros Hsec Hfld Hsec' Hfld' Hpath.
  unfold InputForm.validationSchema in Hsec, Hsec'. cbn [In] in Hsec, Hsec'.
  repeat (destruct Hsec as [Hsec|Hsec]; [injection Hsec as <- <-|]);
    try contradiction; cbn [In] in Hfld;
    repeat (destruct Hfld as [Hfld|Hfld]; [injection Hfld as <- <-|]);
    try contradiction;
    repeat (destruct Hsec' as [Hsec'|Hsec']; [injection Hsec' as <- <-|]);
    try contradiction; cbn [In] in Hfld';
    repeat (destruct Hfld' as [Hfld'|Hfld']; [injection Hfld' as <- <-|]);
    try contradiction;
    first [discriminate Hpath | reflexivity].
Qed.

(** The form schema reports a number field exactly when its value is not a
    number within the field's range. *)
Lemma validationSchema_reports_iff (values : SimulationRequest.t)
    (section name : string) (fields : InputForm.object_schema)
    (get : SimulationRequest.t -> jsnum) (lo hi : Q) :
  In (section, fields) InputForm.validationSchema ->
  In (name, InputForm.YupNumber get lo hi) fields ->
  In (section ++ "." ++ name)%string (InputForm.validationSchema_errors values)
  <-> ~ within (get values) lo hi.
Proof.
  intros Hsec Hfld. rewrite <- field_ok_within. split.
  - intros Herr Hok. apply validationSchema_errors_inv in Herr.
    destruct Herr as (section' & fields' & name' & s & Hsec' & Hfld' & Hbad & Hpath).
    rewrite <- (validationSchema_path_unique _ _ _ _ _ _ _ _ Hsec Hfld Hsec' Hfld' Hpath)
      in Hbad.
    congruence.
  - intros Hnot. eapply validationSchema_errors_intro; [exact Hsec | exact Hfld|].
    destruct (InputForm.field_ok values (InputForm.YupNumber get lo hi));
      [contradiction Hnot; reflexivity | reflexivity].
Qed.

Example validateSimulationRequest_misses_tempering :
  Api.validateSimulationRequest
    (PartialSimulationRequest.of_request (Samples.with_tempering_temperature 9999)) = []
  /\ InputForm.validationSchema_errors (Samples.with_tempering_temperature 9999)
     = ["tempering.temperature"].
Proof. split; reflexivity. Qed.

(** C2, as stated, fails: a tempering temperature of 9999, far above the
    range 100-700 of the form schema, leaves the error list of
    [validateSimulationRequest] empty. *)
Lemma validateSimulationRequest_ignores_tempering_range :
  ~ (forall (values : SimulationRequest.t) section fields name get lo hi x,
        In (section, fields) InputForm.validationSchema ->
        InputForm.process_schedule_section section = true ->
        In (name, InputForm.YupNumber get lo hi) fields ->
        get values = Some x ->
        x < lo \/ hi < x ->
        Api.validateSimulationRequest (PartialSimulationRequest.of_request values) <> []).
Proof.
  intros claim.
  apply (claim (Samples.with_tempering_temperature 9999) "tempering"
           [ ("temperature", InputForm.YupNumber (InputForm.temper TemperingConditions.temperature) 100 700);
             ("time_hours", InputForm.YupNumber (InputForm.temper TemperingConditions.time_hours) 0.5 8.0);
             ("heating_rate", InputForm.YupNumber (InputForm.temper TemperingConditions.heating_rate) 0.5 10.0);
             ("temper_cycles", InputForm.YupNumber (InputForm.temper TemperingConditions.temper_cycles) 1 3) ]
           "temperature" (InputForm.temper TemperingConditions.temperature) 100 700 9999).
  - unfold InputForm.validationSchema. do 3 right. left. reflexivity.
  - reflexivity.
  - left. reflexivity.
  - reflexivity.
  - right. lra.
  - reflexivity.
Qed.

(** What the validator returns for a request with its sub-records in
    place. *)
Lemma validateSimulationRequest_of_request (values : SimulationRequest.t) :
  let C := SteelCompositionInput.C (SimulationRequest.steel_composition values) in
  let temperature := CarburizingConditions.temperature (SimulationRequest.carburizing values) in
  let time_hours := CarburizingConditions.time_hours (SimulationRequest.carburizing values) in
  let dimension :=
    PartGeometry.characteristic_dimension (SimulationRequest.geometry values) in
  Api.validateSimulationRequest (PartialSimulationRequest.of_request values)
  = (error_if (absent C \/ zero C \/ below C 0.01 \/ above C 2.0) Api.carbon_error
     ++ error_if (below temperature 850 \/ above temperature 1050)
          Api.carburizing_temperature_error
     ++ error_if (below time_hours 0.5 \/ above time_hours 24) Api.carburizing_time_error
     ++ error_if (absent dimension \/ zero dimension \/ below dimension 1)
          Api.characteristic_dimension_error)%list.
Proof.
  cbv zeta. rewrite validateSimulationRequest_reports. cbn.
  rewrite <- app_assoc. reflexivity.
Qed.

(** C2, amended.  For every numeric field of the carburizing, quenching and
    tempering sub-records that has a range in the form schema,
    [validationSchema] reports the field exactly when its value is not a
    number within the range, so every value outside the range is reported.
    [validateSimulationRequest], given the same values, returns the carbon
    error, the carburizing temperature error (temperature below 850 or above
    1050), the carburizing time error (time below 0.5 or above 24) and the
    characteristic-dimension error, each exactly when its check fails, and
    nothing else, so its list is non-empty exactly when one of these four
    checks fails: of the process schedule it checks the range of the
    carburizing temperature and time only, and its result is the same for
    two requests that agree on the four numbers it inspects. *)
Theorem process_schedule_out_of_range_reported (values : SimulationRequest.t) :
  let C := SteelCompositionInput.C (SimulationRequest.steel_composition values) in
  let temperature := CarburizingConditions.temperature (SimulationRequest.carburizing values) in
  let time_hours := CarburizingConditions.time_hours (SimulationRequest.carburizing values) in
  let dimension :=
    PartGeometry.characteristic_dimension (SimulationRequest.geometry values) in
  (forall section name fields get lo hi,
      In (section, fields) InputForm.validationSchema ->
      InputForm.process_schedule_section section = true ->
      In (name, InputForm.YupNumber get lo hi) fields ->
      (In (section ++ "." ++ name)%string (InputForm.validationSchema_errors values)
       <-> ~ within (get values) lo hi)
      /\ (forall x, get values = Some x -> x < lo \/ hi < x ->
          In (section ++ "." ++ name)%string (InputForm.validationSchema_errors values)))
  /\ Api.validateSimulationRequest (PartialSimulationRequest.of_request values)
     = (error_if (absent C \/ zero C \/ below C 0.01 \/ above C 2.0) Api.carbon_error
        ++ error_if (below temperature 850 \/ above temperature 1050)
             Api.carburizing_temperature_error
        ++ error_if (below time_hours 0.5 \/ above time_hours 24)
             Api.carburizing_time_error
        ++ error_if (absent dimension \/ zero dimension \/ below dimension 1)
             Api.characteristic_dimension_error)%list
  /\ (Api.validateSimulationRequest (PartialSimulationRequest.of_request values) <> []
      <-> (absent C \/ zero C \/ below C 0.01 \/ above C 2.0)
          \/ (below temperature 850 \/ above temperature 1050)
          \/ (below time_hours 0.5 \/ above time_hours 24)
          \/ (absent dimension \/ zero dimension \/ below dimension 1))
  /\ (forall values' : SimulationRequest.t,
        SteelCompositionInput.C (SimulationRequest.steel_composition values') = C ->
        CarburizingConditions.temperature (SimulationRequest.carburizing values')
        = temperature ->
        CarburizingConditions.time_hours (SimulationRequest.carburizing values')
        = time_hours ->
        PartGeometry.characteristic_dimension (SimulationRequest.geometry values')
        = dimension ->
        Api.validateSimulationRequest (PartialSimulationRequest.of_request values')
        = Api.validateSimulationRequest (PartialSimulationRequest.of_request values)).
Proof.
  cbv zeta. split; [|split; [|split]].
  - intros section name fields get lo hi Hsec _ Hfld. split.
    + now apply (validationSchema_reports_iff values section name fields).
    + intros x Hx Hout.
      eapply validationSchema_errors_intro; eauto using field_ok_out_of_range.
  - apply validateSimulationRequest_of_request.
  - rewrite validateSimulationRequest_of_request. cbv zeta. unfold error_if.
    repeat match goal with
           | |- context [decide ?P] => destruct (decide P)
           end;
      cbn [app]; split; intros H; try discriminate; try tauto;
      contradiction H; reflexivity.
  - intros values' HC HT Ht Hd.
    rewrite !validateSimulationRequest_of_request. cbv zeta.
    rewrite HC, HT, Ht, Hd. reflexivity.
Qed.

(** A carburizing temperature of 1100 is reported by the schema and by the
    validator; a tempering temperature of 9999 is reported by the schema,
    and the validator answers as it does for the default request. *)
Lemma process_schedule_out_of_range_reported_witness :
  (In "carburizing.temperature"
      (InputForm.validationSchema_errors (Samples.with_carburizing_temperature 1100))
   /\ Api.validateSimulationRequest
        (PartialSimulationRequest.of_request (Samples.with_carburizing_temperature 1100))
      <> [])
  /\ Api.validateSimulationRequest
       (PartialSimulationRequest.of_request Api.createDefaultSimulationRequest)
     = Api.validateSimulationRequest
         (PartialSimulationRequest.of_request (Samples.with_tempering_temperature 9999)).
Proof.
  split.
  - destruct (process_schedule_out_of_range_reported
                (Samples.with_carburizing_temperature 1100))
      as (Hschema & _ & Hvalidator & _).
    split.
    + apply (proj2 (Hschema "carburizing" "temperature"
               [ ("temperature", InputForm.YupNumber (InputForm.carb CarburizingConditions.temperature) 850 1050);
                 ("time_hours", InputForm.YupNumber (InputForm.carb CarburizingConditions.time_hours) 0.5 24);
                 ("carbon_potential", InputForm.YupNumber (InputForm.carb CarburizingConditions.carbon_potential) 0.6 1.5);
                 ("heating_rate", InputForm.YupNumber (InputForm.carb CarburizingConditions.heating_rate) 1.0 20.0);
                 ("gas_flow_rate", InputForm.YupNumber (InputForm.carb CarburizingConditions.gas_flow_rate) 0.1 5.0);
                 ("mass_transfer_coefficient",
                   InputForm.YupNumber (InputForm.carb CarburizingConditions.mass_transfer_coefficient) 1e-5 5e-4) ]
               (InputForm.carb CarburizingConditions.temperature) 850 1050
               ltac:(unfold InputForm.validationSchema; right; left; reflexivity)
               eq_refl ltac:(left; reflexivity)) 1100).
      * reflexivity.
      * right. lra.
    + apply Hvalidator. right. left. right. exists 1100. split; [reflexivity | lra].
  - apply (proj2 (proj2 (proj2 (process_schedule_out_of_range_reported
                                  (Samples.with_tempering_temperature 9999))))
             Api.createDefaultSimulationRequest);
      reflexivity.
Defined.

(** ** Zero carburizing time *)

(** C4, as stated, fails: the default request with [carburizing.time_hours]
    set to 0 does not pass input validation.  The validator returns the
    carburizing-time error and the form schema reports the field. *)
Lemma zero_carburizing_time_rejected :
  same_number
    (CarburizingConditions.time_hours
     (SimulationRequest.carburizing (Samples.with_carburizing_time 0))) 0
  /\ Api.validateSimulationRequest
       (PartialSimulationRequest.of_request (Samples.with_carburizing_time 0))
     <> []
  /\ Api.validateSimulationRequest
       (PartialSimulationRequest.of_request (Samples.with_carburizing_time 0))
     = [ Api.carburizing_time_error ]
  /\ InputForm.validationSchema_errors (Samples.with_carburizing_time 0)
     = [ "carburizing.time_hours" ].
Proof.
  split; [reflexivity|]. split; [discriminate|]. split; reflexivity.
Qed.

(** C4, amended.  A request whose carburizing time is zero fails both
    client-side validations.  [validateSimulationRequest] reports the
    carburizing-time error exactly when [time_hours] is a number below 0.5
    or above 24, and [validationSchema] reports [carburizing.time_hours]
    exactly when [time_hours] is not a number within 0.5 and 24.  So a time
    of 0 is reported by both, a time of 0.5 by neither, and 0.5 hours is the
    smallest carburizing time that neither reports. *)
Theorem zero_carburizing_time_fails_validation (values : SimulationRequest.t) :
  let time_hours := CarburizingConditions.time_hours (SimulationRequest.carburizing values) in
  let validator_reports :=
    In Api.carburizing_time_error
       (Api.validateSimulationRequest (PartialSimulationRequest.of_request values)) in
  let schema_reports :=
    In "carburizing.time_hours" (InputForm.validationSchema_errors values) in
  (validator_reports <-> below time_hours 0.5 \/ above time_hours 24)
  /\ (schema_reports <-> ~ within time_hours 0.5 24)
  /\ (same_number time_hours 0 -> validator_reports /\ schema_reports)
  /\ (same_number time_hours 0.5 -> ~ validator_reports /\ ~ schema_reports)
  /\ (forall x, time_hours = Some x ->
        (~ validator_reports /\ ~ schema_reports <-> 0.5 <= x <= 24)).
Proof.
  cbv zeta.
  assert (Hv : In Api.carburizing_time_error
                 (Api.validateSimulationRequest (PartialSimulationRequest.of_request values))
               <-> below (CarburizingConditions.time_hours
                            (SimulationRequest.carburizing values)) 0.5
                   \/ above (CarburizingConditions.time_hours
                               (SimulationRequest.carburizing values)) 24)
    by (apply (carburizing_time_error_iff _ (SimulationRequest.carburizing values));
        reflexivity).
  assert (Hs : In "carburizing.time_hours" (InputForm.validationSchema_errors values)
               <-> ~ within (CarburizingConditions.time_hours
                               (SimulationRequest.carburizing values)) 0.5 24).
  { eapply (validationSchema_reports_iff values "carburizing" "time_hours" _
              (InputForm.carb CarburizingConditions.time_hours) 0.5 24).
    - unfold InputForm.validationSchema. right. left. reflexivity.
    - right. left. reflexivity. }
  split; [exact Hv|]. split; [exact Hs|].
  setoid_rewrite Hv. setoid_rewrite Hs. clear Hv Hs.
  unfold same_number, below, above, within.
  destruct (CarburizingConditions.time_hours (SimulationRequest.carburizing values))
    as [t|].
  - split; [|split].
    + intros H0. split.
      * left. exists t. split; [reflexivity | lra].
      * intros (y & [= <-] & Hy). lra.
    + intros H0. split.
      * intros [(y & [= <-] & Hy)|(y & [= <-] & Hy)]; lra.
      * intros Hn. apply Hn. exists t. split; [reflexivity | lra].
    + intros x [= ->]. split.
      * intros [Hnv Hns].
        destruct (Qlt_le_dec x 0.5) as [Hlo|Hlo];
          [exfalso; apply Hnv; left; eauto|].
        destruct (Qlt_le_dec 24 x) as [Hhi|Hhi];
          [exfalso; apply Hnv; right; eauto|].
        split; assumption.
      * intros Hx. split.
        -- intros [(y & [= <-] & Hy)|(y & [= <-] & Hy)]; lra.
        -- intros Hn. apply Hn. eauto.
  - split; [contradiction|]. split; [contradiction|]. intros x [=].
Qed.

Lemma zero_carburizing_time_fails_validation_witness :
  (In Api.carburizing_time_error
      (Api.validateSimulationRequest
         (PartialSimulationRequest.of_request (Samples.with_carburizing_time 0)))
   /\ In "carburizing.time_hours"
         (InputForm.validationSchema_errors (Samples.with_carburizing_time 0)))
  /\ (~ In Api.carburizing_time_error
          (Api.validateSimulationRequest
             (PartialSimulationRequest.of_request (Samples.with_carburizing_time 0.5)))
      /\ ~ In "carburizing.time_hours"
             (InputForm.validationSchema_errors (Samples.with_carburizing_time 0.5))).
Proof.
  split.
  - apply (proj1 (proj2 (proj2 (zero_carburizing_time_fails_validation
                                  (Samples.with_carburizing_time 0))))).
    reflexivity.
  - apply (proj1 (proj2 (proj2 (proj2 (zero_carburizing_time_fails_validation
                                         (Samples.with_carburizing_time 0.5)))))).
    reflexivity.
Defined.

Example carburizing_time_just_below_bound :
  Api.validateSimulationRequest
    (PartialSimulationRequest.of_request (Samples.with_carburizing_time 0.49))
  = [ Api.carburizing_time_error ]
  /\ InputForm.validationSchema_errors (Samples.with_carburizing_time 0.49)
     = [ "carburizing.time_hours" ].
Proof. split; reflexivity. Qed.

(** ** Selecting a quench medium *)

Example handleQuenchMediumChange_water :
  SimulationRequest.quenching
    (InputForm.handleQuenchMediumChange (Some Samples.quench_media) "water"
       Api.createDefaultSimulationRequest)
  = {| QuenchingConditions.quench_medium := "water";
       QuenchingConditions.quench_temperature := Some 25;
       QuenchingConditions.heat_transfer_coefficient := Some (Double.of_Q 4000);
       QuenchingConditions.agitation_rate := Some 1.0;
       QuenchingConditions.quench_time := Some 300;
       QuenchingConditions.delay_time := Some 0 |}.
Proof. vm_compute. reflexivity. Qed.

Example handleQuenchMediumChange_empty_key :
  InputForm.handleQuenchMediumChange (Some Samples.unnamed_quench_media) ""
    Api.createDefaultSimulationRequest
  = Api.createDefaultSimulationRequest.
Proof. reflexivity. Qed.

(** The average of two doubles is a double: that of 0.1 and 0.2 is not
    0.15. *)
Example handleQuenchMediumChange_rounds :
  QuenchingConditions.heat_transfer_coefficient
    (SimulationRequest.quenching
       (InputForm.handleQuenchMediumChange (Some Samples.slow_media) "gas"
          Api.createDefaultSimulationRequest))
  = Some (Double.of_Q 0.15000000000000002)
  /\ Double.of_Q 0.15000000000000002 <> Double.of_Q 0.15
  /\ Double.to_Q (Double.of_Q 0.15000000000000002)
     = Some (5404319552844596 # 36028797018963968).
Proof.
  split; [vm_compute; reflexivity|].
  split; [vm_compute; discriminate | vm_compute; reflexivity].
Qed.

(** What a literal denotes: the nearest double, the even one of two that
    are equally near, and an infinity beyond the largest double. *)
Example of_Q_rounds :
  Double.of_Q 0.1 = S754_finite false 7205759403792794 (-56)
  /\ Double.of_Q 9007199254740993 = Double.of_Q 9007199254740992
  /\ Double.of_Q 1.7976931348623157e308 = S754_finite false 9007199254740991 971
  /\ Double.of_Q 1e309 = Double.Infinity
  /\ Double.of_Q 5e-324 = S754_finite false 1 (-1074)
  /\ Double.of_Q 1e-400 = S754_zero false.
Proof. repeat split; vm_compute; reflexivity. Qed.

(** A key that the table only inherits passes the handler's test. *)
Example handleQuenchMediumChange_constructor :
  SimulationRequest.quenching
    (InputForm.handleQuenchMediumChange (Some Samples.quench_media) "constructor"
       Api.createDefaultSimulationRequest)
  = {| QuenchingConditions.quench_medium := "constructor";
       QuenchingConditions.quench_temperature := None;
       QuenchingConditions.heat_transfer_coefficient := None;
       QuenchingConditions.agitation_rate := Some 1.0;
       QuenchingConditions.quench_time := Some 300;
       QuenchingConditions.delay_time := Some 0 |}.
Proof. vm_compute. reflexivity. Qed.

(** C9, as stated, fails for a table entry whose key is the empty string:
    the handler tests [medium] for truthiness first, so selecting that entry
    sets nothing. *)
Lemma handleQuenchMediumChange_empty_key_not_selected :
  ~ (forall (quenchMedia : QuenchMediaResponse.t) (media : gmap string QuenchMedium.t)
            (medium : string) (values : SimulationRequest.t) (m : QuenchMedium.t) (lo hi : Q),
        QuenchMediaResponse.media quenchMedia = Some media ->
        media !! medium = Some m ->
        QuenchMedium.heat_transfer_coefficient_range m = Some (lo, hi) ->
        let quenching :=
          SimulationRequest.quenching
            (InputForm.handleQuenchMediumChange (Some quenchMedia) medium values) in
        QuenchingConditions.quench_medium quenching = medium
        /\ QuenchingConditions.quench_temperature quenching
           = Some (QuenchMedium.typical_temperature m)
        /\ QuenchingConditions.heat_transfer_coefficient quenching
           = Some (Double.div (Double.add (Double.of_Q lo) (Double.of_Q hi))
                     (Double.of_Q 2))).
Proof.
  intros claim.
  destruct (claim Samples.unnamed_quench_media {[ "" := Samples.water ]} ""
              Api.createDefaultSimulationRequest Samples.water 3000 5000
              eq_refl eq_refl eq_refl) as [Hmedium _].
  discriminate Hmedium.
Qed.

Lemma get_own {A : Type} (o : gmap string A) (key : string) (a : A) :
  o !! key = Some a -> JS.get o key = JS.Own a.
Proof. intros H. unfold JS.get. rewrite H. reflexivity. Qed.

Lemma get_inherited {A : Type} (o : gmap string A) (key : string) :
  o !! key = None -> key ∈ JS.Object_prototype -> JS.get o key = JS.Inherited.
Proof.
  intros H Hin. unfold JS.get. rewrite H.
  destruct (decide (key ∈ JS.Object_prototype)); [reflexivity | contradiction].
Qed.

Lemma get_undefined {A : Type} (o : gmap string A) (key : string) :
  o !! key = None -> key ∉ JS.Object_prototype -> JS.get o key = JS.Undefined.
Proof.
  intros H Hin. unfold JS.get. rewrite H.
  destruct (decide (key ∈ JS.Object_prototype)); [contradiction | reflexivity].
Qed.

(** C9, amended.  Selecting a medium whose key is not empty and is an entry
    of the table sets [quenching.quench_medium] to the key and
    [quenching.quench_temperature] to the entry's typical temperature; when
    the entry supplies a heat-transfer-coefficient range [lo, hi] it also
    sets [quenching.heat_transfer_coefficient] to the double [(lo + hi) / 2]
    (the sum rounded to a double, then halved), and when it supplies none
    the coefficient is kept; nothing else changes.  The empty key changes no
    field, and neither does a key that is no entry of the table and no
    property name of [Object.prototype]; a key that the table only inherits,
    such as ['constructor'], sets [quench_medium] to the key and
    [quench_temperature] to [undefined]. *)
Theorem handleQuenchMediumChange_selects
    (quenchMedia : QuenchMediaResponse.t) (media : gmap string QuenchMedium.t)
    (medium : string) (values : SimulationRequest.t) :
  QuenchMediaResponse.media quenchMedia = Some media ->
  let values' := InputForm.handleQuenchMediumChange (Some quenchMedia) medium values in
  let quenching := SimulationRequest.quenching values in
  (forall m,
      medium <> "" ->
      media !! medium = Some m ->
      values'
      = SimulationRequest.set_quenching
          {| QuenchingConditions.quench_medium := medium;
             QuenchingConditions.quench_temperature :=
               Some (QuenchMedium.typical_temperature m);
             QuenchingConditions.heat_transfer_coefficient :=
               match QuenchMedium.heat_transfer_coefficient_range m with
               | Some (lo, hi) =>
                   Some (Double.div (Double.add (Double.of_Q lo) (Double.of_Q hi))
                           (Double.of_Q 2))
               | None => QuenchingConditions.heat_transfer_coefficient quenching
               end;
             QuenchingConditions.agitation_rate :=
               QuenchingConditions.agitation_rate quenching;
             QuenchingConditions.quench_time := QuenchingConditions.quench_time quenching;
             QuenchingConditions.delay_time := QuenchingConditions.delay_time quenching |}
          values)
  /\ (medium = "" -> values' = values)
  /\ (media !! medium = None -> medium ∉ JS.Object_prototype -> values' = values)
  /\ (medium <> "" -> media !! medium = None -> medium ∈ JS.Object_prototype ->
      values'
      = SimulationRequest.set_quenching
          {| QuenchingConditions.quench_medium := medium;
             QuenchingConditions.quench_temperature := None;
             QuenchingConditions.heat_transfer_coefficient :=
               QuenchingConditions.heat_transfer_coefficient quenching;
             QuenchingConditions.agitation_rate :=
               QuenchingConditions.agitation_rate quenching;
             QuenchingConditions.quench_time := QuenchingConditions.quench_time quenching;
             QuenchingConditions.delay_time := QuenchingConditions.delay_time quenching |}
          values).
Proof.
  intros Hmedia. cbv zeta. unfold InputForm.handleQuenchMediumChange.
  cbn [mbind option_bind]. rewrite Hmedia.
  split; [|split; [|split]].
  - intros m Hne Hm.
    destruct (decide (medium = "")) as [Heq|_]; [contradiction|].
    rewrite (get_own _ _ _ Hm).
    destruct (QuenchMedium.heat_transfer_coefficient_range m) as [[lo hi]|];
      reflexivity.
  - intros ->. reflexivity.
  - intros Hm Hproto. rewrite (get_undefined _ _ Hm Hproto).
    destruct (decide (medium = "")); reflexivity.
  - intros Hne Hm Hproto.
    destruct (decide (medium = "")) as [Heq|_]; [contradiction|].
    rewrite (get_inherited _ _ Hm Hproto). reflexivity.
Qed.

Lemma handleQuenchMediumChange_selects_witness :
  InputForm.handleQuenchMediumChange (Some Samples.quench_media) "water"
    Api.createDefaultSimulationRequest
  = SimulationRequest.set_quenching
      {| QuenchingConditions.quench_medium := "water";
         QuenchingConditions.quench_temperature := Some 25;
         QuenchingConditions.heat_transfer_coefficient :=
           Some (Double.div (Double.add (Double.of_Q 3000) (Double.of_Q 5000))
                   (Double.of_Q 2));
         QuenchingConditions.agitation_rate := Some 1.0;
         QuenchingConditions.quench_time := Some 300;
         QuenchingConditions.delay_time := Some 0 |}
      Api.createDefaultSimulationRequest.
Proof.
  apply (proj1 (handleQuenchMediumChange_selects Samples.quench_media
                  {[ "water" := Samples.water ]} "water"
                  Api.createDefaultSimulationRequest eq_refl)
           Samples.water).
  - discriminate.
  - reflexivity.
Defined.

(** ** Submitting a simulation *)

Lemma or_str_nonempty (a : option string) (b : string) :
  b <> "" -> JS.or_str a b <> "".
Proof.
  intros Hb. unfold JS.or_str.
  destruct a as [s|]; [destruct (decide (s = "")) as [|Hs]|]; assumption.
Qed.

Lemma simulation_calls_app (tr tr' : list App.event) :
  App.simulation_calls (tr ++ tr') = (App.simulation_calls tr ++ App.simulation_calls tr')%list.
Proof. apply flat_map_app. Qed.

(** What a submission does when the validation response says [valid: false]. *)
Lemma handleSimulationSubmit_invalid validateInputs runSimulation
    (data : SimulationRequest.t) (s : App.state) (tr : list App.event)
    (validationResponse : ApiResponse.t ValidationResponse.t) :
  validateInputs data = inr validationResponse ->
  ValidationResponse.valid (ApiResponse.data validationResponse) = false ->
  let message :=
    JS.or_str (ValidationResponse.error (ApiResponse.data validationResponse))
              "Invalid input parameters" in
  App.handleSimulationSubmit validateInputs runSimulation data s tr
  = (Eff.Return tt,
     {| App.currentTab := App.currentTab s;
        App.simulationData := App.simulationData s;
        App.results := App.results s;
        App.loading := false;
        App.error := Some message |},
     (tr ++ [ App.ShowNotification "Starting simulation..." "info";
              App.ValidateInputs data;
              App.ShowNotification message "error" ])%list).
Proof.
  intros Hresponse Hinvalid message.
  unfold App.handleSimulationSubmit, Eff.try_finally, Eff.try_catch, Eff.bind,
    Eff.await, App.setLoading, App.setError, App.showNotification, Eff.modify,
    Eff.emit, Eff.throw.
  cbn. rewrite Hresponse. cbn. rewrite Hinvalid. cbn.
  fold message.
  destruct (decide (message = "")) as [Hempty|_].
  - exfalso. revert Hempty. apply or_str_nonempty. discriminate.
  - rewrite <- !app_assoc. reflexivity.
Qed.

(** C1.  When the validation step reports the request invalid, the
    submission ends without a request to the simulation endpoint: the
    handler asks for validation first, raises an error that is shown to the
    user, and leaves the stored results as they were. *)
Theorem invalid_request_is_never_simulated validateInputs runSimulation
    (data : SimulationRequest.t) (s : App.state) (tr : list App.event)
    (validationResponse : ApiResponse.t ValidationResponse.t) :
  validateInputs data = inr validationResponse ->
  ValidationResponse.valid (ApiResponse.data validationResponse) = false ->
  let message :=
    JS.or_str (ValidationResponse.error (ApiResponse.data validationResponse))
              "Invalid input parameters" in
  let '(outcome, s', tr') :=
    App.handleSimulationSubmit validateInputs runSimulation data s tr in
  outcome = Eff.Return tt
  /\ tr' = (tr ++ [ App.ShowNotification "Starting simulation..." "info";
                    App.ValidateInputs data;
                    App.ShowNotification message "error" ])%list
  /\ App.simulation_calls tr' = App.simulation_calls tr
  /\ App.results s' = App.results s
  /\ App.simulationData s' = App.simulationData s
  /\ App.error s' = Some message
  /\ App.loading s' = false.
Proof.
  intros Hresponse Hinvalid message.
  rewrite (handleSimulationSubmit_invalid _ _ _ _ _ _ Hresponse Hinvalid).
  fold message. repeat split.
  rewrite simulation_calls_app. cbn. apply app_nil_r.
Qed.

Lemma invalid_request_is_never_simulated_witness :
  let '(outcome, s', tr') :=
    App.handleSimulationSubmit Samples.rejecting_validateInputs
      Samples.accepting_runSimulation Api.createDefaultSimulationRequest
      Samples.app_state [] in
  outcome = Eff.Return tt
  /\ tr' = [ App.ShowNotification "Starting simulation..." "info";
             App.ValidateInputs Api.createDefaultSimulationRequest;
             App.ShowNotification "Carbon potential too high" "error" ]
  /\ App.simulation_calls tr' = []
  /\ App.results s' = App.results Samples.app_state
  /\ App.simulationData s' = None
  /\ App.error s' = Some "Carbon potential too high"
  /\ App.loading s' = false.
Proof.
  exact (invalid_request_is_never_simulated Samples.rejecting_validateInputs
           Samples.accepting_runSimulation Api.createDefaultSimulationRequest
           Samples.app_state [] _ eq_refl eq_refl).
Defined.

Example handleSimulationSubmit_accepted :
  let validateInputs (_ : SimulationRequest.t) :=
    inr (Samples.response {| ValidationResponse.valid := true;
                             ValidationResponse.error := None;
                             ValidationResponse.warnings := ["Long cycle"] |}) in
  App.handleSimulationSubmit validateInputs Samples.accepting_runSimulation
    Api.createDefaultSimulationRequest Samples.app_state []
  = (Eff.Return tt,
     {| App.currentTab := 1;
        App.simulationData := Some Api.createDefaultSimulationRequest;
        App.results := Some (Samples.results_with true true true true);
        App.loading := false;
        App.error := None |},
     [ App.ShowNotification "Starting simulation..." "info";
       App.ValidateInputs Api.createDefaultSimulationRequest;
       App.ShowNotification "Long cycle" "warning";
       App.RunSimulation Api.createDefaultSimulationRequest;
       App.ShowNotification "Simulation completed successfully!" "success" ]).
Proof. reflexivity. Qed.

(** A request reaches the simulation endpoint only after the validation
    step answered [valid: true]. *)
Lemma simulation_requires_valid validateInputs runSimulation
    (data : SimulationRequest.t) (s : App.state) (tr : list App.event) :
  App.simulation_calls
    (snd (App.handleSimulationSubmit validateInputs runSimulation data s tr))
  <> App.simulation_calls tr ->
  exists validationResponse,
    validateInputs data = inr validationResponse
    /\ ValidationResponse.valid (ApiResponse.data validationResponse) = true.
Proof.
  intros Hcalled.
  destruct (validateInputs data) as [err|validationResponse] eqn:Hresponse.
  - exfalso. apply Hcalled.
    unfold App.handleSimulationSubmit, Eff.try_finally, Eff.try_catch, Eff.bind,
      Eff.await, App.setLoading, App.setError, App.showNotification, Eff.modify,
      Eff.emit.
    cbn. rewrite Hresponse. cbn.
    rewrite !simulation_calls_app. cbn. now rewrite !app_nil_r.
  - destruct (ValidationResponse.valid (ApiResponse.data validationResponse)) eqn:Hvalid.
    + now exists validationResponse.
    + exfalso. apply Hcalled.
      rewrite (handleSimulationSubmit_invalid _ _ _ _ _ _ Hresponse Hvalid).
      cbn [snd]. rewrite simulation_calls_app. cbn. apply app_nil_r.
Qed.

(** ** Running a material comparison *)

(** C10.  With fewer than two grades selected, running a comparison sets the
    error message asking for at least two grades and never calls the
    comparison callback, so the stored comparison results stay as they
    were.  With two or more, the callback is called once; its result is
    stored, and a failure is captured in the error state.  Either way the
    handler itself does not throw. *)
Theorem handleRunComparison_needs_two_grades onCompare
    (s : MaterialComparison.state) (tr : list MaterialComparison.event) :
  let '(outcome, s', tr') := MaterialComparison.handleRunComparison onCompare s tr in
  let grades := MaterialComparison.selectedGrades s in
  let conditions := MaterialComparison.processConditions s in
  outcome = Eff.Return tt
  /\ ((List.length grades < 2)%nat ->
      MaterialComparison.error s'
      = Some "Please select at least 2 steel grades for comparison"
      /\ tr' = tr
      /\ MaterialComparison.comparisonResults s' = MaterialComparison.comparisonResults s)
  /\ ((2 <= List.length grades)%nat ->
      tr' = (tr ++ [MaterialComparison.OnCompare grades conditions])%list
      /\ match onCompare grades conditions with
         | inr results =>
             MaterialComparison.comparisonResults s' = Some results
             /\ MaterialComparison.error s' = None
         | inl err =>
             MaterialComparison.error s'
             = Some (JS.or_str (JS.message err) "Comparison failed")
             /\ MaterialComparison.comparisonResults s'
                = MaterialComparison.comparisonResults s
         end).
Proof.
  unfold MaterialComparison.handleRunComparison, Eff.bind, Eff.get, Eff.try_catch,
    Eff.await, MaterialComparison.setError, MaterialComparison.setComparisonResults,
    Eff.modify.
  destruct (Nat.ltb_spec (List.length (MaterialComparison.selectedGrades s)) 2) as [Hlt|Hge].
  - cbn. split; [reflexivity|].
    split; [intros _; repeat split | intros Hge; lia].
  - cbn.
    destruct (onCompare (MaterialComparison.selectedGrades s)
                (MaterialComparison.processConditions s)) as [err|results];
      cbn; (split; [reflexivity|]); (split; [intros Hlt; lia|]);
      intros _; repeat split.
Qed.

Lemma handleRunComparison_needs_two_grades_witness :
  (let '(outcome, s', tr') :=
     MaterialComparison.handleRunComparison Samples.failing_onCompare
     (Samples.comparison_state ["8620"]) [] in
   MaterialComparison.error s'
   = Some "Please select at least 2 steel grades for comparison"
   /\ tr' = [])
  /\ (let '(outcome, s', tr') :=
        MaterialComparison.handleRunComparison Samples.failing_onCompare
          (Samples.comparison_state ["8620"; "4320"]) [] in
      tr' = [MaterialComparison.OnCompare ["8620"; "4320"] Samples.conditions]
      /\ MaterialComparison.error s' = Some "Network connection error").
Proof.
  split.
  - pose proof (handleRunComparison_needs_two_grades Samples.failing_onCompare
                  (Samples.comparison_state ["8620"]) []) as H.
    cbn in H |- *. destruct H as (_ & Hfew & _).
    destruct Hfew as (Herr & Htr & _); [lia|]. split; assumption.
  - pose proof (handleRunComparison_needs_two_grades Samples.failing_onCompare
                  (Samples.comparison_state ["8620"; "4320"]) []) as H.
    cbn in H |- *. destruct H as (_ & _ & Hmany).
    destruct Hmany as (Htr & Herr & _); [lia|]. split; assumption.
Defined.

(** ** Critical temperatures *)

Lemma elements_complete (e : CompositionModel.element) :
  In e CompositionModel.elements.
Proof. destruct e; cbn; tauto. Qed.

Lemma in_range_iff valid_range (composition : CompositionModel.SteelComposition)
    (e : CompositionModel.element) :
  CompositionModel.in_range valid_range composition e = true
  <-> fst (valid_range e) <= composition e <= snd (valid_range e).
Proof.
  unfold CompositionModel.in_range.
  rewrite Bool.andb_true_iff, !Qle_bool_iff. tauto.
Qed.

Lemma all_in_range_iff valid_range (composition : CompositionModel.SteelComposition) :
  forallb (CompositionModel.in_range valid_range composition) CompositionModel.elements = true
  <-> forall e, fst (valid_range e) <= composition e <= snd (valid_range e).
Proof.
  rewrite forallb_forall. split.
  - intros H e. apply in_range_iff, H, elements_complete.
  - intros H e _. apply in_range_iff, H.
Qed.

(** C5.  The critical temperatures derived for a composition satisfy
    AE3 > AE1, and every element of that composition is inside its range; a
    composition for which the regressions give AE3 <= AE1 is rejected with
    [InvalidComposition], as is one with an element out of range; and a
    composition in range whose regressions are ordered is given its
    temperatures. *)
Theorem criticalTemperatures_ordering
    (valid_range : CompositionModel.element -> Q * Q)
    (ae3_base : Q) (ae3_coefficient : CompositionModel.element -> Q)
    (ae1_base : Q) (ae1_coefficient : CompositionModel.element -> Q)
    (ms_core ms_surface bs : CompositionModel.SteelComposition -> Q)
    (composition : CompositionModel.SteelComposition) :
  let ae3 := CompositionModel.ae3 ae3_base ae3_coefficient composition in
  let ae1 := CompositionModel.ae1 ae1_base ae1_coefficient composition in
  let valid := forall e, fst (valid_range e) <= composition e <= snd (valid_range e) in
  let result :=
    CompositionModel.criticalTemperatures valid_range ae3_base ae3_coefficient
      ae1_base ae1_coefficient ms_core ms_surface bs composition in
  (forall ct, result = inr ct ->
     CompositionModel.AE1 ct < CompositionModel.AE3 ct
     /\ CompositionModel.AE3 ct = ae3 /\ CompositionModel.AE1 ct = ae1
     /\ valid)
  /\ (ae3 <= ae1 -> result = inl CompositionModel.InvalidComposition)
  /\ (~ valid -> result = inl CompositionModel.InvalidComposition)
  /\ (valid -> ae1 < ae3 -> exists ct, result = inr ct).
Proof.
  cbv zeta. unfold CompositionModel.criticalTemperatures.
  pose proof (all_in_range_iff valid_range composition) as Hvalid.
  destruct (forallb (CompositionModel.in_range valid_range composition)
              CompositionModel.elements); cbn [negb].
  - assert (Hall := proj1 Hvalid eq_refl).
    destruct (Qle_bool (CompositionModel.ae3 ae3_base ae3_coefficient composition)
                (CompositionModel.ae1 ae1_base ae1_coefficient composition)) eqn:Hle.
    + apply Qle_bool_iff in Hle.
      split; [intros ct [=]|]. split; [reflexivity|]. split; [reflexivity|].
      intros _ Hlt. exfalso. exact (Qlt_not_le _ _ Hlt Hle).
    + assert (Hlt : CompositionModel.ae1 ae1_base ae1_coefficient composition
                    < CompositionModel.ae3 ae3_base ae3_coefficient composition).
      { apply Qnot_le_lt. intros H. apply Qle_bool_iff in H. congruence. }
      split; [intros ct [= <-]; cbn; auto|].
      split; [intros H; exfalso; exact (Qlt_not_le _ _ Hlt H)|].
      split; [intros H; contradiction|].
      intros _ _. eexists. reflexivity.
  - assert (Hnot : ~ forall e, fst (valid_range e) <= composition e <= snd (valid_range e)).
    { intros H. apply Hvalid in H. discriminate H. }
    split; [intros ct [=]|]. split; [reflexivity|]. split; [reflexivity|].
    intros H. contradiction.
Qed.

Example criticalTemperatures_mild_steel :
  CompositionModel.criticalTemperatures Samples.wide_range
    910 (Samples.carbon_only (-200)) 723 (Samples.carbon_only (-10))
    (fun _ => 400) (fun _ => 200) (fun _ => 550) Samples.mild_steel
  = inr {| CompositionModel.AE3 :=
             CompositionModel.ae3 910 (Samples.carbon_only (-200)) Samples.mild_steel;
           CompositionModel.AE1 :=
             CompositionModel.ae1 723 (Samples.carbon_only (-10)) Samples.mild_steel;
           CompositionModel.Ms_core := 400;
           CompositionModel.Ms_surface := 200;
           CompositionModel.Bs := 550 |}.
Proof. reflexivity. Qed.

(** With regressions whose AE3 falls under AE1 at 1 % carbon, a composition
    inside its ranges is rejected; with the carbon of a mild steel the
    temperatures are returned in order. *)
Lemma criticalTemperatures_ordering_witness :
  CompositionModel.criticalTemperatures Samples.wide_range
    910 (Samples.carbon_only (-200)) 723 (Samples.carbon_only (-10))
    (fun _ => 400) (fun _ => 200) (fun _ => 550) (Samples.carbon_only 1)
  = inl CompositionModel.InvalidComposition
  /\ exists ct,
       CompositionModel.criticalTemperatures Samples.wide_range
         910 (Samples.carbon_only (-200)) 723 (Samples.carbon_only (-10))
         (fun _ => 400) (fun _ => 200) (fun _ => 550) Samples.mild_steel
       = inr ct.
Proof.
  split.
  - apply (proj1 (proj2 (criticalTemperatures_ordering Samples.wide_range
                           910 (Samples.carbon_only (-200)) 723 (Samples.carbon_only (-10))
                           (fun _ => 400) (fun _ => 200) (fun _ => 550)
                           (Samples.carbon_only 1)))).
    vm_compute. discriminate.
  - apply (proj2 (proj2 (proj2 (criticalTemperatures_ordering Samples.wide_range
                           910 (Samples.carbon_only (-200)) 723 (Samples.carbon_only (-10))
                           (fun _ => 400) (fun _ => 200) (fun _ => 550)
                           Samples.mild_steel)))).
    + intros e. destruct e; cbn; lra.
    + vm_compute. reflexivity.
Defined.

(** * Further properties of the client *)

(** ** Every path of a submission *)

Lemma for_each_warnings (warnings : list string) (s : App.state) (tr : list App.event) :
  Eff.for_each warnings (fun warning => App.showNotification warning "warning") s tr
  = (Eff.Return tt, s, (tr ++ Submission.warning_notifications warnings)%list).
Proof.
  revert tr. induction warnings as [|w ws IH]; intros tr.
  - cbn. now rewrite app_nil_r.
  - cbn [Eff.for_each]. unfold Eff.bind at 1.
    unfold App.showNotification at 1, Eff.emit at 1.
    rewrite IH. cbn. now rewrite <- app_assoc.
Qed.

Lemma notify_warnings (warnings : list string) (s : App.state) (tr : list App.event) :
  (if (0 <? List.length warnings)%nat
   then Eff.for_each warnings (fun warning => App.showNotification warning "warning")
   else Eff.ret tt) s tr
  = (Eff.Return tt, s, (tr ++ Submission.warning_notifications warnings)%list).
Proof.
  destruct warnings as [|w ws].
  - cbn. now rewrite app_nil_r.
  - change (0 <? List.length (w :: ws))%nat with true. cbv iota.
    apply for_each_warnings.
Qed.

(** A submission whose validation request itself fails. *)
Lemma handleSimulationSubmit_validation_failed validateInputs runSimulation
    (data : SimulationRequest.t) (s : App.state) (tr : list App.event) (err : JS.error) :
  validateInputs data = inl err ->
  App.handleSimulationSubmit validateInputs runSimulation data s tr
  = (Eff.Return tt,
     {| App.currentTab := App.currentTab s;
        App.simulationData := App.simulationData s;
        App.results := App.results s;
        App.loading := false;
        App.error := Some (Submission.error_message err) |},
     (tr ++ [ App.ShowNotification "Starting simulation..." "info";
              App.ValidateInputs data;
              App.ShowNotification (Submission.error_message err) "error" ])%list).
Proof.
  intros Hresponse.
  unfold App.handleSimulationSubmit, Eff.try_finally, Eff.try_catch, Eff.bind,
    Eff.await, App.setLoading, App.setError, App.showNotification, Eff.modify,
    Eff.emit.
  cbn. rewrite Hresponse. cbn. rewrite <- !app_assoc. reflexivity.
Qed.

(** A submission that passed validation. *)
Lemma handleSimulationSubmit_valid validateInputs runSimulation
    (data : SimulationRequest.t) (s : App.state) (tr : list App.event)
    (validationResponse : ApiResponse.t ValidationResponse.t) :
  validateInputs data = inr validationResponse ->
  ValidationResponse.valid (ApiResponse.data validationResponse) = true ->
  let before :=
    ([ App.ShowNotification "Starting simulation..." "info"; App.ValidateInputs data ]
     ++ Submission.warning_notifications
          (ValidationResponse.warnings (ApiResponse.data validationResponse))
     ++ [ App.RunSimulation data ])%list in
  App.handleSimulationSubmit validateInputs runSimulation data s tr
  = match runSimulation data with
    | inr response =>
        (Eff.Return tt,
         {| App.currentTab := 1;
            App.simulationData := Some data;
            App.results := Some (ApiResponse.data response);
            App.loading := false;
            App.error := None |},
         (tr ++ before
             ++ [ App.ShowNotification "Simulation completed successfully!" "success" ])%list)
    | inl err =>
        (Eff.Return tt,
         {| App.currentTab := App.currentTab s;
            App.simulationData := App.simulationData s;
            App.results := App.results s;
            App.loading := false;
            App.error := Some (Submission.error_message err) |},
         (tr ++ before
             ++ [ App.ShowNotification (Submission.error_message err) "error" ])%list)
    end.
Proof.
  intros Hresponse Hvalid before. subst before.
  unfold App.handleSimulationSubmit.
  unfold Eff.try_finally, Eff.try_catch.
  unfold Eff.bind at 1 2. cbn [App.setLoading App.setError Eff.modify].
  unfold Eff.bind at 1. unfold App.showNotification at 1, Eff.emit at 1.
  unfold Eff.bind at 1. unfold Eff.await at 1. rewrite Hresponse.
  unfold Eff.bind at 1. rewrite Hvalid. cbn [negb Eff.ret].
  unfold Eff.bind at 1. rewrite notify_warnings.
  unfold Eff.bind at 1. unfold Eff.await at 1.
  destruct (runSimulation data) as [err|response].
  - cbn. rewrite <- !app_assoc. reflexivity.
  - cbn. rewrite <- !app_assoc. reflexivity.
Qed.

Lemma api_calls_app (tr tr' : list App.event) :
  Submission.api_calls (tr ++ tr')
  = (Submission.api_calls tr ++ Submission.api_calls tr')%list.
Proof. apply List.filter_app. Qed.

Lemma api_calls_warnings (warnings : list string) :
  Submission.api_calls (Submission.warning_notifications warnings) = [].
Proof. induction warnings as [|w ws IH]; [reflexivity | exact IH]. Qed.

(** The three ways a submission can go, each with its exact result. *)
Ltac submission_cases validateInputs runSimulation data s tr :=
  let err := fresh "err" in
  let validationResponse := fresh "validationResponse" in
  let Hvalidate := fresh "Hvalidate" in
  let Hvalid := fresh "Hvalid" in
  destruct (validateInputs data) as [err|validationResponse] eqn:Hvalidate;
  [ rewrite (handleSimulationSubmit_validation_failed validateInputs runSimulation
               data s tr err Hvalidate)
  | destruct (ValidationResponse.valid (ApiResponse.data validationResponse)) eqn:Hvalid;
    [ rewrite (handleSimulationSubmit_valid validateInputs runSimulation
                 data s tr validationResponse Hvalidate Hvalid);
      cbv zeta; destruct (runSimulation data)
    | rewrite (handleSimulationSubmit_invalid validateInputs runSimulation
                 data s tr validationResponse Hvalidate Hvalid); cbv zeta ] ].

(** X1.  Whatever the server answers, a submission ends normally: the
    handler does not throw, the loading flag is back to false, and the log
    has only grown. *)
Theorem handleSimulationSubmit_always_settles validateInputs runSimulation
    (data : SimulationRequest.t) (s : App.state) (tr : list App.event) :
  let '(outcome, s', tr') :=
    App.handleSimulationSubmit validateInputs runSimulation data s tr in
  outcome = Eff.Return tt
  /\ App.loading s' = false
  /\ exists new, tr' = (tr ++ new)%list.
Proof.
  submission_cases validateInputs runSimulation data s tr;
    (split; [reflexivity|]); (split; [reflexivity|]); eexists; reflexivity.
Qed.

(** X2.  The requests of one submission are the validation request,
    followed by at most one simulation request for the same data; and the
    stored results change only when that simulation request was made. *)
Theorem handleSimulationSubmit_protocol validateInputs runSimulation
    (data : SimulationRequest.t) (s : App.state) (tr : list App.event) :
  let '(_, s', tr') :=
    App.handleSimulationSubmit validateInputs runSimulation data s tr in
  exists new,
    tr' = (tr ++ new)%list
    /\ (Submission.api_calls new = [App.ValidateInputs data]
        /\ App.results s' = App.results s
        /\ App.simulationData s' = App.simulationData s
        \/ Submission.api_calls new = [App.ValidateInputs data; App.RunSimulation data]).
Proof.
  submission_cases validateInputs runSimulation data s tr;
    eexists; (split; [reflexivity|]);
    rewrite ?api_calls_app, ?api_calls_warnings; cbn; auto.
Qed.

(** X3.  When the validation request itself fails, nothing is simulated:
    the stored results and request stay as they were, and the error shown
    is the failure's detail, else its message, else ['Simulation failed']. *)
Theorem failed_validation_request_blocks_simulation validateInputs runSimulation
    (data : SimulationRequest.t) (s : App.state) (tr : list App.event) (err : JS.error) :
  validateInputs data = inl err ->
  let '(_, s', tr') :=
    App.handleSimulationSubmit validateInputs runSimulation data s tr in
  App.simulation_calls tr' = App.simulation_calls tr
  /\ App.results s' = App.results s
  /\ App.simulationData s' = App.simulationData s
  /\ App.currentTab s' = App.currentTab s
  /\ App.error s'
     = Some (JS.or_str (JS.or_opt (JS.response_detail err) (JS.message err))
                       "Simulation failed").
Proof.
  intros Hvalidate.
  rewrite (handleSimulationSubmit_validation_failed _ _ _ _ _ _ Hvalidate).
  repeat split. rewrite simulation_calls_app. cbn. apply app_nil_r.
Qed.

Lemma failed_validation_request_blocks_simulation_witness :
  let '(_, s', tr') :=
    App.handleSimulationSubmit Cases.failing_validateInputs
      Samples.accepting_runSimulation Api.createDefaultSimulationRequest
      Samples.app_state [] in
  App.simulation_calls tr' = []
  /\ App.results s' = App.results Samples.app_state
  /\ App.simulationData s' = None
  /\ App.currentTab s' = 0%nat
  /\ App.error s' = Some "Validation error".
Proof.
  exact (failed_validation_request_blocks_simulation Cases.failing_validateInputs
           Samples.accepting_runSimulation Api.createDefaultSimulationRequest
           Samples.app_state [] _ eq_refl).
Defined.

(** X4.  A request that passes validation and is simulated successfully is
    stored: the results are the response's data, the request is remembered,
    the error is cleared and the results tab (1) is selected.  Every
    validation warning is shown once, in order, before the simulation
    request is made. *)
Theorem accepted_request_is_simulated_and_stored validateInputs runSimulation
    (data : SimulationRequest.t) (s : App.state) (tr : list App.event)
    (validationResponse : ApiResponse.t ValidationResponse.t)
    (response : ApiResponse.t SimulationResults.t) :
  validateInputs data = inr validationResponse ->
  ValidationResponse.valid (ApiResponse.data validationResponse) = true ->
  runSimulation data = inr response ->
  App.handleSimulationSubmit validateInputs runSimulation data s tr
  = (Eff.Return tt,
     {| App.currentTab := 1;
        App.simulationData := Some data;
        App.results := Some (ApiResponse.data response);
        App.loading := false;
        App.error := None |},
     (tr ++ [ App.ShowNotification "Starting simulation..." "info";
              App.ValidateInputs data ]
         ++ map (fun warning => App.ShowNotification warning "warning")
              (ValidationResponse.warnings (ApiResponse.data validationResponse))
         ++ [ App.RunSimulation data;
              App.ShowNotification "Simulation completed successfully!" "success" ])%list).
Proof.
  intros Hvalidate Hvalid Hrun.
  rewrite (handleSimulationSubmit_valid _ _ _ _ _ _ Hvalidate Hvalid), Hrun.
  cbv zeta. unfold Submission.warning_notifications.
  rewrite <- !app_assoc. reflexivity.
Qed.

Lemma accepted_request_is_simulated_and_stored_witness :
  App.handleSimulationSubmit Cases.accepting_validateInputs
    Samples.accepting_runSimulation Api.createDefaultSimulationRequest
    Samples.app_state []
  = (Eff.Return tt,
     {| App.currentTab := 1;
        App.simulationData := Some Api.createDefaultSimulationRequest;
        App.results := Some (Samples.results_with true true true true);
        App.loading := false;
        App.error := None |},
     [ App.ShowNotification "Starting simulation..." "info";
       App.ValidateInputs Api.createDefaultSimulationRequest;
       App.ShowNotification "Long cycle" "warning";
       App.ShowNotification "Coarse mesh" "warning";
       App.RunSimulation Api.createDefaultSimulationRequest;
       App.ShowNotification "Simulation completed successfully!" "success" ]).
Proof.
  exact (accepted_request_is_simulated_and_stored Cases.accepting_validateInputs
           Samples.accepting_runSimulation Api.createDefaultSimulationRequest
           Samples.app_state [] _ _ eq_refl eq_refl eq_refl).
Defined.

(** X5.  When the simulation request fails after a successful validation,
    the previous results, the previous request and the selected tab are
    kept, the error is set to the failure's text, and the success message
    is not shown. *)
Theorem failed_simulation_keeps_previous_results validateInputs runSimulation
    (data : SimulationRequest.t) (s : App.state) (tr : list App.event)
    (validationResponse : ApiResponse.t ValidationResponse.t) (err : JS.error) :
  validateInputs data = inr validationResponse ->
  ValidationResponse.valid (ApiResponse.data validationResponse) = true ->
  runSimulation data = inl err ->
  let '(outcome, s', tr') :=
    App.handleSimulationSubmit validateInputs runSimulation data s tr in
  outcome = Eff.Return tt
  /\ App.results s' = App.results s
  /\ App.simulationData s' = App.simulationData s
  /\ App.currentTab s' = App.currentTab s
  /\ App.error s' = Some (Submission.error_message err)
  /\ App.simulation_calls tr' = (App.simulation_calls tr ++ [data])%list
  /\ ~ In (App.ShowNotification "Simulation completed successfully!" "success")
          (skipn (List.length tr) tr').
Proof.
  intros Hvalidate Hvalid Hrun.
  rewrite (handleSimulationSubmit_valid _ _ _ _ _ _ Hvalidate Hvalid), Hrun.
  cbv zeta. repeat split.
  - rewrite !simulation_calls_app.
    replace (App.simulation_calls (Submission.warning_notifications _)) with (@nil SimulationRequest.t).
    + reflexivity.
    + induction (ValidationResponse.warnings _); [reflexivity | assumption].
  - rewrite skipn_app, Nat.sub_diag, skipn_all. cbn [skipn app].
    cbn [In]. rewrite !in_app_iff. cbn [In].
    intros [H | [H | [[H | [H|[]]] | [H|[]]]]]; try discriminate H.
    unfold Submission.warning_notifications in H. apply in_map_iff in H.
    destruct H as (w & Hw & _). discriminate Hw.
Qed.

Lemma failed_simulation_keeps_previous_results_witness :
  let '(outcome, s', tr') :=
    App.handleSimulationSubmit Cases.accepting_validateInputs
      Cases.failing_runSimulation Api.createDefaultSimulationRequest
      Samples.app_state [] in
  App.results s' = App.results Samples.app_state
  /\ App.error s' = Some "Internal server error".
Proof.
  pose proof (failed_simulation_keeps_previous_results Cases.accepting_validateInputs
                Cases.failing_runSimulation Api.createDefaultSimulationRequest
                Samples.app_state [] _ _ eq_refl eq_refl eq_refl) as H.
  cbn in H |- *. destruct H as (_ & Hresults & _ & _ & Herror & _).
  split; assumption.
Defined.

(** ** The snackbar *)

Lemma after_app (tr tr' : list App.event) (n : Notification.NotificationState) :
  Notification.after (tr ++ tr') n = Notification.after tr' (Notification.after tr n).
Proof. apply fold_left_app. Qed.

Lemma after_last (tr : list App.event) (message severity : string)
    (n : Notification.NotificationState) :
  Notification.after (tr ++ [App.ShowNotification message severity]) n
  = {| Notification.open := true;
       Notification.message := message;
       Notification.severity := severity;
       Notification.autoHideDuration := 6000 |}.
Proof. rewrite after_app. reflexivity. Qed.

(** X6.  After a submission the snackbar is open, with the default duration
    of 6000 ms, and shows the outcome: the success message when no error is
    stored, and otherwise the very text of the stored error, with severity
    ['error'].  What it showed before does not matter. *)
Theorem snackbar_shows_submission_outcome validateInputs runSimulation
    (data : SimulationRequest.t) (s : App.state) (tr : list App.event)
    (n : Notification.NotificationState) :
  let '(_, s', tr') :=
    App.handleSimulationSubmit validateInputs runSimulation data s tr in
  let shown := Notification.after tr' n in
  Notification.open shown = true
  /\ Notification.autoHideDuration shown = 6000
  /\ match App.error s' with
     | None =>
         Notification.message shown = "Simulation completed successfully!"
         /\ Notification.severity shown = "success"
     | Some error =>
         Notification.message shown = error
         /\ Notification.severity shown = "error"
     end.
Proof.
  submission_cases validateInputs runSimulation data s tr;
    cbv zeta; cbn [App.error];
    repeat match goal with
           | |- context [Notification.after (?a ++ ?b ++ ?c)%list _] =>
               rewrite (app_assoc a b c)
           end;
    match goal with
    | |- context [Notification.after (?l ++ [?x; ?y; ?z])%list _] =>
        change (l ++ [x; y; z])%list with (l ++ [x; y] ++ [z])%list;
        rewrite (app_assoc l [x; y] [z])
    | _ => idtac
    end;
    rewrite after_last; repeat split.
Qed.

(** ** The error interceptor *)

(** X7.  The interceptor keeps the response's status and the original
    error, and its message is never empty once the server answered or the
    request was sent.  The message of a 400 response is the body's detail
    when there is a non-empty one and a fixed text otherwise; for every
    other status it is a text fixed by the status alone, whatever the body,
    the request and the error's own message are: one of six texts for 401,
    403, 404, 422, 500 and 503, and "Server error (status)" for the rest.
    Without a response, a request that was sent gives the network text,
    whatever the error's own message; only an error raised before sending
    keeps its own message. *)
Theorem handleApiError_message (error : AxiosError.t) :
  let enhanced := ApiService.handleApiError error in
  let message := ApiService.errorMessage enhanced in
  ApiService.status enhanced = AxiosError.status <$> AxiosError.response error
  /\ ApiService.originalError enhanced = error
  /\ (is_Some (AxiosError.response error) \/ AxiosError.request error = true ->
      message <> "")
  /\ (forall response,
        AxiosError.response error = Some response ->
        AxiosError.status response = 400%N ->
        (forall detail,
            AxiosError.detail response = Some detail -> detail <> "" ->
            message = detail)
        /\ (AxiosError.detail response = None \/ AxiosError.detail response = Some "" ->
            message = "Invalid request parameters"))
  /\ (forall response,
        AxiosError.response error = Some response ->
        AxiosError.status response <> 400%N ->
        (forall detail request own_message,
            ApiService.errorMessage
              (ApiService.handleApiError
                 {| AxiosError.response :=
                      Some {| AxiosError.status := AxiosError.status response;
                              AxiosError.detail := detail |};
                    AxiosError.request := request;
                    AxiosError.message := own_message |})
            = message)
        /\ (forall text,
              In (AxiosError.status response, text)
                 [ (401%N, "Authentication required"); (403%N, "Access forbidden");
                   (404%N, "Resource not found"); (422%N, "Validation error");
                   (500%N, "Internal server error");
                   (503%N, "Service temporarily unavailable") ] ->
              message = text)
        /\ (~ In (AxiosError.status response) [401; 403; 404; 422; 500; 503]%N ->
            message = "Server error (" ++ pretty (AxiosError.status response) ++ ")"))
  /\ (AxiosError.response error = None -> AxiosError.request error = true ->
      message = "Network connection error. Please check your internet connection.")
  /\ (AxiosError.response error = None -> AxiosError.request error = false ->
      message = AxiosError.message error).
Proof.
  cbv zeta. unfold ApiService.handleApiError.
  cbn [ApiService.errorMessage ApiService.status ApiService.originalError].
  split; [reflexivity|]. split; [reflexivity|]. split; [|split; [|split; [|split]]].
  - intros Hsent.
    destruct (AxiosError.response error) as [response|].
    + repeat match goal with
             | |- context [decide ?P] => destruct (decide P)
             end; try discriminate.
      apply or_str_nonempty. discriminate.
    + destruct Hsent as [[r Hr]| ->]; [discriminate Hr | discriminate].
  - intros response -> Hstatus.
    destruct (decide (AxiosError.status response = 400%N)); [|contradiction].
    unfold JS.or_str. split.
    + intros detail -> Hdetail.
      destruct (decide (detail = "")); [contradiction | reflexivity].
    + intros [-> | ->]; reflexivity.
  - intros response -> Hstatus. cbn [AxiosError.response AxiosError.status].
    destruct (decide (AxiosError.status response = 400%N)); [contradiction|].
    split; [reflexivity|]. split.
    + intros text Htext. cbn [In] in Htext.
      repeat (destruct Htext as [Htext|Htext];
              [injection Htext as Hs <-; rewrite <- Hs; reflexivity|]).
      contradiction.
    + intros Hother. cbn [In] in Hother.
      repeat match goal with
             | |- context [decide ?P] => destruct (decide P) as [Heq|]
             end; try reflexivity;
        exfalso; apply Hother; rewrite Heq; tauto.
  - intros -> ->. reflexivity.
  - intros -> ->. reflexivity.
Qed.

Lemma handleApiError_message_witness :
  ApiService.errorMessage (ApiService.handleApiError Cases.unprocessable)
  = "Validation error"
  /\ ApiService.errorMessage (ApiService.handleApiError Cases.bad_request)
     = "carbon_potential: value too large"
  /\ ApiService.errorMessage (ApiService.handleApiError Cases.offline)
     = "Network connection error. Please check your internet connection.".
Proof.
  split; [|split].
  - apply (proj1 (proj2 (proj1 (proj2 (proj2 (proj2 (proj2
             (handleApiError_message Cases.unprocessable)))))
             {| AxiosError.status := 422%N;
                AxiosError.detail := Some "carbon_potential: value too large" |}
             eq_refl ltac:(discriminate)))).
    cbn [In AxiosError.status]. tauto.
  - apply (proj1 (proj1 (proj2 (proj2 (proj2 (handleApiError_message Cases.bad_request))))
             {| AxiosError.status := 400%N;
                AxiosError.detail := Some "carbon_potential: value too large" |}
             eq_refl eq_refl)).
    + reflexivity.
    + discriminate.
  - apply (proj1 (proj2 (proj2 (proj2 (proj2 (proj2 (handleApiError_message Cases.offline))))))).
    + reflexivity.
    + reflexivity.
Defined.

Example handleApiError_unlisted_status :
  ApiService.errorMessage
    (ApiService.handleApiError
       {| AxiosError.response :=
            Some {| AxiosError.status := 418%N; AxiosError.detail := Some "teapot" |};
          AxiosError.request := true;
          AxiosError.message := "" |})
  = "Server error (418)".
Proof. vm_compute. reflexivity. Qed.



(** ** Comparison and optimization requests *)

(** X9.  [handleMaterialComparison] posts exactly one comparison request,
    carrying the grades and conditions it was given, and hands the outcome
    on unchanged: the response's data when the request succeeds, the very
    same error (thrown again) when it fails.  Either way the loading flag
    ends false and nothing else of the state is touched. *)
Theorem handleMaterialComparison_passes_outcome_on compareMaterials
    (steelGrades : list string) (processConditions : MaterialComparison.ProcessConditions)
    (s : App.state) (tr : list AppOps.event) :
  let request := ApiService.compareMaterials_request steelGrades processConditions in
  let '(outcome, s', tr') :=
    AppOps.handleMaterialComparison compareMaterials steelGrades processConditions s tr in
  outcome = match compareMaterials request with
            | inr response => Eff.Return (ApiResponse.data response)
            | inl err => Eff.Throw err
            end
  /\ s' = App.mkState (App.currentTab s) (App.simulationData s) (App.results s)
            false (App.error s)
  /\ AppOps.comparison_requests tr'
     = (AppOps.comparison_requests tr ++ [request])%list
  /\ AppOps.optimization_requests tr' = AppOps.optimization_requests tr
  /\ ApiService.steel_grades request = steelGrades
  /\ ApiService.process_conditions request = processConditions.
Proof.
  cbv zeta.
  unfold AppOps.handleMaterialComparison, Eff.try_finally, Eff.try_catch, Eff.bind,
    Eff.await, AppOps.setLoading, AppOps.showNotification, Eff.modify, Eff.emit,
    Eff.throw, Eff.ret.
  cbn.
  destruct (compareMaterials _) as [err|response]; cbn;
    unfold AppOps.comparison_requests, AppOps.optimization_requests;
    rewrite !flat_map_app; cbn; rewrite ?app_nil_r; repeat split.
Qed.

(** X10.  The optimization request sent for the optimization tab always
    asks for ['minimize_time']: the handler takes three arguments, so the
    objective chosen in the tab is dropped and the request builder's default
    applies.  The target, grade and constraints are sent as given, in one
    request. *)
Theorem onOptimize_drops_objective optimizeProcess
    (targetCaseDepth : jsnum) (steelGrade : string)
    (constraints : ApiService.Constraints) (objective : string)
    (s : App.state) (tr : list AppOps.event) :
  let '(_, s', tr') :=
    AppOps.onOptimize optimizeProcess targetCaseDepth steelGrade constraints objective s tr in
  AppOps.optimization_requests tr'
  = (AppOps.optimization_requests tr
     ++ [ {| ApiService.target_case_depth := targetCaseDepth;
             ApiService.steel_grade := steelGrade;
             ApiService.constraints := constraints;
             ApiService.optimization_objective := "minimize_time" |} ])%list
  /\ App.loading s' = false.
Proof.
  unfold AppOps.onOptimize, AppOps.handleProcessOptimization, Eff.try_finally,
    Eff.try_catch, Eff.bind, Eff.await, AppOps.setLoading, AppOps.showNotification,
    Eff.modify, Eff.emit, Eff.throw, Eff.ret.
  cbn.
  destruct (optimizeProcess _) as [err|response]; cbn;
    unfold AppOps.optimization_requests;
    rewrite !flat_map_app; cbn; rewrite ?app_nil_r; split; reflexivity.
Qed.

Example onOptimize_maximize_hardness :
  AppOps.optimization_requests
    (snd (AppOps.onOptimize Cases2.accepting_optimizeProcess (Some 1.0) "8620"
            Cases2.constraints "maximize_hardness" Samples.app_state []))
  = [ {| ApiService.target_case_depth := Some 1.0;
         ApiService.steel_grade := "8620";
         ApiService.constraints := Cases2.constraints;
         ApiService.optimization_objective := "minimize_time" |} ].
Proof. reflexivity. Qed.

(** ** The optimization tab *)

(** X11.  [handleRunOptimization] refuses to run without a grade or with a
    target that is zero or negative: it sets the error message and does not
    call [onOptimize].  Otherwise it calls [onOptimize] once, with the
    target, grade, constraints and objective of the tab, stores the result
    or captures the failure's message in the error state, and never throws.
    A target that is not a number passes the guard. *)
Theorem handleRunOptimization_guard onOptimize
    (s : ProcessOptimization.state) (tr : list ProcessOptimization.event) :
  let '(outcome, s', tr') := ProcessOptimization.handleRunOptimization onOptimize s tr in
  let target := ProcessOptimization.targetCaseDepth s in
  let grade := ProcessOptimization.selectedGrade s in
  let refused := grade = "" \/ exists t, target = Some t /\ t <= 0 in
  outcome = Eff.Return tt
  /\ (refused ->
      tr' = tr
      /\ ProcessOptimization.error s'
         = Some "Please specify a valid target case depth and steel grade"
      /\ ProcessOptimization.optimizationResults s'
         = ProcessOptimization.optimizationResults s)
  /\ (~ refused ->
      tr' = (tr ++ [ ProcessOptimization.OnOptimize target grade
                       (ProcessOptimization.constraints s)
                       (ProcessOptimization.optimizationObjective s) ])%list
      /\ match onOptimize target grade (ProcessOptimization.constraints s)
                 (ProcessOptimization.optimizationObjective s) with
         | inr results =>
             ProcessOptimization.optimizationResults s' = Some results
             /\ ProcessOptimization.error s' = None
         | inl err =>
             ProcessOptimization.error s'
             = Some (JS.or_str (JS.message err) "Optimization failed")
             /\ ProcessOptimization.optimizationResults s'
                = ProcessOptimization.optimizationResults s
         end).
Proof.
  unfold ProcessOptimization.handleRunOptimization, Eff.bind, Eff.get, Eff.try_catch,
    Eff.await, ProcessOptimization.setError, ProcessOptimization.setOptimizationResults,
    Eff.modify.
  assert (Hguard :
            JS.not_str (Some (ProcessOptimization.selectedGrade s))
            || ProcessOptimization.le (ProcessOptimization.targetCaseDepth s) 0 = true
            <-> (ProcessOptimization.selectedGrade s = ""
                 \/ exists t, ProcessOptimization.targetCaseDepth s = Some t /\ t <= 0)).
  { rewrite Bool.orb_true_iff. unfold JS.not_str, ProcessOptimization.le.
    destruct (decide (ProcessOptimization.selectedGrade s = "")) as [Hg|Hg];
      destruct (ProcessOptimization.targetCaseDepth s) as [t|];
      rewrite ?Qle_bool_iff; split; intros H; auto.
    - destruct H as [H|H]; [discriminate H|]. right. eauto.
    - destruct H as [H|(t' & [= <-] & H)]; [contradiction | auto].
    - destruct H as [H|H]; discriminate H.
    - destruct H as [H|(t' & [=] & _)]. contradiction. }
  destruct (JS.not_str _ || _) eqn:Hg.
  - cbn. split; [reflexivity|].
    split; [intros _; repeat split | intros Hn; exfalso; apply Hn, Hguard; reflexivity].
  - assert (Hn : ~ (ProcessOptimization.selectedGrade s = ""
                    \/ exists t, ProcessOptimization.targetCaseDepth s = Some t /\ t <= 0)).
    { intros H. apply Hguard in H. discriminate H. }
    cbn.
    destruct (onOptimize _ _ _ _) as [err|results]; cbn;
      (split; [reflexivity|]); (split; [intros H; contradiction|]);
      intros _; repeat split.
Qed.

Lemma handleRunOptimization_guard_witness :
  (let '(_, s', tr') :=
     ProcessOptimization.handleRunOptimization Cases3.failing_onOptimize
       (Cases3.optimization_state (Some 0) "8620") [] in
   tr' = []
   /\ ProcessOptimization.error s'
      = Some "Please specify a valid target case depth and steel grade")
  /\ (let '(_, s', tr') :=
        ProcessOptimization.handleRunOptimization Cases3.failing_onOptimize
          (Cases3.optimization_state None "8620") [] in
      tr' = [ ProcessOptimization.OnOptimize None "8620" Cases2.constraints "minimize_time" ]
      /\ ProcessOptimization.error s' = Some "Internal server error").
Proof.
  split.
  - pose proof (handleRunOptimization_guard Cases3.failing_onOptimize
                  (Cases3.optimization_state (Some 0) "8620") []) as H.
    cbn in H |- *. destruct H as (_ & Hrefused & _).
    destruct Hrefused as (Htr & Herr & _).
    + right. exists 0. split; [reflexivity | lra].
    + split; assumption.
  - pose proof (handleRunOptimization_guard Cases3.failing_onOptimize
                  (Cases3.optimization_state None "8620") []) as H.
    cbn in H |- *. destruct H as (_ & _ & Hcalled).
    destruct Hcalled as (Htr & Herr & _).
    + intros [Hgrade|(t & Ht & _)]; discriminate.
    + split; assumption.
Defined.

(** X12.  [handleConstraintChange] replaces one bound of one constraint:
    index 0 the lower bound, index 1 the upper bound, any other index
    nothing.  The other bound and the other two constraints are kept, the
    value is stored as given whatever the other bound is, and changes of
    the two bounds can be made in either order. *)
Theorem handleConstraintChange_replaces_one_bound
    (constraint : ProcessOptimization.constraint_name) (index : nat)
    (value value' : jsnum) (prev : ApiService.Constraints) :
  let next := ProcessOptimization.handleConstraintChange constraint index value prev in
  ProcessOptimization.get_range constraint next
  = (if (index =? 0)%nat then value
     else fst (ProcessOptimization.get_range constraint prev),
     if (index =? 1)%nat then value
     else snd (ProcessOptimization.get_range constraint prev))
  /\ (forall other, other <> constraint ->
        ProcessOptimization.get_range other next
        = ProcessOptimization.get_range other prev)
  /\ ((2 <= index)%nat -> next = prev)
  /\ ProcessOptimization.handleConstraintChange constraint 0 value
       (ProcessOptimization.handleConstraintChange constraint 1 value' prev)
     = ProcessOptimization.handleConstraintChange constraint 1 value'
         (ProcessOptimization.handleConstraintChange constraint 0 value prev).
Proof.
  cbv zeta. unfold ProcessOptimization.handleConstraintChange.
  split; [|split; [|split]].
  - destruct constraint; reflexivity.
  - intros other Hother. destruct constraint, other; try reflexivity; contradiction.
  - intros Hindex.
    destruct index as [|[|index]]; [lia | lia |].
    destruct prev as [[] [] []], constraint; reflexivity.
  - destruct constraint; reflexivity.
Qed.

Lemma handleConstraintChange_replaces_one_bound_witness :
  ProcessOptimization.handleConstraintChange ProcessOptimization.time_range 2
    (Some 99) Cases2.constraints
  = Cases2.constraints.
Proof.
  apply (proj1 (proj2 (proj2 (handleConstraintChange_replaces_one_bound
                                ProcessOptimization.time_range 2 (Some 99) None
                                Cases2.constraints)))).
  lia.
Defined.

Example handleConstraintChange_inverted_range :
  ApiService.temperature_range
    (ProcessOptimization.handleConstraintChange ProcessOptimization.temperature_range 0
       (Some 1200) Cases2.constraints)
  = (Some 1200, Some 1000).
Proof. reflexivity. Qed.

(** *** Facts of double arithmetic *)

Lemma of_Q_0 : Double.of_Q 0 = S754_zero false.
Proof. reflexivity. Qed.



(** [x - x] is [+0] for a number and [NaN] for an infinity or [NaN]. *)
Lemma sub_diag (x : Double.t) :
  Double.sub x x
  = match x with
    | S754_zero _ | S754_finite _ _ _ => S754_zero false
    | _ => Double.NaN
    end.
Proof.
  destruct x as [[]|[]| |s m e]; try reflexivity.
  unfold Double.sub, SFsub. rewrite Z.min_id. unfold shl_align.
  rewrite ?Z.sub_diag. cbn [fst]. rewrite ?Z.sub_diag. reflexivity.
Qed.




(** The check mark at the edge of its 5 %: a depth of 0.567 for a target of
    0.54 misses by 5 % of the target, and the accuracy computed is just
    above 95; a very large depth gives [-Infinity]. *)
Example accuracy_rounding :
  ProcessOptimization.accuracy (Some (Cases3.result_with_depth 0.567)) (Double.of_Q 0.54)
  = Double.of_Q 95.00000000000001
  /\ ProcessOptimization.accurate (Some (Cases3.result_with_depth 0.567))
       (Double.of_Q 0.54) = true
  /\ ProcessOptimization.accuracy (Some (Cases3.result_with_depth 1.425)) (Double.of_Q 1.5)
     = Double.of_Q 95
  /\ ProcessOptimization.accuracy (Some (Cases3.result_with_depth 1e308)) (Double.of_Q 1)
     = S754_infinity true.
Proof. repeat split; vm_compute; reflexivity. Qed.

(** ** Accordion sections *)

Lemma includes_iff (section : string) (prev : list string) :
  Sections.includes section prev = true <-> In section prev.
Proof.
  unfold Sections.includes. rewrite existsb_exists. split.
  - intros (x & Hx & Heq). apply String.eqb_eq in Heq. now subst.
  - intros H. exists section. split; [exact H | apply String.eqb_refl].
Qed.

Lemma In_without (x y : string) (l : list string) :
  In y (List.filter (fun s => negb (String.eqb s x)) l) <-> In y l /\ y <> x.
Proof.
  rewrite List.filter_In, Bool.negb_true_iff, String.eqb_neq. tauto.
Qed.

Lemma without_absent (x : string) (l : list string) :
  ~ In x l -> List.filter (fun s => negb (String.eqb s x)) l = l.
Proof.
  induction l as [|y l IH]; intros Hx; [reflexivity|].
  cbn. destruct (String.eqb_spec y x) as [->|Hne].
  - exfalso. apply Hx. now left.
  - cbn. f_equal. apply IH. intros H. apply Hx. now right.
Qed.

Lemma NoDup_without (x : string) (l : list string) :
  List.NoDup l -> List.NoDup (List.filter (fun s => negb (String.eqb s x)) l).
Proof.
  induction 1 as [|y l Hy Hl IH]; cbn; [constructor|].
  destruct (negb (String.eqb y x)); [|exact IH].
  constructor; [|exact IH].
  rewrite List.filter_In. tauto.
Qed.

Lemma NoDup_snoc (x : string) (l : list string) :
  List.NoDup l -> ~ In x l -> List.NoDup (l ++ [x]).
Proof.
  induction 1 as [|y l Hy Hl IH]; intros Hx; cbn.
  - constructor; [|constructor]. cbn. tauto.
  - constructor.
    + rewrite in_app_iff. cbn.
      intros [H|[H|[]]]; [tauto|]. subst. apply Hx. now left.
    + apply IH. intros H. apply Hx. now right.
Qed.

(** X14.  Toggling a section flips whether it is expanded and leaves every
    other section as it was; a list without repetitions stays without
    repetitions; toggling twice gives back the same set of expanded
    sections, and the very same list when the section was collapsed. *)
Theorem handleSectionToggle_flips (section : string) (prev : list string) :
  let next := Sections.handleSectionToggle section prev in
  (In section next <-> ~ In section prev)
  /\ (forall other, other <> section -> (In other next <-> In other prev))
  /\ (List.NoDup prev -> List.NoDup next)
  /\ (forall x, In x (Sections.handleSectionToggle section next) <-> In x prev)
  /\ (~ In section prev -> Sections.handleSectionToggle section next = prev).
Proof.
  cbv zeta. unfold Sections.handleSectionToggle at 1 2 3 5 7.
  pose proof (includes_iff section prev) as Hinc.
  destruct (Sections.includes section prev) eqn:E.
  - assert (Hin : In section prev) by (apply Hinc; reflexivity).
    assert (Hout : Sections.includes section
                     (List.filter (fun s => negb (String.eqb s section)) prev) = false).
    { apply Bool.not_true_is_false. rewrite includes_iff, In_without. tauto. }
    split; [rewrite In_without; tauto|].
    split; [intros other Hother; rewrite In_without; tauto|].
    split; [apply NoDup_without|].
    unfold Sections.handleSectionToggle. rewrite Hout.
    split; [|tauto].
    intros x. rewrite in_app_iff, In_without. cbn.
    destruct (String.eqb_spec x section) as [->|Hne]; intuition congruence.
  - assert (Hin : ~ In section prev) by (rewrite <- Hinc; discriminate).
    assert (Hnow : Sections.includes section (prev ++ [section]) = true).
    { apply includes_iff, in_app_iff. right. now left. }
    split; [rewrite in_app_iff; cbn; tauto|].
    split; [intros other Hother; rewrite in_app_iff; cbn; intuition congruence|].
    split; [intros Hnd; now apply NoDup_snoc|].
    unfold Sections.handleSectionToggle. rewrite Hnow.
    assert (Hback : List.filter (fun s => negb (String.eqb s section)) (prev ++ [section])
                    = prev).
    { rewrite List.filter_app, (without_absent _ _ Hin). cbn.
      rewrite String.eqb_refl. cbn. apply app_nil_r. }
    rewrite Hback. split; [tauto | reflexivity].
Qed.

Lemma handleSectionToggle_flips_witness :
  Sections.handleSectionToggle "quenching"
    (Sections.handleSectionToggle "quenching" ["steel_composition"; "carburizing"])
  = ["steel_composition"; "carburizing"].
Proof.
  apply (proj2 (proj2 (proj2 (proj2 (handleSectionToggle_flips "quenching"
                                       ["steel_composition"; "carburizing"]))))).
  cbn. intros [H|[H|[]]]; discriminate H.
Defined.

Example handleSectionToggle_reorders :
  Sections.handleSectionToggle "steel_composition"
    (Sections.handleSectionToggle "steel_composition" ["steel_composition"; "carburizing"])
  = ["carburizing"; "steel_composition"].
Proof. reflexivity. Qed.

(** ** Choosing a steel grade *)

(** X15.  Selecting a grade that the table lists replaces the steel
    composition by the table's, with the selected key as its grade, clears
    the custom flag and touches no other part of the request.  Whether the
    validator then reports the carbon error depends on the table entry
    alone; and the selection commutes with the selection of a quench
    medium. *)
Theorem handleSteelGradeChange_selects
    (steelGrades : SteelGradesResponse.t) (grades : gmap string SteelGrade.t)
    (grade : string) (entry : SteelGrade.t) (form : FormState.t) :
  SteelGradesResponse.grades steelGrades = Some grades ->
  grade <> "" ->
  grades !! grade = Some entry ->
  let form' := FormState.handleSteelGradeChange (Some steelGrades) grade form in
  let carbon := SteelCompositionInput.C (SteelGrade.composition entry) in
  form'
  = {| FormState.values :=
         FormState.set_steel_composition
           (FormState.set_grade (Some grade) (SteelGrade.composition entry))
           (FormState.values form);
       FormState.useCustomComposition := false |}
  /\ SteelCompositionInput.grade
       (SimulationRequest.steel_composition (FormState.values form')) = Some grade
  /\ (In Api.carbon_error
         (Api.validateSimulationRequest
            (PartialSimulationRequest.of_request (FormState.values form')))
      <-> absent carbon \/ zero carbon \/ below carbon 0.01 \/ above carbon 2.0)
  /\ (forall quenchMedia medium,
        FormState.handleQuenchMediumChange quenchMedia medium form'
        = FormState.handleSteelGradeChange (Some steelGrades) grade
            (FormState.handleQuenchMediumChange quenchMedia medium form)).
Proof.
  intros Hgrades Hgrade Hentry. cbv zeta.
  assert (E : FormState.handleSteelGradeChange (Some steelGrades) grade form
              = {| FormState.values :=
                     FormState.set_steel_composition
                       (FormState.set_grade (Some grade) (SteelGrade.composition entry))
                       (FormState.values form);
                   FormState.useCustomComposition := false |}).
  { unfold FormState.handleSteelGradeChange. cbn [mbind option_bind].
    rewrite Hgrades, (get_own _ _ _ Hentry).
    destruct (decide (grade = "")); [contradiction | reflexivity]. }
  rewrite E. split; [reflexivity|]. split; [reflexivity|]. split.
  - apply (carbon_error_iff _ (FormState.set_grade (Some grade) (SteelGrade.composition entry))).
    reflexivity.
  - intros quenchMedia medium.
    unfold FormState.handleSteelGradeChange, FormState.handleQuenchMediumChange,
      InputForm.handleQuenchMediumChange.
    cbn [mbind option_bind FormState.values FormState.useCustomComposition].
    rewrite Hgrades, (get_own _ _ _ Hentry).
    destruct (decide (grade = "")); [contradiction|].
    destruct (decide (medium = "")); [reflexivity|].
    destruct (quenchMedia ≫= QuenchMediaResponse.media) as [media|]; [|reflexivity].
    destruct (JS.get media medium) as [mediaData| |]; [|reflexivity|reflexivity].
    destruct (QuenchMedium.heat_transfer_coefficient_range mediaData) as [[lo hi]|];
      reflexivity.
Qed.

Lemma handleSteelGradeChange_selects_witness :
  FormState.handleSteelGradeChange (Some Cases4.steel_grades) "8620" Cases4.form
  = {| FormState.values :=
         FormState.set_steel_composition
           (FormState.set_grade (Some "8620") (SteelGrade.composition Cases4.steel_8620))
           Api.createDefaultSimulationRequest;
       FormState.useCustomComposition := false |}.
Proof.
  apply (proj1 (handleSteelGradeChange_selects Cases4.steel_grades
                  {[ "8620" := Cases4.steel_8620 ]} "8620" Cases4.steel_8620 Cases4.form
                  eq_refl ltac:(discriminate) eq_refl)).
Defined.

Lemma validation_ignores_grade (grade : option string) (values : SimulationRequest.t) :
  let values' :=
    FormState.set_steel_composition
      (FormState.set_grade grade (SimulationRequest.steel_composition values)) values in
  Api.validateSimulationRequest (PartialSimulationRequest.of_request values')
  = Api.validateSimulationRequest (PartialSimulationRequest.of_request values)
  /\ InputForm.validationSchema_errors values' = InputForm.validationSchema_errors values.
Proof. split; reflexivity. Qed.

(** X16.  An empty selection changes nothing, whatever the grade table
    holds.  Switching to a custom composition raises the flag and clears the
    grade name but keeps every number of the request, so neither the
    validator nor the form schema answers differently; switching back
    changes the flag only. *)
Theorem custom_composition_keeps_numbers (steelGrades : option SteelGradesResponse.t)
    (form : FormState.t) :
  let custom := FormState.handleCustomCompositionSwitch true form in
  FormState.handleSteelGradeChange steelGrades "" form = form
  /\ FormState.useCustomComposition custom = true
  /\ FormState.values custom
     = FormState.set_steel_composition
         (FormState.set_grade (Some "")
            (SimulationRequest.steel_composition (FormState.values form)))
         (FormState.values form)
  /\ Forall (fun '(_, get, _) =>
               get (SimulationRequest.steel_composition (FormState.values custom))
               = get (SimulationRequest.steel_composition (FormState.values form)))
       FormState.composition_fields
  /\ Api.validateSimulationRequest
       (PartialSimulationRequest.of_request (FormState.values custom))
     = Api.validateSimulationRequest
         (PartialSimulationRequest.of_request (FormState.values form))
  /\ InputForm.validationSchema_errors (FormState.values custom)
     = InputForm.validationSchema_errors (FormState.values form)
  /\ FormState.values (FormState.handleCustomCompositionSwitch false form)
     = FormState.values form.
Proof.
  cbv zeta. split; [reflexivity|]. split; [reflexivity|]. split; [reflexivity|].
  split; [repeat constructor|].
  split; [apply validation_ignores_grade|].
  split; [apply validation_ignores_grade | reflexivity].
Qed.

(** ** The form schema against the request validator *)

(** With no schema error, every field satisfies its schema. *)
Lemma validationSchema_accepts (values : SimulationRequest.t)
    (section name : string) (fields : InputForm.object_schema)
    (s : InputForm.field_schema) :
  InputForm.validationSchema_errors values = [] ->
  In (section, fields) InputForm.validationSchema ->
  In (name, s) fields ->
  InputForm.field_ok values s = true.
Proof.
  intros Hnone Hsec Hfld.
  destruct (InputForm.field_ok values s) eqn:E; [reflexivity|].
  pose proof (validationSchema_errors_intro values section name fields s Hsec Hfld E) as H.
  rewrite Hnone in H. contradiction.
Qed.

(** X17.  The form schema is at least as strict as the request validator:
    values that pass [validationSchema] without an error get an empty error
    list from [validateSimulationRequest]. *)
Theorem validationSchema_implies_validateSimulationRequest (values : SimulationRequest.t) :
  InputForm.validationSchema_errors values = [] ->
  Api.validateSimulationRequest (PartialSimulationRequest.of_request values) = [].
Proof.
  intros Hnone.
  assert (HC : within (SteelCompositionInput.C (SimulationRequest.steel_composition values))
                 0.01 2.0).
  { apply (field_ok_within values (InputForm.steel SteelCompositionInput.C)).
    eapply (validationSchema_accepts values "steel_composition" "C"); [exact Hnone | |].
    - unfold InputForm.validationSchema. left. reflexivity.
    - right. left. reflexivity. }
  assert (HT : within (CarburizingConditions.temperature (SimulationRequest.carburizing values))
                 850 1050).
  { apply (field_ok_within values (InputForm.carb CarburizingConditions.temperature)).
    eapply (validationSchema_accepts values "carburizing" "temperature"); [exact Hnone | |].
    - unfold InputForm.validationSchema. right. left. reflexivity.
    - left. reflexivity. }
  assert (Ht : within (CarburizingConditions.time_hours (SimulationRequest.carburizing values))
                 0.5 24).
  { apply (field_ok_within values (InputForm.carb CarburizingConditions.time_hours)).
    eapply (validationSchema_accepts values "carburizing" "time_hours"); [exact Hnone | |].
    - unfold InputForm.validationSchema. right. left. reflexivity.
    - right. left. reflexivity. }
  assert (Hd : within (PartGeometry.characteristic_dimension (SimulationRequest.geometry values))
                 1 100).
  { apply (field_ok_within values (InputForm.geom PartGeometry.characteristic_dimension)).
    eapply (validationSchema_accepts values "geometry" "characteristic_dimension");
      [exact Hnone | |].
    - unfold InputForm.validationSchema. do 4 right. left. reflexivity.
    - right. left. reflexivity. }
  apply (validateSimulationRequest_in_range _
           (SimulationRequest.steel_composition values)
           (SimulationRequest.carburizing values)
           (SimulationRequest.quenching values)
           (SimulationRequest.tempering values)
           (SimulationRequest.geometry values)); try reflexivity; try assumption.
  destruct Hd as (d & Hd & Hd1 & _). exists d. split; assumption.
Qed.

Lemma validationSchema_implies_validateSimulationRequest_witness :
  Api.validateSimulationRequest
    (PartialSimulationRequest.of_request Api.createDefaultSimulationRequest) = [].
Proof.
  apply (validationSchema_implies_validateSimulationRequest
           Api.createDefaultSimulationRequest).
  reflexivity.
Defined.

(** ** More on the quench medium *)

(** X18.  Selecting a quench medium twice is the same as selecting it once.
    Selecting a second medium whose entry supplies a coefficient range
    leaves no trace of the first selection; but when the entry has no
    range, the heat-transfer coefficient stays what it was, be it that of
    the medium selected before. *)
Theorem handleQuenchMediumChange_repeated
    (quenchMedia : option QuenchMediaResponse.t) (medium : string)
    (values : SimulationRequest.t) :
  let select := InputForm.handleQuenchMediumChange quenchMedia in
  select medium (select medium values) = select medium values
  /\ (forall media entry lo hi first,
        quenchMedia ≫= QuenchMediaResponse.media = Some media ->
        medium <> "" ->
        media !! medium = Some entry ->
        QuenchMedium.heat_transfer_coefficient_range entry = Some (lo, hi) ->
        select medium (select first values) = select medium values)
  /\ (forall media entry,
        quenchMedia ≫= QuenchMediaResponse.media = Some media ->
        medium <> "" ->
        media !! medium = Some entry ->
        QuenchMedium.heat_transfer_coefficient_range entry = None ->
        QuenchingConditions.heat_transfer_coefficient
          (SimulationRequest.quenching (select medium values))
        = QuenchingConditions.heat_transfer_coefficient
            (SimulationRequest.quenching values)
        /\ QuenchingConditions.quench_medium
             (SimulationRequest.quenching (select medium values)) = medium
        /\ QuenchingConditions.quench_temperature
             (SimulationRequest.quenching (select medium values))
           = Some (QuenchMedium.typical_temperature entry)).
Proof.
  cbv zeta. unfold InputForm.handleQuenchMediumChange.
  split; [|split].
  - destruct (decide (medium = "")); [reflexivity|].
    destruct (quenchMedia ≫= QuenchMediaResponse.media) as [media|]; [|reflexivity].
    destruct (JS.get media medium) as [entry| |]; [|reflexivity|reflexivity].
    destruct (QuenchMedium.heat_transfer_coefficient_range entry) as [[lo hi]|];
      reflexivity.
  - intros media entry lo hi first -> Hmedium Hentry Hrange.
    destruct (decide (medium = "")); [contradiction|].
    rewrite (get_own _ _ _ Hentry), Hrange.
    destruct (decide (first = "")); [reflexivity|].
    destruct (JS.get media first) as [entry'| |]; [|reflexivity|reflexivity].
    destruct (QuenchMedium.heat_transfer_coefficient_range entry') as [[lo' hi']|];
      reflexivity.
  - intros media entry -> Hmedium Hentry Hrange.
    destruct (decide (medium = "")); [contradiction|].
    rewrite (get_own _ _ _ Hentry), Hrange. repeat split.
Qed.

Lemma handleQuenchMediumChange_repeated_witness :
  QuenchingConditions.heat_transfer_coefficient
    (SimulationRequest.quenching
       (InputForm.handleQuenchMediumChange (Some Cases4.two_media) "air"
          (InputForm.handleQuenchMediumChange (Some Cases4.two_media) "water"
             Api.createDefaultSimulationRequest)))
  = QuenchingConditions.heat_transfer_coefficient
      (SimulationRequest.quenching
         (InputForm.handleQuenchMediumChange (Some Cases4.two_media) "water"
            Api.createDefaultSimulationRequest)).
Proof.
  apply (proj2 (proj2 (handleQuenchMediumChange_repeated (Some Cases4.two_media) "air"
                         (InputForm.handleQuenchMediumChange (Some Cases4.two_media) "water"
                            Api.createDefaultSimulationRequest)))
           (<[ "air" := Cases4.still_air ]> {[ "water" := Samples.water ]})
           Cases4.still_air).
  - reflexivity.
  - discriminate.
  - vm_compute. reflexivity.
  - reflexivity.
Defined.

Example stale_coefficient_after_air :
  QuenchingConditions.heat_transfer_coefficient
    (SimulationRequest.quenching
       (InputForm.handleQuenchMediumChange (Some Cases4.two_media) "air"
          (InputForm.handleQuenchMediumChange (Some Cases4.two_media) "water"
             Api.createDefaultSimulationRequest)))
  = Some (Double.of_Q 4000).
Proof. vm_compute. reflexivity. Qed.

(** ** The ranges the composition fields announce *)

(** The range the form schema enforces for a composition field, given the
    maximum of the field's entry in the form's list: from 0 to the maximum,
    except that carbon starts at 0.01. *)
Lemma composition_field_schema (name : string) (get : SteelCompositionInput.t -> jsnum)
    (max : Q) :
  In (name, get, max) FormState.composition_fields ->
  exists fields,
    In ("steel_composition", fields) InputForm.validationSchema
    /\ In (name, InputForm.YupNumber (InputForm.steel get)
                   (if decide (name = "C") then 0.01 else 0.0) max) fields.
Proof.
  intros Hfield. eexists. split; [unfold InputForm.validationSchema; left; reflexivity|].
  unfold FormState.composition_fields in Hfield. cbn [In] in Hfield.
  repeat (destruct Hfield as [Hfield|Hfield];
          [injection Hfield as <- <- <-; cbn [In];
           repeat (first [left; reflexivity | right])|]).
  contradiction.
Qed.

(** X19.  The form lists thirteen composition fields, each with a maximum
    from which it builds the field's tooltip text, "content (0 - max wt%)"
    (a text that [renderTextField] receives and does not show).  These are
    the thirteen number fields of the schema's composition, and the schema
    reports such a field exactly when its value is not a number between 0
    and that maximum, except that carbon must be at least 0.01: so a value
    within the range of the text is refused only for carbon below 0.01. *)
Theorem announced_composition_range_is_accepted (values : SimulationRequest.t) :
  (forall name get max,
      In (name, get, max) FormState.composition_fields ->
      let value := get (SimulationRequest.steel_composition values) in
      let reported :=
        In ("steel_composition." ++ name)%string (InputForm.validationSchema_errors values) in
      (reported <-> ~ within value (if decide (name = "C") then 0.01 else 0.0) max)
      /\ (forall x, value = Some x -> 0 <= x <= max ->
          (reported <-> name = "C" /\ x < 0.01)))
  /\ (forall fields name get lo hi,
        In ("steel_composition", fields) InputForm.validationSchema ->
        In (name, InputForm.YupNumber get lo hi) fields ->
        exists get' max,
          In (name, get', max) FormState.composition_fields
          /\ get = InputForm.steel get' /\ hi = max
          /\ lo = if decide (name = "C") then 0.01 else 0.0).
Proof.
  split.
  - intros name get max Hfield. cbv zeta.
    destruct (composition_field_schema name get max Hfield) as (fields & Hsec & Hfld).
    pose proof (validationSchema_reports_iff values "steel_composition" name fields
                  (InputForm.steel get) _ max Hsec Hfld) as Hiff.
    split; [exact Hiff|].
    intros x Hx Hrange. rewrite Hiff. unfold InputForm.steel, within. rewrite Hx.
    destruct (decide (name = "C")) as [->|Hname].
    + split.
      * intros Hn. split; [reflexivity|].
        destruct (Qlt_le_dec x 0.01) as [H|H]; [exact H|].
        exfalso. apply Hn. exists x. split; [reflexivity | lra].
      * intros [_ Hlow] (y & [= <-] & Hy). lra.
    + split.
      * intros Hn. exfalso. apply Hn. exists x. split; [reflexivity | lra].
      * intros [Hc _]. contradiction.
  - intros fields name get lo hi Hsec Hfld.
    unfold InputForm.validationSchema in Hsec. cbn [In] in Hsec.
    repeat (destruct Hsec as [Hsec|Hsec]; [try discriminate Hsec|]); [|contradiction].
    injection Hsec as <-. cbn [In] in Hfld.
    repeat (destruct Hfld as [Hfld|Hfld];
            [first [discriminate Hfld
                   | injection Hfld as <- <- <- <-;
                     eexists _, _; split; [|split; [reflexivity|split; reflexivity]];
                     unfold FormState.composition_fields; cbn [In];
                     repeat (first [left; reflexivity | right])]|]).
    contradiction.
Qed.

(** Manganese: 0.80 is within the range, and accepted; 3.5 is not. *)
Lemma announced_composition_range_is_accepted_witness :
  ~ In "steel_composition.Mn"
       (InputForm.validationSchema_errors Api.createDefaultSimulationRequest).
Proof.
  intros H.
  apply (proj2 (proj1 (announced_composition_range_is_accepted
                         Api.createDefaultSimulationRequest)
                  "Mn" SteelCompositionInput.Mn 3.0
                  ltac:(do 2 right; left; reflexivity))
           0.80 eq_refl ltac:(lra)) in H.
  destruct H as [H _]. discriminate H.
Defined.

(** ** The selection of grades to compare *)

Lemma without_sublist (x : string) (l : list string) :
  sublist (List.filter (fun s => negb (String.eqb s x)) l) l.
Proof.
  induction l as [|y l IH]; cbn; [constructor|].
  destruct (negb (String.eqb y x)); [apply sublist_skip | apply sublist_cons]; exact IH.
Qed.

Lemma count_occ_without (x y : string) (l : list string) :
  y <> x ->
  count_occ String.string_dec (List.filter (fun s => negb (String.eqb s x)) l) y
  = count_occ String.string_dec l y.
Proof.
  intros Hy. induction l as [|z l IH]; cbn; [reflexivity|].
  destruct (String.eqb_spec z x) as [->|Hz]; cbn.
  - destruct (String.string_dec x y) as [E|_]; [congruence | exact IH].
  - destruct (String.string_dec z y); rewrite IH; reflexivity.
Qed.

(** X20.  Removing a grade takes out every occurrence of it and nothing
    else: the new selection is the old one with elements left out, in the
    same order, and every other grade occurs in it as often as before;
    removing a grade that is not selected changes nothing.  It can only
    disable the Run button, never enable it; and whenever the button is
    enabled, running the comparison does call [onCompare] with the
    selection. *)
Theorem handleRemoveGrade_only_removes onCompare (gradeToRemove : string)
    (s : MaterialComparison.state) (tr : list MaterialComparison.event) (loading : bool) :
  let prev := MaterialComparison.selectedGrades s in
  let next := GradeSelection.handleRemoveGrade gradeToRemove prev in
  sublist next prev
  /\ ~ In gradeToRemove next
  /\ (forall grade, grade <> gradeToRemove ->
        count_occ String.string_dec next grade = count_occ String.string_dec prev grade)
  /\ (forall before after,
        prev = (before ++ gradeToRemove :: after)%list ->
        ~ In gradeToRemove before -> ~ In gradeToRemove after ->
        next = (before ++ after)%list)
  /\ (forall grade, In grade next <-> In grade prev /\ grade <> gradeToRemove)
  /\ (~ In gradeToRemove prev -> next = prev)
  /\ (List.NoDup prev -> List.NoDup next)
  /\ (List.length next <= List.length prev)%nat
  /\ (GradeSelection.run_disabled loading next = false ->
      GradeSelection.run_disabled loading prev = false)
  /\ (GradeSelection.run_disabled loading prev = false ->
      snd (MaterialComparison.handleRunComparison onCompare s tr)
      = (tr ++ [ MaterialComparison.OnCompare prev
                   (MaterialComparison.processConditions s) ])%list).
Proof.
  cbv zeta. unfold GradeSelection.handleRemoveGrade.
  split; [apply without_sublist|].
  split; [intros H; apply In_without in H; destruct H as [_ H]; now apply H|].
  split; [intros grade; apply count_occ_without|].
  split.
  { intros before after -> Hb Ha. rewrite List.filter_app. cbn.
    rewrite String.eqb_refl. cbn.
    rewrite (without_absent _ _ Hb), (without_absent _ _ Ha). reflexivity. }
  split; [intros grade; apply In_without|].
  split; [apply without_absent|].
  split; [apply NoDup_without|].
  assert (Hlen : (List.length
                    (List.filter (fun grade => negb (String.eqb grade gradeToRemove))
                       (MaterialComparison.selectedGrades s))
                  <= List.length (MaterialComparison.selectedGrades s))%nat)
    by apply List.filter_length_le.
  split; [exact Hlen|].
  unfold GradeSelection.run_disabled. split.
  - rewrite !Bool.orb_false_iff, !Nat.ltb_ge. intros [-> H]. split; [reflexivity | lia].
  - rewrite Bool.orb_false_iff. intros [_ Hmany].
    unfold MaterialComparison.handleRunComparison, Eff.bind, Eff.get, Eff.try_catch,
      Eff.await, MaterialComparison.setError, MaterialComparison.setComparisonResults,
      Eff.modify.
    rewrite Hmany. cbn.
    destruct (onCompare _ _); reflexivity.
Qed.

Lemma handleRemoveGrade_only_removes_witness :
  GradeSelection.handleRemoveGrade "9310" ["8620"; "4320"] = ["8620"; "4320"]
  /\ GradeSelection.handleRemoveGrade "9310" ["8620"; "9310"; "4320"] = ["8620"; "4320"]
  /\ snd (MaterialComparison.handleRunComparison Samples.failing_onCompare
            (Samples.comparison_state ["8620"; "4320"]) [])
     = [ MaterialComparison.OnCompare ["8620"; "4320"] Samples.conditions ].
Proof.
  pose proof (handleRemoveGrade_only_removes Samples.failing_onCompare "9310"
                (Samples.comparison_state ["8620"; "4320"]) [] false) as H.
  pose proof (handleRemoveGrade_only_removes Samples.failing_onCompare "9310"
                (Samples.comparison_state ["8620"; "9310"; "4320"]) [] false) as H'.
  cbv zeta in H, H'.
  destruct H as (_ & _ & _ & _ & _ & Habsent & _ & _ & _ & Hrun).
  destruct H' as (_ & _ & _ & Hsplit & _).
  split; [|split].
  - apply Habsent. cbn. intros [H|[H|[]]]; discriminate H.
  - apply (Hsplit ["8620"] ["4320"]).
    + reflexivity.
    + cbn. intros [H|[]]; discriminate H.
    + cbn. intros [H|[]]; discriminate H.
  - apply Hrun. reflexivity.
Defined.

Lemma split_commas_cons (s : string) :
  exists piece pieces, GradeSelection.split_commas s = piece :: pieces.
Proof.
  destruct s as [|c rest]; cbn; [eauto|].
  destruct (Ascii.eqb c ","); [eauto|].
  destruct (GradeSelection.split_commas rest); eauto.
Qed.

(** X21.  A selection that arrives as one string is cut at its commas:
    joining the grades with commas gives the string back, no grade contains
    a comma, and there is one grade more than there are commas.  So a string
    without a comma selects exactly one grade, itself, even when it is
    empty.  A selection that arrives as an array is taken as it is. *)
Theorem handleGradeSelection_splits (value : string) (grades : list string) :
  let selected := GradeSelection.handleGradeSelection (GradeSelection.AsString value) in
  String.concat "," selected = value
  /\ Forall (fun grade => ~ In ","%char (String.list_ascii_of_string grade)) selected
  /\ List.length selected
     = S (List.length (List.filter (Ascii.eqb ",") (String.list_ascii_of_string value)))
  /\ (~ In ","%char (String.list_ascii_of_string value) -> selected = [value])
  /\ GradeSelection.handleGradeSelection (GradeSelection.AsArray grades) = grades.
Proof.
  cbv zeta. cbn [GradeSelection.handleGradeSelection].
  split; [|split; [|split; [|split; [|reflexivity]]]].
  - induction value as [|c rest IH]; [reflexivity|].
    cbn [GradeSelection.split_commas].
    destruct (Ascii.eqb_spec c ",") as [->|Hc].
    + destruct (split_commas_cons rest) as (piece & pieces & E).
      rewrite E in *. cbn [String.concat]. cbn [String.concat] in IH.
      rewrite IH. reflexivity.
    + destruct (split_commas_cons rest) as (piece & pieces & E).
      rewrite E in *. destruct pieces as [|piece' pieces].
      * cbn [String.concat] in IH |- *. now rewrite IH.
      * change (String.concat "," (String c piece :: piece' :: pieces))
          with (String c (String.concat "," (piece :: piece' :: pieces))).
        now rewrite IH.
  - induction value as [|c rest IH]; [repeat constructor; intros []|].
    cbn [GradeSelection.split_commas].
    destruct (Ascii.eqb_spec c ",") as [->|Hc].
    + constructor; [intros []|exact IH].
    + destruct (split_commas_cons rest) as (piece & pieces & E).
      rewrite E in *. inversion IH as [|? ? Hpiece Hpieces]; subst.
      constructor; [|exact Hpieces].
      cbn. intros [H|H]; [congruence | contradiction].
  - induction value as [|c rest IH]; [reflexivity|].
    cbn [GradeSelection.split_commas String.list_ascii_of_string List.filter].
    rewrite (Ascii.eqb_sym "," c).
    destruct (Ascii.eqb c ",").
    + cbn [List.length]. now rewrite IH.
    + destruct (split_commas_cons rest) as (piece & pieces & E).
      rewrite E in *. exact IH.
  - induction value as [|c rest IH]; [reflexivity|].
    cbn [String.list_ascii_of_string In]. intros Hnone.
    cbn [GradeSelection.split_commas].
    destruct (Ascii.eqb_spec c ",") as [->|Hc]; [exfalso; apply Hnone; now left|].
    rewrite IH; [reflexivity|]. intros H. apply Hnone. now right.
Qed.

Lemma handleGradeSelection_splits_witness :
  GradeSelection.handleGradeSelection (GradeSelection.AsString "8620") = ["8620"].
Proof.
  apply (proj1 (proj2 (proj2 (proj2 (handleGradeSelection_splits "8620" []))))).
  cbn. intros H. repeat (destruct H as [H|H]; [discriminate H|]). exact H.
Defined.

Example handleGradeSelection_two_grades :
  GradeSelection.handleGradeSelection (GradeSelection.AsString "8620,4320")
  = ["8620"; "4320"]
  /\ GradeSelection.handleGradeSelection (GradeSelection.AsString "") = [""].
Proof. split; reflexivity. Qed.

(** ** Editing the comparison's process conditions *)

(** X22.  [handleProcessConditionChange] writes one field of one section:
    the field reads back as the value given, the other fields of the
    section and all other sections are as before (a section that was not
    there is created with that field alone), a second write to the same
    field replaces the first, and writes to different fields can be made in
    either order. *)
Theorem handleProcessConditionChange_writes_one_field {V : Type}
    (section field : string) (value value' : V) (prev : gmap string (gmap string V)) :
  let change := @GradeSelection.handleProcessConditionChange V in
  let next := change section field value prev in
  (next !! section ≫= (fun fields => fields !! field)) = Some value
  /\ (forall other, other <> field ->
        (next !! section ≫= (fun fields => fields !! other))
        = (prev !! section ≫= (fun fields => fields !! other)))
  /\ (forall other, other <> section -> next !! other = prev !! other)
  /\ (prev !! section = None -> next !! section = Some {[ field := value ]})
  /\ change section field value' next = change section field value' prev
  /\ (forall section2 field2 value2,
        (section2, field2) <> (section, field) ->
        change section2 field2 value2 next
        = change section field value (change section2 field2 value2 prev)).
Proof.
  cbv zeta. unfold GradeSelection.handleProcessConditionChange.
  split; [|split; [|split; [|split; [|split]]]].
  - rewrite lookup_insert_eq. cbn. apply lookup_insert_eq.
  - intros other Hother. rewrite lookup_insert_eq. cbn.
    rewrite lookup_insert_ne by congruence.
    destruct (prev !! section); [reflexivity | apply lookup_empty].
  - intros other Hother. apply lookup_insert_ne. congruence.
  - intros ->. rewrite lookup_insert_eq. cbn. now rewrite insert_empty.
  - rewrite lookup_insert_eq. cbn. now rewrite insert_insert_eq, insert_insert_eq.
  - intros section2 field2 value2 Hne.
    destruct (decide (section2 = section)) as [->|Hsection].
    + assert (field2 <> field) by congruence.
      rewrite !lookup_insert_eq. cbn. rewrite !insert_insert_eq.
      f_equal. apply insert_insert_ne. congruence.
    + rewrite (lookup_insert_ne _ section section2) by congruence.
      rewrite (lookup_insert_ne _ section2 section) by congruence.
      apply insert_insert_ne. congruence.
Qed.

Lemma handleProcessConditionChange_writes_one_field_witness :
  GradeSelection.handleProcessConditionChange "tempering" "temperature" 180%Z
    (∅ : gmap string (gmap string Z)) !! "tempering"
  = Some {[ "temperature" := 180%Z ]}.
Proof.
  apply (proj1 (proj2 (proj2 (proj2 (handleProcessConditionChange_writes_one_field
                                       "tempering" "temperature" 180%Z 0%Z ∅))))).
  apply lookup_empty.
Defined.

(** ** The radar chart of the quality report *)

(** X23.  The radar chart of a result has two traces over the same four
    categories, each with one radius per category; every radius of the
    current quality lies on the radial axis [0, 100] and does not exceed
    the target's radius; the two traces coincide exactly when all four
    checks pass. *)
Theorem qualitySpiderChart_within_target (results : SimulationResults.t) :
  exists current target,
    SpiderChart.qualitySpiderChart (QualityReport.qualityMetrics (Some results))
    = Some (current, target)
    /\ SpiderChart.theta current = SpiderChart.theta target
    /\ List.length (SpiderChart.r current) = List.length (SpiderChart.theta current)
    /\ List.length (SpiderChart.r target) = List.length (SpiderChart.theta target)
    /\ Forall2 (fun now goal =>
                  fst SpiderChart.radial_range <= now
                  /\ now <= goal
                  /\ goal <= snd SpiderChart.radial_range)
         (SpiderChart.r current) (SpiderChart.r target)
    /\ (SpiderChart.r current = SpiderChart.r target
        <-> QualityReport.flags (SimulationResults.quality_assessment results)
            = [true; true; true; true]).
Proof.
  eexists. eexists. split; [reflexivity|].
  cbn [SpiderChart.theta SpiderChart.r QualityReport.qualityMetrics map
         QualityReport.score QualityReport.category List.length fst snd
         SpiderChart.radial_range].
  unfold QualityReport.flags.
  destruct (QualityAssessment.surface_hardness_ok _),
    (QualityAssessment.case_depth_ok _),
    (QualityAssessment.core_hardness_ok _),
    (QualityAssessment.grain_size_ok _);
    (split; [reflexivity|]); (split; [reflexivity|]); (split; [reflexivity|]);
    (split; [repeat constructor; cbn; lra|]);
    split; intros H; try reflexivity; discriminate H.
Qed.

(** ** Cooling rates *)







(** The rates are rounded: over the steps 0.1 s and 0.2 s, temperature
    drops of 0.1 and 0.3 degrees give neither 3600 nor 5400. *)
Example coolingRates_sample :
  ThermalAnalysis.coolingRates Cases5.quench_time Cases5.quench_temperature
  = [ Double.of_Q 79200; Double.of_Q 72000; Double.Infinity; Double.NaN ]
  /\ ThermalAnalysis.coolingRates (ThermalAnalysis.doubles [0; 0.1; 0.3])
       (ThermalAnalysis.doubles [920; 919.9; 919.6])
     = [ Double.of_Q 3600.0000000008185; Double.of_Q 5399.9999999991815 ].
Proof. split; vm_compute; reflexivity. Qed.

(** ** The time axis of the thermal cycle *)


(** A double other than [NaN] equals itself. *)
Lemma eqb_refl (x : Double.t) : x <> Double.NaN -> Double.eqb x x = true.
Proof.
  intros Hx. destruct x as [s|s| |s m e]; [reflexivity | destruct s; reflexivity
                                          | contradiction |].
  unfold Double.eqb, SFeqb, SFcompare.
  rewrite Z.compare_refl, Pos.compare_cont_refl. destruct s; reflexivity.
Qed.




(** A quench sample taken a little after time zero is drawn where the
    tempering starts, too: the sum absorbs it. *)
Example quench_position_absorbed :
  ThermalAnalysis.quenching_axis Cases5.carburizing_time [Double.of_Q 1e-12]
  = [Double.of_Q 6].
Proof. vm_compute. reflexivity. Qed.

(** ** A comparison that fails behind the interceptor *)

(** X26.  When the comparison request fails behind the error interceptor,
    the application's snackbar always reads ['Material comparison failed']
    (the enhanced error carries no response body to quote), while the
    comparison tab, given two or more grades, shows the interceptor's own
    message, or ['Comparison failed'] if that is empty; the earlier
    comparison results are kept. *)
Theorem failed_comparison_messages compareMaterials (failure : AxiosError.t)
    (app : App.state) (s : MaterialComparison.state)
    (tr : list MaterialComparison.event) :
  let grades := MaterialComparison.selectedGrades s in
  let conditions := MaterialComparison.processConditions s in
  compareMaterials (ApiService.compareMaterials_request grades conditions)
  = ApiService.intercepted (inl failure) ->
  (2 <= List.length grades)%nat ->
  let '(_, _, log) :=
    AppOps.handleMaterialComparison compareMaterials grades conditions app [] in
  let '(outcome, s', _) :=
    MaterialComparison.handleRunComparison (AppOps.onCompare compareMaterials app) s tr in
  AppOps.notifications log = [("Material comparison failed", "error")]
  /\ outcome = Eff.Return tt
  /\ MaterialComparison.error s'
     = Some (JS.or_str (Some (ApiService.errorMessage (ApiService.handleApiError failure)))
                       "Comparison failed")
  /\ MaterialComparison.comparisonResults s' = MaterialComparison.comparisonResults s.
Proof.
  cbv zeta. intros Hfail Hmany.
  unfold MaterialComparison.handleRunComparison, AppOps.onCompare, AppOps.settled,
    AppOps.handleMaterialComparison, Eff.try_finally, Eff.try_catch, Eff.bind, Eff.get,
    Eff.await, AppOps.setLoading, AppOps.showNotification, MaterialComparison.setError,
    MaterialComparison.setComparisonResults, Eff.modify, Eff.emit, Eff.throw, Eff.ret.
  destruct (Nat.ltb_spec (List.length (MaterialComparison.selectedGrades s)) 2) as [Hlt|_];
    [lia|].
  cbn. rewrite Hfail. cbn. repeat split.
Qed.

Lemma failed_comparison_messages_witness :
  let '(outcome, s', _) :=
    MaterialComparison.handleRunComparison
      (AppOps.onCompare Cases2.failing_compareMaterials Samples.app_state)
      (Samples.comparison_state ["8620"; "4320"]) [] in
  MaterialComparison.error s' = Some "Validation error".
Proof.
  pose proof (failed_comparison_messages Cases2.failing_compareMaterials
                Cases.unprocessable Samples.app_state
                (Samples.comparison_state ["8620"; "4320"]) [] eq_refl) as H.
  cbn in H |- *. destruct H as (_ & _ & Herror & _); [lia | exact Herror].
Defined.
